(** * The vector-compiler driver (IGC/VectorCompiler/lib/Driver/Driver.cpp)

    A shallow embedding of the driver pipeline and of the option-resolution
    engine.  Everything that Driver.cpp itself computes is a definition
    below, named after the C++ function it embeds.  The LLVM and IGC
    services the driver calls (the IR parser and verifier, the option
    tables, the target registry, the pass pipelines) are interfaces, one
    class each: the theorems hold for every behaviour of those services. *)

From Stdlib Require Import String Ascii List Bool Arith NArith Lia.
Import ListNotations.
Open Scope string_scope.
Open Scope list_scope.

Set Implicit Arguments.

(** ** llvm::StringRef operations used by the driver *)

Module StringRef.

(** [S.startswith(Prefix)]. *)
Definition startswith (S Prefix : string) : bool := String.prefix Prefix S.

Definition drop_front (n : nat) (S : string) : string :=
  substring n (String.length S - n) S.

(** [S.consume_front(Prefix)]: the flag, and the string left in [S]. *)
Definition consume_front (S Prefix : string) : bool * string :=
  if startswith S Prefix then (true, drop_front (String.length Prefix) S)
  else (false, S).

(** The default character set of [trim]: space, \t, \n, \v, \f, \r. *)
Definition is_trim_char (c : ascii) : bool :=
  match nat_of_ascii c with
  | 32 | 9 | 10 | 11 | 12 | 13 => true
  | _ => false
  end.

Fixpoint ltrim (S : string) : string :=
  match S with
  | String c S' => if is_trim_char c then ltrim S' else S
  | EmptyString => EmptyString
  end.

Fixpoint rtrim (S : string) : string :=
  match S with
  | String c S' =>
      match rtrim S' with
      | EmptyString => if is_trim_char c then EmptyString else String c EmptyString
      | R => String c R
      end
  | EmptyString => EmptyString
  end.

Definition trim (S : string) : string := rtrim (ltrim S).

(** [S.split(A, Sep, -1, /*KeepEmpty=*/false)] for a one-character
    separator: the pieces between separators, empty pieces dropped. *)
Fixpoint split_from (Sep : ascii) (Piece S : string) : list string :=
  match S with
  | EmptyString => if String.eqb Piece "" then [] else [Piece]
  | String c S' =>
      if Ascii.eqb c Sep
      then (if String.eqb Piece "" then [] else [Piece]) ++ split_from Sep "" S'
      else split_from Sep (Piece ++ String c "") S'
  end.

Definition split (S : string) (Sep : ascii) : list string := split_from Sep "" S.

Definition empty (S : string) : bool := String.eqb S "".

End StringRef.

(** [llvm::join(values, Sep)]. *)
Definition join (Values : list string) (Sep : string) : string :=
  String.concat Sep Values.

(** ** Enumerations of vc/Driver/Driver.h, as Driver.cpp uses them *)

Module FileType.
Inductive t := SPIRV | LLVM_TEXT | LLVM_BINARY.
End FileType.

Module OptimizerLevel.
Inductive t := None | Full.
End OptimizerLevel.

Module BinaryKind.
Inductive t := CM | OpenCL | ZE.

Definition eqb (a b : t) : bool :=
  match a, b with
  | CM, CM | OpenCL, OpenCL | ZE, ZE => true
  | _, _ => false
  end.
End BinaryKind.

Module FPOpFusion.
Inductive FPOpFusionMode := Fast | Standard | Strict.
End FPOpFusion.

Module CodeGenOpt.
Inductive Level := None | Default.
End CodeGenOpt.

(** The tri-state option enumerations read through
    [getDefaultOverridableFlag]: [Enable], [Disable], and any other member,
    which leaves the default in force. *)
Module OverridableFlag.
Inductive t := Default | Enable | Disable.
End OverridableFlag.

(** ** Error taxonomy (vc/Support/Status.h) and llvm::Expected *)

(** Driver.cpp constructs five error kinds.  Modelled from the spec:
    [ModuleParseFailure] is the sixth kind of the taxonomy (a textual-IR
    syntax error); its declaration is in vc/Support/Status.h, which is not
    among the sources, and no statement of Driver.cpp constructs it. *)
Inductive Error :=
| InvalidModuleError
| BadBitcodeError (Message : string)
| TargetMachineError
| OptionError (BadOpt : string) (IsInternal : bool)
| NotVCError
| ModuleParseFailure.

Inductive Expected (T : Type) :=
| Value (v : T)
| Failure (e : Error).
Arguments Failure {T} e.

(** [!Exp]: the Expected is in the error state. *)
Definition in_error_state {T : Type} (Exp : Expected T) : bool :=
  match Exp with
  | Value _ => false
  | Failure _ => true
  end.

(** ** IR modules, support buffers, outputs *)

Record Function := mkFunction {
  isDeclaration : bool;
  FunctionBody : string
}.

Record IRModule := mkIRModule {
  getTargetTriple : string;
  getDataLayout : string;
  functions : list Function
}.

Definition setTargetTriple (T : string) (M : IRModule) : IRModule :=
  {| getTargetTriple := T; getDataLayout := getDataLayout M; functions := functions M |}.

Definition setDataLayout (DL : string) (M : IRModule) : IRModule :=
  {| getTargetTriple := getTargetTriple M; getDataLayout := DL; functions := functions M |}.

Definition setFunctions (Fs : list Function) (M : IRModule) : IRModule :=
  {| getTargetTriple := getTargetTriple M; getDataLayout := getDataLayout M; functions := Fs |}.

(** An llvm::MemoryBuffer, by its bytes. *)
Definition MemoryBuffer := string.

(** The external dumper and shader-override objects, by identity. *)
Definition ShaderDumper := nat.
Definition ShaderOverrider := nat.

(** [GenXOCLRuntimeInfo::CompiledModuleT]: the per-kernel runtime metadata
    the extractor pass harvests; one entry per kernel. *)
Definition CompiledModuleT := list string.

Module cm.
Record CompileOutput := mkCompileOutput { IsaBinary : string }.
End cm.

Module ocl.
Definition CompileOutput := CompiledModuleT.
End ocl.

(** [vc::CompileOutput], a variant of the two output shapes. *)
Inductive CompileOutput :=
| CmOutput (Output : cm.CompileOutput)
| OclOutput (Output : ocl.CompileOutput).

(** ** vc::CompileOptions and vc::ExternalData *)

Record CompileOptions := mkCompileOptions {
  FType : FileType.t;
  CPUStr : string;
  StackMemSize : option N;
  ForceLiveRangesLocalizationForAccUsage : bool;
  ForceDisableNonOverlappingRegionOpt : bool;
  IsLargeGRFMode : bool;
  DisableFinalizerMsg : bool;
  NoOptFinalizerMode : OverridableFlag.t;
  DisableLRCoalescingMode : OverridableFlag.t;
  EmitDebuggableKernels : bool;
  EmitExtendedDebug : bool;
  ForceDebugInfoValidation : bool;
  SaveStackCallLinkage : bool;
  UsePlain2DImages : bool;
  EnablePreemption : bool;
  AllowFPOpFusion : FPOpFusion.FPOpFusionMode;
  OptLevel : OptimizerLevel.t;
  Binary : BinaryKind.t;
  FeaturesString : string;
  LLVMOptions : string;
  NoVecDecomp : bool;
  NoJumpTables : bool;
  TranslateLegacyMemoryIntrinsics : bool;
  DisableStructSplitting : bool;
  UseBindlessBuffers : bool;
  HasL1ReadOnlyCache : bool;
  HasLocalMemFenceSupress : bool;
  FCtrl : N;
  WATable : option nat;
  DumpIsa : bool;
  DumpIR : bool;
  DumpAsm : bool;
  DumpDebugInfo : bool;
  TimePasses : bool;
  ShowStats : bool;
  StatsFile : string;
  Dumper : option ShaderDumper;
  ShaderOverrider_ : option ShaderOverrider
}.

(** Field assignment [Opts.F = v].  The setter of a field is the record's
    eta-expansion with that one projection replaced. *)
Definition CompileOptions_eta (o : CompileOptions) : CompileOptions :=
  mkCompileOptions (FType o) (CPUStr o) (StackMemSize o)
    (ForceLiveRangesLocalizationForAccUsage o)
    (ForceDisableNonOverlappingRegionOpt o) (IsLargeGRFMode o)
    (DisableFinalizerMsg o) (NoOptFinalizerMode o) (DisableLRCoalescingMode o)
    (EmitDebuggableKernels o) (EmitExtendedDebug o) (ForceDebugInfoValidation o)
    (SaveStackCallLinkage o) (UsePlain2DImages o) (EnablePreemption o)
    (AllowFPOpFusion o) (OptLevel o) (Binary o) (FeaturesString o)
    (LLVMOptions o) (NoVecDecomp o) (NoJumpTables o)
    (TranslateLegacyMemoryIntrinsics o) (DisableStructSplitting o)
    (UseBindlessBuffers o) (HasL1ReadOnlyCache o) (HasLocalMemFenceSupress o)
    (FCtrl o) (WATable o) (DumpIsa o) (DumpIR o) (DumpAsm o) (DumpDebugInfo o)
    (TimePasses o) (ShowStats o) (StatsFile o) (Dumper o) (ShaderOverrider_ o).

Ltac field_setter proj :=
  let e := eval cbv delta [CompileOptions_eta] in CompileOptions_eta in
  match eval pattern proj in e with
  | ?s proj =>
      let t := eval cbv beta in (fun v => s (fun _ : CompileOptions => v)) in
      exact t
  end.

Definition set_StackMemSize : option N -> CompileOptions -> CompileOptions :=
  ltac:(field_setter StackMemSize).
Definition set_IsLargeGRFMode : bool -> CompileOptions -> CompileOptions :=
  ltac:(field_setter IsLargeGRFMode).
Definition set_DisableFinalizerMsg : bool -> CompileOptions -> CompileOptions :=
  ltac:(field_setter DisableFinalizerMsg).
Definition set_EmitDebuggableKernels : bool -> CompileOptions -> CompileOptions :=
  ltac:(field_setter EmitDebuggableKernels).
Definition set_EmitExtendedDebug : bool -> CompileOptions -> CompileOptions :=
  ltac:(field_setter EmitExtendedDebug).
Definition set_UsePlain2DImages : bool -> CompileOptions -> CompileOptions :=
  ltac:(field_setter UsePlain2DImages).
Definition set_EnablePreemption : bool -> CompileOptions -> CompileOptions :=
  ltac:(field_setter EnablePreemption).
Definition set_AllowFPOpFusion :
  FPOpFusion.FPOpFusionMode -> CompileOptions -> CompileOptions :=
  ltac:(field_setter AllowFPOpFusion).
Definition set_OptLevel : OptimizerLevel.t -> CompileOptions -> CompileOptions :=
  ltac:(field_setter OptLevel).
Definition set_Binary : BinaryKind.t -> CompileOptions -> CompileOptions :=
  ltac:(field_setter Binary).
Definition set_FeaturesString : string -> CompileOptions -> CompileOptions :=
  ltac:(field_setter FeaturesString).
Definition set_LLVMOptions : string -> CompileOptions -> CompileOptions :=
  ltac:(field_setter LLVMOptions).
Definition set_NoVecDecomp : bool -> CompileOptions -> CompileOptions :=
  ltac:(field_setter NoVecDecomp).
Definition set_NoJumpTables : bool -> CompileOptions -> CompileOptions :=
  ltac:(field_setter NoJumpTables).
Definition set_TranslateLegacyMemoryIntrinsics :
  bool -> CompileOptions -> CompileOptions :=
  ltac:(field_setter TranslateLegacyMemoryIntrinsics).
Definition set_DisableStructSplitting : bool -> CompileOptions -> CompileOptions :=
  ltac:(field_setter DisableStructSplitting).
Definition set_UseBindlessBuffers : bool -> CompileOptions -> CompileOptions :=
  ltac:(field_setter UseBindlessBuffers).
Definition set_DumpIsa : bool -> CompileOptions -> CompileOptions :=
  ltac:(field_setter DumpIsa).
Definition set_DumpIR : bool -> CompileOptions -> CompileOptions :=
  ltac:(field_setter DumpIR).
Definition set_DumpAsm : bool -> CompileOptions -> CompileOptions :=
  ltac:(field_setter DumpAsm).
Definition set_TimePasses : bool -> CompileOptions -> CompileOptions :=
  ltac:(field_setter TimePasses).
Definition set_ShowStats : bool -> CompileOptions -> CompileOptions :=
  ltac:(field_setter ShowStats).
Definition set_StatsFile : string -> CompileOptions -> CompileOptions :=
  ltac:(field_setter StatsFile).

(** The handles are dereferenced unconditionally by [createBackendData]:
    the bundle is taken fully populated. *)
Record ExternalData := mkExternalData {
  OCLGenericBIFModule : MemoryBuffer;
  VCEmulationBIFModule : MemoryBuffer;
  VCSPIRVBuiltinsBIFModule : MemoryBuffer;
  VCPrintf32BIFModule : MemoryBuffer;
  VCPrintf64BIFModule : MemoryBuffer
}.

(** ** GenXBackendOptions and GenXBackendData (vc/Support/BackendConfig.h),
       the fields the driver assigns *)

Module BiFKind.
Inductive t := OCLGeneric | VCEmulation | VCSPIRVBuiltins | VCPrintf.
End BiFKind.

Module Backend.

Record GenXBackendOptions := mkGenXBackendOptions {
  StackSurfaceMaxSize : N;
  StatelessPrivateMemSize : N;
  DebuggabilityEmitDebuggableKernels : bool;
  DebuggabilityForLegacyPath : bool;
  DebuggabilityZeBinCompatibleDWARF : bool;
  DebuggabilityEmitBreakpoints : bool;
  DebuggabilityExtendedDebug : bool;
  DebuggabilityValidateDWARF : bool;
  DisableFinalizerMsg : bool;
  EnableAsmDumps : bool;
  EnableDebugInfoDumps : bool;
  Dumper : option ShaderDumper;
  ShaderOverrider : option ShaderOverrider;
  DisableStructSplitting : bool;
  ForceArrayPromotion : bool;
  LocalizeLRsForAccUsage : bool;
  DisableNonOverlappingRegionOpt : bool;
  FCtrl : N;
  WATable : option nat;
  IsLargeGRFMode : bool;
  UseBindlessBuffers : bool;
  SaveStackCallLinkage : bool;
  UsePlain2DImages : bool;
  EnablePreemption : bool;
  DisableLiveRangesCoalescing : bool
}.

Record GenXBackendData := mkGenXBackendData {
  BiFModule : BiFKind.t -> MemoryBuffer
}.

End Backend.

(** ** Passes, target machines, and the observable effects of a run *)

Record TargetOptions := mkTargetOptions {
  TargetOptions_AllowFPOpFusion : FPOpFusion.FPOpFusionMode
}.

(** A constructed target machine, by the arguments it was constructed from. *)
Record TargetMachine := mkTargetMachine {
  TM_TargetTriple : string;
  TM_CPU : string;
  TM_FeatureString : string;
  TM_Options : TargetOptions;
  TM_OptLevel : CodeGenOpt.Level
}.

(** Pass descriptors: what the driver puts into a pass manager.
    [LibraryPass] stands for a pass added by LLVM itself (by the pipeline
    builder or by the target machine's file-emission pipeline). *)
Inductive Pass :=
| TargetTransformInfoWrapperPass (TM : TargetMachine)
| TargetLibraryInfoWrapperPass (Triple : string)
| GenXBackendConfig (Opts : Backend.GenXBackendOptions) (Data : Backend.GenXBackendData)
| GenXSPIRVReaderAdaptorPass
| GenXRestoreIntrAttrPass
| GenXOCLInfoExtractorPass
| FunctionInliningPass (OptLevel SizeOptLevel : nat) (DisableInlineHotCallSite : bool)
| LibraryPass (Name : string).

Record PassManagerBuilder := mkPassManagerBuilder {
  Inliner : option Pass;
  PMB_OptLevel : nat;
  PMB_SizeLevel : nat;
  SLPVectorize : bool;
  LoopVectorize : bool;
  DisableUnrollLoops : bool;
  MergeFunctions : bool;
  PrepareForThinLTO : bool;
  PrepareForLTO : bool;
  RerollLoops : bool
}.

(** What one run of a pass manager over a module leaves behind: the module,
    the text the emission passes wrote to their output stream, and the
    runtime information the extractor pass stored. *)
Record PassRun := mkPassRun {
  ModuleAfter : IRModule;
  Emitted : string;
  RuntimeInfo : CompiledModuleT
}.

(** The two output streams the code generator is pointed at. *)
Inductive raw_pwrite_stream := raw_svector_ostream | raw_null_ostream.

(** The bytes found in the capture buffer after a run that wrote [Text]. *)
Definition captured (OS : raw_pwrite_stream) (Text : string) : string :=
  match OS with
  | raw_svector_ostream => Text
  | raw_null_ostream => ""
  end.

Inductive Event :=
| errs_write (Text : string)
| SMDiagnostic_print (ProgName Diagnostic : string)
| cl_ResetAllOptionOccurrences
| cl_ParseCommandLineOptions (Argv : list string)
| Dumper_dumpModule (D : ShaderDumper) (M : IRModule) (Name : string)
| Dumper_dumpBinary (D : ShaderDumper) (Bytes : string) (Name : string)
| Target_createTargetMachine (TT CPU Features : string) (OL : CodeGenOpt.Level)
| llvm_EnableStatistics
| TimerGroup_printAll
| llvm_PrintStatistics
| llvm_PrintStatisticsJSON (File : string)
| printHelp (Usage Title : string) (FlagsToInclude : N).

(** ** Process state and the driver's monad *)

(** The process-wide state the driver touches: the occurrences registered in
    LLVM's global command-line options, the two global toggles, and the
    trace of effects performed so far (oldest first). *)
Record World := mkWorld {
  ClOptionOccurrences : list string;
  TimePassesIsEnabled : bool;
  StatisticsEnabled : bool;
  Trace : list Event
}.

(** A call either returns or stops the process at a failed assertion, a null
    dereference or an access out of range. *)
Inductive Outcome (A : Type) :=
| Ret (a : A)
| Fault (Message : string).
Arguments Fault {A} Message.

Definition Run (A : Type) : Type := World -> Outcome A * World.

Definition ret {A : Type} (a : A) : Run A := fun w => (Ret a, w).

Definition bind {A B : Type} (c : Run A) (k : A -> Run B) : Run B :=
  fun w =>
    match c w with
    | (Ret a, w') => k a w'
    | (Fault m, w') => (Fault m, w')
    end.

Definition fault {A : Type} (Message : string) : Run A := fun w => (Fault Message, w).

Declare Scope run_scope.
Delimit Scope run_scope with run.
Notation "x <- c ;; k" := (bind c (fun x => k))
  (at level 61, c at next level, right associativity) : run_scope.
Notation "c ;; k" := (bind c (fun _ => k))
  (at level 61, right associativity) : run_scope.
Open Scope run_scope.

Definition emit (e : Event) : Run unit :=
  fun w => (Ret tt, mkWorld (ClOptionOccurrences w) (TimePassesIsEnabled w)
                            (StatisticsEnabled w) (Trace w ++ [e])).

Definition when (b : bool) (c : Run unit) : Run unit := if b then c else ret tt.

(** Modelled from the spec: the assertion macros of Probe/Assertion.h, which
    is not among the sources.  The spec treats a failed driver assertion as
    an internal consistency fault that aborts instead of propagating an
    error: a false condition stops the run. *)
Definition IGC_ASSERT_MESSAGE (Cond : bool) (Message : string) : Run unit :=
  if Cond then ret tt else fault Message.

Definition IGC_ASSERT (Cond : bool) : Run unit := IGC_ASSERT_MESSAGE Cond "".

(** [llvm::make_scope_exit]: the guard's action runs when the enclosing
    function returns, on every return statement; a process stopped by a
    fault never returns. *)
Definition scope_exit {A : Type} (Guard : Run unit) (Body : Run A) : Run A :=
  r <- Body ;; Guard ;; ret r.

(** [*Exp.get()] for an Expected holding a unique_ptr. *)
Definition unique_ptr (T : Type) : Type := option T.

Definition Expected_get {T : Type} (Exp : Expected T) : Run T :=
  match Exp with
  | Value v => ret v
  | Failure _ => fault "Expected<T>::get() on an Expected in the error state"
  end.

Definition deref {T : Type} (P : unique_ptr T) : Run T :=
  match P with
  | Some v => ret v
  | None => fault "dereference of a null unique_ptr"
  end.

(** Global state operations. *)
Definition ResetAllOptionOccurrences : Run unit :=
  fun w => (Ret tt, mkWorld [] (TimePassesIsEnabled w) (StatisticsEnabled w)
                            (Trace w ++ [cl_ResetAllOptionOccurrences])).

(** [cl::ParseCommandLineOptions(argc, argv)]: [argv[0]] is the program
    name, the rest are registered as occurrences. *)
Definition ParseCommandLineOptions (Argv : list string) : Run unit :=
  fun w => (Ret tt, mkWorld (ClOptionOccurrences w ++ tl Argv) (TimePassesIsEnabled w)
                            (StatisticsEnabled w)
                            (Trace w ++ [cl_ParseCommandLineOptions Argv])).

Definition get_TimePassesIsEnabled : Run bool :=
  fun w => (Ret (TimePassesIsEnabled w), w).

Definition set_TimePassesIsEnabled (b : bool) : Run unit :=
  fun w => (Ret tt, mkWorld (ClOptionOccurrences w) b (StatisticsEnabled w) (Trace w)).

Definition EnableStatistics : Run unit :=
  fun w => (Ret tt, mkWorld (ClOptionOccurrences w) (TimePassesIsEnabled w) true
                            (Trace w ++ [llvm_EnableStatistics])).

Definition get_ClOptionOccurrences : Run (list string) :=
  fun w => (Ret (ClOptionOccurrences w), w).

(** ** Interfaces of the services the driver calls *)

(** llvm::Triple. *)
Class TripleParser := {
  (** [Triple{Str}.isArch32Bit()]: whether the architecture LLVM parses out
      of the triple string has 32-bit pointers. *)
  isArch32Bit : string -> bool
}.

(** The IR reader, the bitcode reader, the verifier, the SPIR-V translator. *)
Class IRReader := {
  (** [llvm::parseIR]: the module handle (null when the text does not
      parse) as it arrives in the driver's Expected, and the diagnostic. *)
  parseIR : string -> Expected (unique_ptr IRModule) * string;
  (** [llvm::parseBitcodeFile]: the decoder's message, or the module. *)
  parseBitcodeFile : string -> string + unique_ptr IRModule;
  (** [llvm::verifyModule]: true when the module is broken. *)
  verifyModule : IRModule -> bool;
  translateSPIRVToIR : string -> list N -> list N -> Expected string
}.

(** The target registry (primed by LLVMInitializeGenXTarget and
    LLVMInitializeGenXTargetInfo), targets and target machines. *)
Class TargetRegistry := {
  Target : Type;
  lookupTarget : string -> string -> option Target;
  createTargetMachine_of :
    Target -> string -> string -> string -> TargetOptions ->
    CodeGenOpt.Level -> unique_ptr TargetMachine;
  (** [SubtargetFeatures::getString] over the recorded [AddFeature] calls. *)
  SubtargetFeatures_getString : list (string * bool) -> string;
  getPointerSizeInBits : TargetMachine -> N;
  createDataLayout : TargetMachine -> string;
  adjustPassManager : TargetMachine -> PassManagerBuilder -> PassManagerBuilder;
  (** [addPassesToEmitFile]: its return value and the passes it added. *)
  addPassesToEmitFile : TargetMachine -> bool -> bool * list Pass
}.

(** The legacy pass managers and the pipeline builder. *)
Class PassPipelines := {
  populateFunctionPassManager : PassManagerBuilder -> list Pass;
  populateModulePassManager : PassManagerBuilder -> list Pass;
  (** [PM.run(M)] under the global option occurrences in force. *)
  PM_run : list string -> list Pass -> IRModule -> PassRun;
  FPM_doInitialization : list Pass -> IRModule -> IRModule;
  FPM_run : list string -> list Pass -> Function -> Function;
  FPM_doFinalization : list Pass -> IRModule -> IRModule;
  (** Build mode: whether NDEBUG is defined. *)
  NDEBUG : bool;
  (** Opening the statistics file: the error message, if it fails. *)
  raw_fd_ostream_open : string -> option string
}.

(** Default-constructed configuration objects. *)
Class Defaults := {
  DefaultCompileOptions : CompileOptions;
  DefaultBackendOptions : Backend.GenXBackendOptions
}.

(** ** Input Loader *)

Section InputLoader.

Context {Reader : IRReader}.

Definition getModuleFromLLVMText (Input : string)
  : Run (Expected (unique_ptr IRModule)) :=
  let (ExpModule, Err) := parseIR Input in
  when (in_error_state ExpModule) (emit (SMDiagnostic_print "getModuleLL" Err)) ;;
  P <- Expected_get ExpModule ;;
  M <- deref P ;;
  if verifyModule M then ret (Failure InvalidModuleError)
  else ret ExpModule.

Definition getModuleFromLLVMBinary (Input : string)
  : Run (Expected (unique_ptr IRModule)) :=
  match parseBitcodeFile Input with
  | inl Message => ret (Failure (BadBitcodeError Message))
  | inr P =>
      M <- deref P ;;
      if verifyModule M then ret (Failure InvalidModuleError)
      else ret (Value P)
  end.

Definition getModuleFromSPIRV (Input : string) (SpecConstIds SpecConstValues : list N)
  : Run (Expected (unique_ptr IRModule)) :=
  match translateSPIRVToIR Input SpecConstIds SpecConstValues with
  | Failure e => ret (Failure e)
  | Value IR => getModuleFromLLVMBinary IR
  end.

Definition getModule (Input : string) (FType : FileType.t)
           (SpecConstIds SpecConstValues : list N)
  : Run (Expected (unique_ptr IRModule)) :=
  match FType with
  | FileType.SPIRV => getModuleFromSPIRV Input SpecConstIds SpecConstValues
  | FileType.LLVM_TEXT => getModuleFromLLVMText Input
  | FileType.LLVM_BINARY => getModuleFromLLVMBinary Input
  end.

End InputLoader.

(** ** Target Configurator *)

Definition genx32_triple : string := "genx32-unknown-unknown".
Definition genx64_triple : string := "genx64-unknown-unknown".

(** [Triple::getArchName]: the triple up to its first dash. *)
Fixpoint getArchName (TripleStr : string) : string :=
  match TripleStr with
  | EmptyString => EmptyString
  | String c S' => if Ascii.eqb c "-" then EmptyString else String c (getArchName S')
  end.

Section TargetConfigurator.

Context {Triples : TripleParser} {Registry : TargetRegistry}.

(** The result is the string the returned Triple is built from. *)
Definition overrideTripleWithVC (TripleStr : string) : string :=
  let Is32Bit := isArch32Bit TripleStr in
  let Is32Bit := if StringRef.startswith TripleStr "genx32" then true else Is32Bit in
  if Is32Bit then genx32_triple else genx64_triple.

(** [Features.AddFeature(Name, Enable)], recorded. *)
Definition AddFeature (Name : string) (Enable : bool)
           (Features : list (string * bool)) : list (string * bool) :=
  Features ++ [(Name, Enable)].

(** The loop over the auxiliary feature entries. *)
Fixpoint addAuxFeatures (AuxFeatures : list string) (Features : list (string * bool))
  : Run (list (string * bool)) :=
  match AuxFeatures with
  | [] => ret Features
  | F :: Rest =>
      let Feature := StringRef.trim F in
      let (Enabled, Feature) := StringRef.consume_front Feature "+" in
      Feature <- (if negb Enabled
                  then let (Disabled, Feature) := StringRef.consume_front Feature "-" in
                       IGC_ASSERT_MESSAGE Disabled "unexpected feature format" ;;
                       ret Feature
                  else ret Feature) ;;
      addAuxFeatures Rest (AddFeature Feature Enabled Features)
  end.

Definition addIf (Cond : bool) (Name : string) (Features : list (string * bool))
  : list (string * bool) :=
  if Cond then AddFeature Name true Features else Features.

Definition getSubtargetFeatureString (Opts : CompileOptions) : Run string :=
  Features <- (if negb (StringRef.empty (FeaturesString Opts))
               then addAuxFeatures (StringRef.split (FeaturesString Opts) ",") []
               else ret []) ;;
  let Features := addIf (HasL1ReadOnlyCache Opts) "has_l1_read_only_cache" Features in
  let Features := addIf (HasLocalMemFenceSupress Opts) "supress_local_mem_fence" Features in
  let Features := addIf (NoVecDecomp Opts) "disable_vec_decomp" Features in
  let Features := addIf (NoJumpTables Opts) "disable_jump_tables" Features in
  let Features := addIf (TranslateLegacyMemoryIntrinsics Opts)
                        "translate_legacy_message" Features in
  let Features := addIf (BinaryKind.eqb (Binary Opts) BinaryKind.OpenCL
                         || BinaryKind.eqb (Binary Opts) BinaryKind.ZE)
                        "ocl_runtime" Features in
  ret (SubtargetFeatures_getString Features).

Definition getCodeGenOptLevel (Opts : CompileOptions) : CodeGenOpt.Level :=
  match OptLevel Opts with
  | OptimizerLevel.None => CodeGenOpt.None
  | _ => CodeGenOpt.Default
  end.

Definition getTargetOptions (Opts : CompileOptions) : TargetOptions :=
  {| TargetOptions_AllowFPOpFusion := AllowFPOpFusion Opts |}.

Definition createTargetMachine (Opts : CompileOptions) (TheTriple : string)
  : Run (Expected TargetMachine) :=
  let TheTarget := lookupTarget (getArchName TheTriple) TheTriple in
  IGC_ASSERT_MESSAGE (match TheTarget with Some _ => true | None => false end)
                     "vc target was not registered" ;;
  TheTarget <- deref TheTarget ;;
  FeaturesStr <- getSubtargetFeatureString Opts ;;
  let Options := getTargetOptions Opts in
  let OptLevel := getCodeGenOptLevel Opts in
  emit (Target_createTargetMachine TheTriple (CPUStr Opts) FeaturesStr OptLevel) ;;
  match createTargetMachine_of TheTarget TheTriple (CPUStr Opts) FeaturesStr
                               Options OptLevel with
  | None => ret (Failure TargetMachineError)
  | Some TM => ret (Value TM)
  end.

End TargetConfigurator.

(** ** Backend Configuration Builder *)

Definition getDefaultOverridableFlag (OptFlag : OverridableFlag.t) (Default : bool) : bool :=
  match OptFlag with
  | OverridableFlag.Enable => true
  | OverridableFlag.Disable => false
  | _ => Default
  end.

Definition BinaryKind_neq (a b : BinaryKind.t) : bool := negb (BinaryKind.eqb a b).

Section BackendConfiguration.

Context {D : Defaults}.

Definition createBackendOptions (Opts : CompileOptions) : Backend.GenXBackendOptions :=
  let BackendOpts := DefaultBackendOptions in
  let IsOptLevel_O0 :=
    match OptLevel Opts with OptimizerLevel.None => true | _ => false end
    && EmitExtendedDebug Opts in
  {| Backend.StackSurfaceMaxSize :=
       match StackMemSize Opts with
       | Some Size => Size
       | None => Backend.StackSurfaceMaxSize BackendOpts
       end;
     Backend.StatelessPrivateMemSize :=
       match StackMemSize Opts with
       | Some Size => Size
       | None => Backend.StatelessPrivateMemSize BackendOpts
       end;
     Backend.DebuggabilityEmitDebuggableKernels := EmitDebuggableKernels Opts;
     Backend.DebuggabilityForLegacyPath :=
       BinaryKind_neq (Binary Opts) BinaryKind.CM && EmitDebuggableKernels Opts;
     Backend.DebuggabilityZeBinCompatibleDWARF :=
       BinaryKind.eqb (Binary Opts) BinaryKind.ZE;
     Backend.DebuggabilityEmitBreakpoints := EmitExtendedDebug Opts;
     Backend.DebuggabilityExtendedDebug :=
       getDefaultOverridableFlag (NoOptFinalizerMode Opts) IsOptLevel_O0;
     Backend.DebuggabilityValidateDWARF := ForceDebugInfoValidation Opts;
     Backend.DisableFinalizerMsg := DisableFinalizerMsg Opts;
     Backend.EnableAsmDumps := DumpAsm Opts;
     Backend.EnableDebugInfoDumps := DumpDebugInfo Opts;
     Backend.Dumper := Dumper Opts;
     Backend.ShaderOverrider := ShaderOverrider_ Opts;
     Backend.DisableStructSplitting := DisableStructSplitting Opts;
     Backend.ForceArrayPromotion := BinaryKind.eqb (Binary Opts) BinaryKind.CM;
     Backend.LocalizeLRsForAccUsage :=
       if ForceLiveRangesLocalizationForAccUsage Opts then true
       else Backend.LocalizeLRsForAccUsage BackendOpts;
     Backend.DisableNonOverlappingRegionOpt :=
       if ForceDisableNonOverlappingRegionOpt Opts then true
       else Backend.DisableNonOverlappingRegionOpt BackendOpts;
     Backend.FCtrl := FCtrl Opts;
     Backend.WATable := WATable Opts;
     Backend.IsLargeGRFMode := IsLargeGRFMode Opts;
     Backend.UseBindlessBuffers := UseBindlessBuffers Opts;
     Backend.SaveStackCallLinkage :=
       if SaveStackCallLinkage Opts then true
       else Backend.SaveStackCallLinkage BackendOpts;
     Backend.UsePlain2DImages := UsePlain2DImages Opts;
     Backend.EnablePreemption := EnablePreemption Opts;
     Backend.DisableLiveRangesCoalescing :=
       getDefaultOverridableFlag (DisableLRCoalescingMode Opts) false |}.

End BackendConfiguration.

Definition createBackendData (Data : ExternalData) (PointerSizeInBits : N)
  : Run Backend.GenXBackendData :=
  IGC_ASSERT_MESSAGE ((PointerSizeInBits =? 32)%N || (PointerSizeInBits =? 64)%N)
                     "only 32 and 64 bit pointers are expected" ;;
  ret {| Backend.BiFModule := fun Kind =>
           match Kind with
           | BiFKind.OCLGeneric => OCLGenericBIFModule Data
           | BiFKind.VCEmulation => VCEmulationBIFModule Data
           | BiFKind.VCSPIRVBuiltins => VCSPIRVBuiltinsBIFModule Data
           | BiFKind.VCPrintf =>
               if (PointerSizeInBits =? 64)%N then VCPrintf64BIFModule Data
               else VCPrintf32BIFModule Data
           end |}.

(** ** Optimization Stage *)

Section Pipeline.

Context {Triples : TripleParser} {Reader : IRReader} {Registry : TargetRegistry}
        {Pipelines : PassPipelines} {D : Defaults}.

(** [PM.run(M)]: the passes see the option occurrences registered in the
    global command-line state at that moment. *)
Definition run_passes (PM : list Pass) (M : IRModule) : Run PassRun :=
  Occurrences <- get_ClOptionOccurrences ;;
  ret (PM_run Occurrences PM M).

Definition run_function_passes (PM : list Pass) (M : IRModule) : Run IRModule :=
  Occurrences <- get_ClOptionOccurrences ;;
  let M := FPM_doInitialization PM M in
  let M := setFunctions
             (map (fun F => if negb (isDeclaration F)
                            then FPM_run Occurrences PM F else F)
                  (functions M)) M in
  ret (FPM_doFinalization PM M).

Definition optimizeIR (Opts : CompileOptions) (ExtData : ExternalData)
           (TM : TargetMachine) (M : IRModule) : Run IRModule :=
  let PerModulePasses := [TargetTransformInfoWrapperPass TM] in
  BackendData <- createBackendData ExtData (getPointerSizeInBits TM) ;;
  let PerModulePasses :=
    PerModulePasses ++ [GenXBackendConfig (createBackendOptions Opts) BackendData] in
  let PerFunctionPasses := [TargetTransformInfoWrapperPass TM] in
  let OptLevel :=
    match OptLevel Opts with
    | OptimizerLevel.None => 0
    | _ => 2
    end in
  let PMBuilder :=
    {| Inliner := Some (FunctionInliningPass 2 2 false);
       PMB_OptLevel := OptLevel;
       PMB_SizeLevel := OptLevel;
       SLPVectorize := false;
       LoopVectorize := false;
       DisableUnrollLoops := false;
       MergeFunctions := false;
       PrepareForThinLTO := false;
       PrepareForLTO := false;
       RerollLoops := true |} in
  let PMBuilder := adjustPassManager TM PMBuilder in
  let PerFunctionPasses := PerFunctionPasses ++ populateFunctionPassManager PMBuilder in
  let PerModulePasses := PerModulePasses ++ populateModulePassManager PMBuilder in
  M <- run_function_passes PerFunctionPasses M ;;
  R <- run_passes PerModulePasses M ;;
  ret (ModuleAfter R).

(** ** Codegen Dispatcher *)

Definition has_handle {T : Type} (P : option T) : bool :=
  match P with Some _ => true | None => false end.

(** [if (Cond && Opts.Dumper) Opts.Dumper->dumpModule(M, Name)]. *)
Definition dumpModule_if (Cond : bool) (Opts : CompileOptions)
           (M : IRModule) (Name : string) : Run unit :=
  match Dumper Opts with
  | Some D => when Cond (emit (Dumper_dumpModule D M Name))
  | None => ret tt
  end.

Definition dumpFinalOutput (Opts : CompileOptions) (M : IRModule) (IsaBinary : string)
  : Run unit :=
  dumpModule_if (DumpIR Opts) Opts M "final.ll" ;;
  match Dumper Opts with
  | Some D => when (DumpIsa Opts) (emit (Dumper_dumpBinary D IsaBinary "final.isa"))
  | None => ret tt
  end.

(** The stream the emission passes write to is the caller's; the pass
    manager is returned with the passes added. *)
Definition populateCodeGenPassManager (Opts : CompileOptions) (ExtData : ExternalData)
           (TM : TargetMachine) (PM : list Pass) : Run (list Pass) :=
  let PM := PM ++ [TargetLibraryInfoWrapperPass (TM_TargetTriple TM)] in
  BackendData <- createBackendData ExtData (getPointerSizeInBits TM) ;;
  let PM := PM ++ [GenXBackendConfig (createBackendOptions Opts) BackendData] in
  let DisableIrVerifier := NDEBUG in
  let (AddPasses, EmissionPasses) := addPassesToEmitFile TM DisableIrVerifier in
  let PM := PM ++ EmissionPasses in
  IGC_ASSERT_MESSAGE (negb AddPasses) "Bad filetype for vc-codegen" ;;
  ret PM.

Definition runOclCodeGen (Opts : CompileOptions) (ExtData : ExternalData)
           (TM : TargetMachine) (M : IRModule) : Run (ocl.CompileOutput * IRModule) :=
  let OS := if DumpIsa Opts then raw_svector_ostream else raw_null_ostream in
  PM <- populateCodeGenPassManager Opts ExtData TM [] ;;
  let PM := PM ++ [GenXOCLInfoExtractorPass] in
  R <- run_passes PM M ;;
  let IsaBinary := captured OS (Emitted R) in
  let CompiledModule := RuntimeInfo R in
  dumpFinalOutput Opts (ModuleAfter R) IsaBinary ;;
  ret (CompiledModule, ModuleAfter R).

Definition runCmCodeGen (Opts : CompileOptions) (ExtData : ExternalData)
           (TM : TargetMachine) (M : IRModule) : Run (cm.CompileOutput * IRModule) :=
  let OS := raw_svector_ostream in
  PM <- populateCodeGenPassManager Opts ExtData TM [] ;;
  R <- run_passes PM M ;;
  let IsaBinary := captured OS (Emitted R) in
  dumpFinalOutput Opts (ModuleAfter R) IsaBinary ;;
  ret ({| cm.IsaBinary := IsaBinary |}, ModuleAfter R).

(** The module is mutated in place: it is returned next to the output. *)
Definition runCodeGen (Opts : CompileOptions) (ExtData : ExternalData)
           (TM : TargetMachine) (M : IRModule) : Run (CompileOutput * IRModule) :=
  match Binary Opts with
  | BinaryKind.CM =>
      r <- runCmCodeGen Opts ExtData TM M ;;
      ret (CmOutput (fst r), snd r)
  | BinaryKind.OpenCL
  | BinaryKind.ZE =>
      r <- runOclCodeGen Opts ExtData TM M ;;
      ret (OclOutput (fst r), snd r)
  end.

End Pipeline.

(** ** Driver top level *)

Class CommandLine := {
  (** [cl::TokenizeGNUCommandLine]: the tokens are C strings, given by
      their characters before the terminator. *)
  TokenizeGNUCommandLine : string -> list string
}.

Section Compile.

Context {Triples : TripleParser} {Reader : IRReader} {Registry : TargetRegistry}
        {Pipelines : PassPipelines} {D : Defaults} {CL : CommandLine}.

Definition parseLLVMOptions (Args : string) : Run unit :=
  let Argv := ["vc-codegen"] ++ TokenizeGNUCommandLine Args in
  ResetAllOptionOccurrences ;;
  ParseCommandLineOptions Argv.

(** The statements of [vc::Compile] below the scope guard.  The target
    initialisation calls prime the registry that [lookupTarget] reads. *)
Definition CompileBody (Input : string) (Opts : CompileOptions) (ExtData : ExternalData)
           (SpecConstIds SpecConstValues : list N) : Run (Expected CompileOutput) :=
  ExpModule <- getModule Input (FType Opts) SpecConstIds SpecConstValues ;;
  match ExpModule with
  | Failure e => ret (Failure e)
  | Value P =>
      M <- deref P ;;
      dumpModule_if (DumpIR Opts) Opts M "after_spirv_reader.ll" ;;
      R <- run_passes [GenXSPIRVReaderAdaptorPass; GenXRestoreIntrAttrPass] M ;;
      let M := ModuleAfter R in
      let TheTriple := overrideTripleWithVC (getTargetTriple M) in
      let M := setTargetTriple TheTriple M in
      ExpTargetMachine <- createTargetMachine Opts TheTriple ;;
      match ExpTargetMachine with
      | Failure e => ret (Failure e)
      | Value TM =>
          let M := setDataLayout (createDataLayout TM) M in
          TimePassesIsEnabledLocal <- get_TimePassesIsEnabled ;;
          when (TimePasses Opts) (set_TimePassesIsEnabled true) ;;
          when (ShowStats Opts || negb (StringRef.empty (StatsFile Opts)))
               EnableStatistics ;;
          dumpModule_if (DumpIR Opts) Opts M "after_ir_adaptors.ll" ;;
          M <- optimizeIR Opts ExtData TM M ;;
          dumpModule_if (DumpIR Opts) Opts M "optimized.ll" ;;
          Out <- runCodeGen Opts ExtData TM M ;;
          let Output := fst Out in
          emit TimerGroup_printAll ;;
          set_TimePassesIsEnabled TimePassesIsEnabledLocal ;;
          when (ShowStats Opts) (emit llvm_PrintStatistics) ;;
          when (negb (StringRef.empty (StatsFile Opts)))
               (match raw_fd_ostream_open (StatsFile Opts) with
                | Some Message => emit (errs_write (StatsFile Opts ++ ": " ++ Message))
                | None => emit (llvm_PrintStatisticsJSON (StatsFile Opts))
                end) ;;
          ret (Value Output)
      end
  end.

Definition Compile (Input : string) (Opts : CompileOptions) (ExtData : ExternalData)
           (SpecConstIds SpecConstValues : list N) : Run (Expected CompileOutput) :=
  parseLLVMOptions (LLVMOptions Opts) ;;
  let ClOptGuard := ResetAllOptionOccurrences in
  scope_exit ClOptGuard (CompileBody Input Opts ExtData SpecConstIds SpecConstValues).

End Compile.

(** ** Option Resolver: llvm::opt argument lists *)

Module opt.

Section ArgLists.

Variable ID : Type.

(** An option of a table: which specifiers it matches (itself, what it
    aliases, its groups) and its category flags. *)
Record Option := mkOption {
  matches : ID -> bool;
  Flags : N
}.

Definition hasFlag (O : Option) (Val : N) : bool :=
  negb (N.land (Flags O) Val =? 0)%N.

(** A parsed argument: its option (the unaliased one), its values, its
    rendering ([getAsString]) and, when the argument was created through an
    alias, the alias argument as it was spelled ([getAlias]). *)
#[warnings="-register-all"]
Inductive Arg := mkArg {
  getOption : Option;
  getValues : list string;
  getAsString : string;
  getAlias : option Arg
}.

Definition ArgList := list Arg.

Definition filtered (Ids : list ID) (Args : ArgList) : ArgList :=
  filter (fun A => existsb (matches (getOption A)) Ids) Args.

(** The last argument matching one of [Ids], or null. *)
Definition getLastArg (Ids : list ID) (Args : ArgList) : option Arg :=
  fold_left (fun _ A => Some A) (filtered Ids Args) None.

Definition hasArg (Id : ID) (Args : ArgList) : bool :=
  match getLastArg [Id] Args with
  | Some _ => true
  | None => false
  end.

Definition getAllArgValues (Id : ID) (Args : ArgList) : list string :=
  flat_map getValues (filtered [Id] Args).

(** [A->getValue()] is [Values[0]]. *)
Definition getValue (A : Arg) : Run string :=
  match getValues A with
  | V :: _ => ret V
  | [] => fault "Arg::getValue on an argument without values"
  end.

Definition getLastArgValue (Id : ID) (Args : ArgList) : Run string :=
  match getLastArg [Id] Args with
  | Some A => getValue A
  | None => ret ""
  end.

(** What [ParseArgs] hands back. *)
Record ParseResult := mkParseResult {
  InputArgs : ArgList;
  MissingArgIndex : nat;
  MissingArgCount : nat
}.

Record OptTable := mkOptTable {
  ParseArgs : list string -> N -> ParseResult;
  getPrefixedName : ID -> string
}.

End ArgLists.

End opt.

(** The option identifiers Driver.cpp names; [OPT_other] stands for the
    remaining entries of the generated tables. *)
Module api.
Inductive ID :=
| OPT_UNKNOWN | OPT_INPUT | OPT_vc_codegen | OPT_igcmc
| OPT_no_vector_decomposition | OPT_emit_debug | OPT_vc_fno_struct_splitting
| OPT_vc_fno_jump_tables | OPT_vc_ftranslate_legacy_memory_intrinsics
| OPT_vc_disable_finalizer_msg | OPT_large_GRF | OPT_vc_use_plain_2d_images
| OPT_vc_enable_preemption | OPT_fp_contract | OPT_vc_optimize
| OPT_opt_disable_ze | OPT_vc_stateless_private_size | OPT_igcmc_visaopts
| OPT_Xfinalizer | OPT_gtpin_rera | OPT_gtpin_grf_info
| OPT_gtpin_scratch_area_size | OPT_other (n : nat).
End api.

Module internal.
Inductive ID :=
| OPT_UNKNOWN | OPT_INPUT | OPT_dump_isa_binary | OPT_dump_llvm_ir | OPT_dump_asm
| OPT_ftime_report | OPT_print_stats | OPT_stats_file
| OPT_intel_use_bindless_buffers_ze | OPT_binary_format | OPT_target_features
| OPT_help | OPT_help_internal | OPT_llvm_options | OPT_other (n : nat).
End internal.

(** igc/Options/Options.h: the category flags and the two tables. *)
Class OptionTables := {
  VCApiOption : N;
  IgcmcApiOption : N;
  IGCApiOption : N;
  VCInternalOption : N;
  IGCInternalOption : N;
  getApiOptTable : opt.OptTable api.ID;
  getInternalOptTable : opt.OptTable internal.ID;
  (** [Val.getAsInteger(0, Result)] into an unsigned: the value, or nothing
      when the text is not an integer that fits. *)
  getAsInteger : string -> option N
}.

Definition newline : string := String (ascii_of_nat 10) EmptyString.

(** [Text] between double quotes. *)
Definition quoted (Text : string) : string :=
  String (ascii_of_nat 34) Text ++ String (ascii_of_nat 34) EmptyString.

(** Early return of an error out of a sequence of Expected-returning steps. *)
Definition bind_expected {A B : Type} (c : Run (Expected A))
           (k : A -> Run (Expected B)) : Run (Expected B) :=
  r <- c ;;
  match r with
  | Value a => k a
  | Failure e => ret (Failure e)
  end.

Notation "x <-? c ;; k" := (bind_expected c (fun x => k))
  (at level 61, c at next level, right associativity) : run_scope.

Section OptionResolver.

Context {Tables : OptionTables} {CL : CommandLine} {D : Defaults}.

(** [Argv[Index]]. *)
Definition Argv_at (Argv : list string) (Index : nat) : Run string :=
  match nth_error Argv Index with
  | Some ArgStr => ret ArgStr
  | None => fault "Argv index out of range"
  end.

Definition parseOptions {ID : Type} (UnknownIDs : list ID) (Argv : list string)
           (FlagsToInclude : N) (Options : opt.OptTable ID) (IsStrictMode : bool)
  : Run (Expected (opt.ArgList ID)) :=
  let IsInternal := negb (N.land FlagsToInclude VCInternalOption =? 0)%N in
  let Parsed := opt.ParseArgs Options Argv FlagsToInclude in
  let InputArgs := opt.InputArgs Parsed in
  if negb (Nat.eqb (opt.MissingArgCount Parsed) 0)
  then BadOpt <- Argv_at Argv (opt.MissingArgIndex Parsed) ;;
       ret (Failure (OptionError BadOpt IsInternal))
  else
    match (if IsStrictMode then opt.getLastArg UnknownIDs InputArgs else None) with
    | Some A => ret (Failure (OptionError (opt.getAsString A) IsInternal))
    | None => ret (Value InputArgs)
    end.

(** The lambda [HasOption]: some token equals [Opt]. *)
Definition HasOption (Argv : list string) (Opt : string) : bool :=
  existsb (fun ArgStr => String.eqb Opt ArgStr) Argv.

Definition deprecation_notice (IgcmcOptName : string) : string :=
  "'" ++ IgcmcOptName
      ++ "' option is deprecated and will be removed in the future release. "
      ++ "Use -vc-codegen instead for compiling from SPIRV." ++ newline.

Definition parseApiOptions (ApiOptions : string) (IsStrictMode : bool)
  : Run (Expected (opt.ArgList api.ID)) :=
  let Argv := TokenizeGNUCommandLine ApiOptions in
  let Options := getApiOptTable in
  let VCCodeGenOptName := opt.getPrefixedName Options api.OPT_vc_codegen in
  if HasOption Argv VCCodeGenOptName
  then
    let FlagsToInclude := N.lor VCApiOption IGCApiOption in
    parseOptions [api.OPT_UNKNOWN; api.OPT_INPUT] Argv FlagsToInclude Options IsStrictMode
  else
    let IgcmcOptName := opt.getPrefixedName Options api.OPT_igcmc in
    if HasOption Argv IgcmcOptName
    then
      emit (errs_write (deprecation_notice IgcmcOptName)) ;;
      let FlagsToInclude := N.lor IgcmcApiOption IGCApiOption in
      parseOptions [api.OPT_UNKNOWN; api.OPT_INPUT] Argv FlagsToInclude Options
                   IsStrictMode
    else ret (Failure NotVCError).

Definition parseInternalOptions (InternalOptions : string)
  : Run (Expected (opt.ArgList internal.ID)) :=
  let Argv := TokenizeGNUCommandLine InternalOptions in
  let IsStrictMode := false in
  let Options := getInternalOptTable in
  let FlagsToInclude := N.lor VCInternalOption IGCInternalOption in
  parseOptions [internal.OPT_UNKNOWN; internal.OPT_INPUT] Argv FlagsToInclude Options
               IsStrictMode.

Definition makeOptionError {ID : Type} (A : opt.Arg ID) (Opts : opt.ArgList ID)
           (IsInternal : bool) : Error :=
  let BadOpt := opt.getAsString A in
  OptionError BadOpt IsInternal.

Definition set_if (Cond : bool) (Set_ : bool -> CompileOptions -> CompileOptions)
           (Opts : CompileOptions) : CompileOptions :=
  if Cond then Set_ true Opts else Opts.

Definition fillApiOptions (ApiOptions : opt.ArgList api.ID) (Opts : CompileOptions)
  : Run (Expected CompileOptions) :=
  let has Id := opt.hasArg Id ApiOptions in
  let Opts := set_if (has api.OPT_no_vector_decomposition) set_NoVecDecomp Opts in
  let Opts := set_if (has api.OPT_emit_debug) set_EmitDebuggableKernels
                     (set_if (has api.OPT_emit_debug) set_EmitExtendedDebug Opts) in
  let Opts := set_if (has api.OPT_vc_fno_struct_splitting) set_DisableStructSplitting Opts in
  let Opts := set_if (has api.OPT_vc_fno_jump_tables) set_NoJumpTables Opts in
  let Opts := set_if (has api.OPT_vc_ftranslate_legacy_memory_intrinsics)
                     set_TranslateLegacyMemoryIntrinsics Opts in
  let Opts := set_if (has api.OPT_vc_disable_finalizer_msg) set_DisableFinalizerMsg Opts in
  let Opts := set_if (has api.OPT_large_GRF) set_IsLargeGRFMode Opts in
  let Opts := set_if (has api.OPT_vc_use_plain_2d_images) set_UsePlain2DImages Opts in
  let Opts := set_if (has api.OPT_vc_enable_preemption) set_EnablePreemption Opts in
  Opts <-? (match opt.getLastArg [api.OPT_fp_contract] ApiOptions with
            | Some A =>
                Val <- opt.getValue A ;;
                let MayBeAllowFPOPFusion :=
                  if String.eqb Val "on" then Some FPOpFusion.Standard
                  else if String.eqb Val "fast" then Some FPOpFusion.Fast
                  else if String.eqb Val "off" then Some FPOpFusion.Strict
                  else None in
                match MayBeAllowFPOPFusion with
                | None => ret (Failure (makeOptionError A ApiOptions false))
                | Some Mode => ret (Value (set_AllowFPOpFusion Mode Opts))
                end
            | None => ret (Value Opts)
            end) ;;
  Opts <-? (match opt.getLastArg [api.OPT_vc_optimize; api.OPT_opt_disable_ze]
                                 ApiOptions with
            | Some A =>
                if opt.matches (opt.getOption A) api.OPT_vc_optimize
                then
                  Val <- opt.getValue A ;;
                  let MaybeLevel :=
                    if String.eqb Val "none" then Some OptimizerLevel.None
                    else if String.eqb Val "full" then Some OptimizerLevel.Full
                    else None in
                  match MaybeLevel with
                  | None => ret (Failure (makeOptionError A ApiOptions false))
                  | Some Level => ret (Value (set_OptLevel Level Opts))
                  end
                else
                  IGC_ASSERT_MESSAGE (opt.matches (opt.getOption A) api.OPT_opt_disable_ze)
                                     "" ;;
                  ret (Value (set_OptLevel OptimizerLevel.None Opts))
            | None => ret (Value Opts)
            end) ;;
  Opts <-? (match opt.getLastArg [api.OPT_vc_stateless_private_size] ApiOptions with
            | Some A =>
                Val <- opt.getValue A ;;
                match getAsInteger Val with
                | None => ret (Failure (makeOptionError A ApiOptions false))
                | Some Result => ret (Value (set_StackMemSize (Some Result) Opts))
                end
            | None => ret (Value Opts)
            end) ;;
  ret (Value Opts).

Definition fillInternalOptions (InternalOptions : opt.ArgList internal.ID)
           (Opts : CompileOptions) : Run (Expected CompileOptions) :=
  let has Id := opt.hasArg Id InternalOptions in
  let Opts := set_if (has internal.OPT_dump_isa_binary) set_DumpIsa Opts in
  let Opts := set_if (has internal.OPT_dump_llvm_ir) set_DumpIR Opts in
  let Opts := set_if (has internal.OPT_dump_asm) set_DumpAsm Opts in
  let Opts := set_if (has internal.OPT_ftime_report) set_TimePasses Opts in
  let Opts := set_if (has internal.OPT_print_stats) set_ShowStats Opts in
  File <- opt.getLastArgValue internal.OPT_stats_file InternalOptions ;;
  let Opts := set_StatsFile File Opts in
  let Opts := set_if (has internal.OPT_intel_use_bindless_buffers_ze)
                     set_UseBindlessBuffers Opts in
  Opts <-? (match opt.getLastArg [internal.OPT_binary_format] InternalOptions with
            | Some A =>
                Val <- opt.getValue A ;;
                let MaybeBinary :=
                  if String.eqb Val "cm" then Some BinaryKind.CM
                  else if String.eqb Val "ocl" then Some BinaryKind.OpenCL
                  else if String.eqb Val "ze" then Some BinaryKind.ZE
                  else None in
                match MaybeBinary with
                | None => ret (Failure (makeOptionError A InternalOptions true))
                | Some Kind => ret (Value (set_Binary Kind Opts))
                end
            | None => ret (Value Opts)
            end) ;;
  let Opts :=
    set_FeaturesString
      (join (opt.getAllArgValues internal.OPT_target_features InternalOptions) ",")
      Opts in
  when (has internal.OPT_help)
       (emit (printHelp ("-options " ++ quoted "-vc-codegen [options]")
                        "Vector compiler options" VCApiOption)) ;;
  when (has internal.OPT_help_internal)
       (emit (printHelp ("-options " ++ quoted "-vc-codegen" ++ " -internal_options "
                                       ++ quoted "[options]")
                        "Vector compiler internal options" VCInternalOption)) ;;
  ret (Value Opts).

(** One round of the loop over the finalizer-option identifiers. *)
Definition addFinalizerOpts (ApiArgs : opt.ArgList api.ID) (Result : string)
           (OptID : api.ID) : string :=
  if negb (opt.hasArg OptID ApiArgs) then Result
  else (Result ++ " -finalizer-opts='"
               ++ join (opt.getAllArgValues OptID ApiArgs) " " ++ "'")%string.

Definition composeLLVMArgs (ApiArgs : opt.ArgList api.ID)
           (InternalArgs : opt.ArgList internal.ID) : Run string :=
  let Result : string := "" in
  let Result : string :=
    if opt.hasArg internal.OPT_llvm_options InternalArgs
    then (Result ++ join (opt.getAllArgValues internal.OPT_llvm_options InternalArgs) " ")%string
    else Result in
  let Result : string :=
    fold_left (addFinalizerOpts ApiArgs) [api.OPT_igcmc_visaopts; api.OPT_Xfinalizer]
              Result in
  let Result : string :=
    if opt.hasArg api.OPT_gtpin_rera ApiArgs
    then (Result ++ " -finalizer-opts='-GTPinReRA'")%string else Result in
  let Result : string :=
    if opt.hasArg api.OPT_gtpin_grf_info ApiArgs
    then (Result ++ " -finalizer-opts='-getfreegrfinfo -rerapostschedule'")%string
    else Result in
  match opt.getLastArg [api.OPT_gtpin_scratch_area_size] ApiArgs with
  | Some A =>
      Val <- opt.getValue A ;;
      ret (Result ++ " -finalizer-opts='-GTPinScratchAreaSize " ++ Val ++ "'")%string
  | None => ret Result
  end.

Definition fillOptions (ApiOptions : opt.ArgList api.ID)
           (InternalOptions : opt.ArgList internal.ID) : Run (Expected CompileOptions) :=
  let Opts := DefaultCompileOptions in
  Opts <-? fillApiOptions ApiOptions Opts ;;
  Opts <-? fillInternalOptions InternalOptions Opts ;;
  Args <- composeLLVMArgs ApiOptions InternalOptions ;;
  ret (Value (set_LLVMOptions Args Opts)).

(** The derived list holds the input arguments judged to carry
    [IncludeFlag]: an argument created through an alias is judged by the
    option of [getAlias], any other by its own option. *)
Definition filterUsedOptions {ID : Type} (InputArgs : opt.ArgList ID) (IncludeFlag : N)
  : opt.ArgList ID :=
  filter (fun InputArg =>
            let Arg := match opt.getAlias InputArg with
                       | Some AliasArg => AliasArg
                       | None => InputArg
                       end in
            opt.hasFlag (opt.getOption Arg) IncludeFlag)
         InputArgs.

Definition filterApiOptions (InputArgs : opt.ArgList api.ID) : opt.ArgList api.ID :=
  if opt.hasArg api.OPT_igcmc InputArgs
  then filterUsedOptions InputArgs IgcmcApiOption
  else filterUsedOptions InputArgs VCApiOption.

Definition ParseOptions (ApiOptions InternalOptions : string) (IsStrictMode : bool)
  : Run (Expected CompileOptions) :=
  ApiArgs <-? parseApiOptions ApiOptions IsStrictMode ;;
  let VCApiArgs := filterApiOptions ApiArgs in
  InternalArgs <-? parseInternalOptions InternalOptions ;;
  let VCInternalArgs := filterUsedOptions InternalArgs VCInternalOption in
  fillOptions VCApiArgs VCInternalArgs.

End OptionResolver.

(** * Test doubles

    Small executable stand-ins for the external services, used to run the
    driver on concrete inputs. *)

Module Doubles.

(** A triple parser that knows three 32-bit architectures. *)
Definition triples : TripleParser :=
  {| isArch32Bit := fun TripleStr =>
       let Arch := getArchName TripleStr in
       String.eqb Arch "i386" || String.eqb Arch "spir" || String.eqb Arch "arm" |}.

Definition sample_module : IRModule :=
  {| getTargetTriple := "spir64-unknown-unknown";
     getDataLayout := "";
     functions := [ {| isDeclaration := true; FunctionBody := "" |};
                    {| isDeclaration := false; FunctionBody := "ret void" |} ] |}.

Definition broken_module : IRModule :=
  {| getTargetTriple := "spir64-unknown-unknown";
     getDataLayout := "";
     functions := [ {| isDeclaration := false; FunctionBody := "" |} ] |}.

(** A reader that accepts two texts; a module is broken when a defined
    function has an empty body. *)
Definition reader : IRReader :=
  {| parseIR := fun Text =>
       if String.eqb Text "sample" then (Value (Some sample_module), "")
       else if String.eqb Text "broken" then (Value (Some broken_module), "")
       else (Value None, "error: expected top-level entity");
     parseBitcodeFile := fun Bytes =>
       if String.eqb Bytes "BC:sample" then inr (Some sample_module)
       else if String.eqb Bytes "BC:broken" then inr (Some broken_module)
       else inl "Invalid bitcode signature";
     verifyModule := fun M =>
       existsb (fun F => negb (isDeclaration F) && String.eqb (FunctionBody F) "")
               (functions M);
     translateSPIRVToIR := fun Bytes _ _ =>
       if String.eqb Bytes "SPIRV:sample" then Value "BC:sample"
       else Failure (BadBitcodeError "not SPIR-V") |}.

Definition render_feature (F : string * bool) : string :=
  ((if snd F then "+" else "-") ++ fst F)%string.

(** A registry holding one target for the two genx architectures; it
    cannot build a machine for the cpu named "none". *)
Definition registry : TargetRegistry :=
  {| Target := unit;
     lookupTarget := fun Arch _ =>
       if String.eqb Arch "genx32" || String.eqb Arch "genx64" then Some tt else None;
     createTargetMachine_of := fun _ TT CPU FS TO OL =>
       if String.eqb CPU "none" then None
       else Some (mkTargetMachine TT CPU FS TO OL);
     SubtargetFeatures_getString := fun Fs => join (map render_feature Fs) ",";
     getPointerSizeInBits := fun TM =>
       if String.eqb (getArchName (TM_TargetTriple TM)) "genx32" then 32%N else 64%N;
     createDataLayout := fun TM =>
       if String.eqb (getArchName (TM_TargetTriple TM)) "genx32"
       then "e-p:32:32" else "e-p:64:64";
     adjustPassManager := fun _ PMB => PMB;
     addPassesToEmitFile := fun _ _ => (false, [LibraryPass "GenXCisaBuilder"]) |}.

Definition is_extractor (P : Pass) : bool :=
  match P with GenXOCLInfoExtractorPass => true | _ => false end.

Definition is_emission (P : Pass) : bool :=
  match P with LibraryPass _ => true | _ => false end.

Definition pipelines : PassPipelines :=
  {| populateFunctionPassManager := fun _ => [LibraryPass "sroa"];
     populateModulePassManager := fun _ => [LibraryPass "inline"];
     PM_run := fun _ PM M =>
       {| ModuleAfter := M;
          Emitted := if existsb is_emission PM then ".kernel main" else "";
          RuntimeInfo := if existsb is_extractor PM then ["main"] else [] |};
     FPM_doInitialization := fun _ M => M;
     FPM_run := fun _ _ F => F;
     FPM_doFinalization := fun _ M => M;
     NDEBUG := true;
     raw_fd_ostream_open := fun _ => None |}.

Definition default_options : CompileOptions :=
  {| FType := FileType.SPIRV; CPUStr := "XeHP"; StackMemSize := None;
     ForceLiveRangesLocalizationForAccUsage := false;
     ForceDisableNonOverlappingRegionOpt := false;
     IsLargeGRFMode := false; DisableFinalizerMsg := false;
     NoOptFinalizerMode := OverridableFlag.Default;
     DisableLRCoalescingMode := OverridableFlag.Default;
     EmitDebuggableKernels := false; EmitExtendedDebug := false;
     ForceDebugInfoValidation := false; SaveStackCallLinkage := false;
     UsePlain2DImages := false; EnablePreemption := false;
     AllowFPOpFusion := FPOpFusion.Standard; OptLevel := OptimizerLevel.Full;
     Binary := BinaryKind.OpenCL; FeaturesString := ""; LLVMOptions := "";
     NoVecDecomp := false; NoJumpTables := false;
     TranslateLegacyMemoryIntrinsics := false; DisableStructSplitting := false;
     UseBindlessBuffers := false; HasL1ReadOnlyCache := false;
     HasLocalMemFenceSupress := false; FCtrl := 0%N; WATable := None;
     DumpIsa := false; DumpIR := false; DumpAsm := false; DumpDebugInfo := false;
     TimePasses := false; ShowStats := false; StatsFile := "";
     Dumper := None; ShaderOverrider_ := None |}.

Definition default_backend_options : Backend.GenXBackendOptions :=
  Backend.mkGenXBackendOptions 8192 8192 false false false false false false false
    false false None None false false false false 0 None false false false false
    false false.

Definition defaults : Defaults :=
  {| DefaultCompileOptions := default_options;
     DefaultBackendOptions := default_backend_options |}.

Definition external_data : ExternalData :=
  {| OCLGenericBIFModule := "generic"; VCEmulationBIFModule := "emulation";
     VCSPIRVBuiltinsBIFModule := "builtins"; VCPrintf32BIFModule := "printf32";
     VCPrintf64BIFModule := "printf64" |}.

(** A tokenizer that splits at blanks. *)
Definition command_line : CommandLine :=
  {| TokenizeGNUCommandLine := fun Src => StringRef.split Src " " |}.

Definition initial_world : World :=
  {| ClOptionOccurrences := ["-scalar-leftover"]; TimePassesIsEnabled := false;
     StatisticsEnabled := false; Trace := [] |}.

(** *** A small option table *)

Inductive Kind := KFlag | KJoined | KSeparate.

Record Info (ID : Type) := mkInfo {
  Spelling : string;
  InfoID : ID;
  InfoFlags : N;
  InfoKind : Kind
}.

Section Table.

Variable ID : Type.
Variable ID_eqb : ID -> ID -> bool.
Variables UnknownID InputID : ID.
Variable Infos : list (Info ID).

Definition option_of (Id : ID) (Flags : N) : opt.Option ID :=
  {| opt.matches := ID_eqb Id; opt.Flags := Flags |}.

Definition accepts (FlagsToInclude : N) (Token : string) (Entry : Info ID) : bool :=
  negb (N.land (InfoFlags Entry) FlagsToInclude =? 0)%N
  && match InfoKind Entry with
     | KJoined => StringRef.startswith Token (Spelling Entry)
     | _ => String.eqb Token (Spelling Entry)
     end.

(** The arguments, and the index and count of a missing value. *)
Fixpoint parse_from (FlagsToInclude : N) (Index : nat) (Argv : list string)
  : opt.ArgList ID * nat * nat :=
  match Argv with
  | [] => ([], 0, 0)
  | Token :: Rest =>
      match find (accepts FlagsToInclude Token) Infos with
      | Some Entry =>
          let O := option_of (InfoID Entry) (InfoFlags Entry) in
          match InfoKind Entry, Rest with
          | KFlag, _ =>
              let '(Args, MI, MC) := parse_from FlagsToInclude (S Index) Rest in
              (opt.mkArg O [] Token None :: Args, MI, MC)
          | KJoined, _ =>
              let V := StringRef.drop_front (String.length (Spelling Entry)) Token in
              let '(Args, MI, MC) := parse_from FlagsToInclude (S Index) Rest in
              (opt.mkArg O [V] Token None :: Args, MI, MC)
          | KSeparate, V :: Rest' =>
              let '(Args, MI, MC) := parse_from FlagsToInclude (S (S Index)) Rest' in
              (opt.mkArg O [V] (Token ++ " " ++ V)%string None :: Args, MI, MC)
          | KSeparate, [] => ([], Index, 1)
          end
      | None =>
          let Id := if StringRef.startswith Token "-" then UnknownID else InputID in
          let '(Args, MI, MC) := parse_from FlagsToInclude (S Index) Rest in
          (opt.mkArg (option_of Id 0) [Token] Token None :: Args, MI, MC)
      end
  end.

Definition spelling_of (Id : ID) : string :=
  match find (fun Entry => ID_eqb (InfoID Entry) Id) Infos with
  | Some Entry => Spelling Entry
  | None => ""
  end.

Definition table : opt.OptTable ID :=
  {| opt.ParseArgs := fun Argv FlagsToInclude =>
       let '(Args, MI, MC) := parse_from FlagsToInclude 0 Argv in
       opt.mkParseResult Args MI MC;
     opt.getPrefixedName := spelling_of |}.

End Table.

Definition api_ID_eq_dec (a b : api.ID) : {a = b} + {a <> b}.
Proof. decide equality; apply Nat.eq_dec. Defined.

Definition internal_ID_eq_dec (a b : internal.ID) : {a = b} + {a <> b}.
Proof. decide equality; apply Nat.eq_dec. Defined.

Definition api_eqb (a b : api.ID) : bool := if api_ID_eq_dec a b then true else false.
Definition internal_eqb (a b : internal.ID) : bool :=
  if internal_ID_eq_dec a b then true else false.

Definition VC : N := 16.
Definition IGCMC : N := 32.
Definition IGCAPI : N := 64.
Definition VCINT : N := 128.
Definition IGCINT : N := 256.

Definition api_infos : list (Info api.ID) :=
  [ mkInfo "-vc-codegen" api.OPT_vc_codegen VC KFlag;
    mkInfo "-igcmc" api.OPT_igcmc IGCMC KFlag;
    mkInfo "-emit-debug" api.OPT_emit_debug (N.lor VC IGCMC) KFlag;
    mkInfo "-fp-contract=" api.OPT_fp_contract VC KJoined;
    mkInfo "-optimize=" api.OPT_vc_optimize VC KJoined;
    mkInfo "-Xfinalizer" api.OPT_Xfinalizer VC KSeparate;
    mkInfo "-cl-std=" (api.OPT_other 0) IGCAPI KJoined ].

Definition internal_infos : list (Info internal.ID) :=
  [ mkInfo "-dump-isa-binary" internal.OPT_dump_isa_binary VCINT KFlag;
    mkInfo "-binary-format=" internal.OPT_binary_format VCINT KJoined;
    mkInfo "-target-features=" internal.OPT_target_features VCINT KJoined;
    mkInfo "-stats-file=" internal.OPT_stats_file VCINT KJoined;
    mkInfo "-llvm-options" internal.OPT_llvm_options VCINT KSeparate;
    mkInfo "-cl-intel-gtpin-rera" (internal.OPT_other 0) IGCINT KFlag ].

Definition parse_decimal_digit (c : ascii) : option N :=
  let n := N_of_ascii c in
  if (48 <=? n)%N && (n <=? 57)%N then Some (n - 48)%N else None.

Fixpoint parse_decimal (Acc : N) (S : string) : option N :=
  match S with
  | EmptyString => Some Acc
  | String c S' =>
      match parse_decimal_digit c with
      | Some d => parse_decimal (Acc * 10 + d)%N S'
      | None => None
      end
  end.

(** Decimal only, and within 32 bits. *)
Definition decimal_unsigned (S : string) : option N :=
  if StringRef.empty S then None
  else match parse_decimal 0 S with
       | Some n => if (n <? 4294967296)%N then Some n else None
       | None => None
       end.

Definition tables : OptionTables :=
  {| VCApiOption := VC; IgcmcApiOption := IGCMC; IGCApiOption := IGCAPI;
     VCInternalOption := VCINT; IGCInternalOption := IGCINT;
     getApiOptTable := table api_eqb api.OPT_UNKNOWN api.OPT_INPUT api_infos;
     getInternalOptTable :=
       table internal_eqb internal.OPT_UNKNOWN internal.OPT_INPUT internal_infos;
     getAsInteger := decimal_unsigned |}.

(** An internal argument, as the table above parses "-binary-format=zx". *)
Definition bad_binary_format : opt.Arg internal.ID :=
  opt.mkArg (option_of internal_eqb internal.OPT_binary_format VCINT)
            ["zx"] "-binary-format=zx" None.


(** Arguments built by hand, for options the small tables do not list. *)
Definition api_arg (Id : api.ID) (Values : list string) (Text : string)
  : opt.Arg api.ID :=
  opt.mkArg (option_of api_eqb Id VC) Values Text None.

Definition internal_arg (Id : internal.ID) (Values : list string) (Text : string)
  : opt.Arg internal.ID :=
  opt.mkArg (option_of internal_eqb Id VCINT) Values Text None.

(** A 64-bit target machine, as the registry above builds it. *)
Definition target_machine : TargetMachine :=
  mkTargetMachine genx64_triple "XeHP" "" (mkTargetOptions FPOpFusion.Standard)
                  CodeGenOpt.Default.

(** The default options for the CM path, with a dumper installed and both
    final dumps requested. *)
Definition dumping_options : CompileOptions :=
  {| FType := FileType.SPIRV; CPUStr := "XeHP"; StackMemSize := None;
     ForceLiveRangesLocalizationForAccUsage := false;
     ForceDisableNonOverlappingRegionOpt := false;
     IsLargeGRFMode := false; DisableFinalizerMsg := false;
     NoOptFinalizerMode := OverridableFlag.Default;
     DisableLRCoalescingMode := OverridableFlag.Default;
     EmitDebuggableKernels := false; EmitExtendedDebug := false;
     ForceDebugInfoValidation := false; SaveStackCallLinkage := false;
     UsePlain2DImages := false; EnablePreemption := false;
     AllowFPOpFusion := FPOpFusion.Standard; OptLevel := OptimizerLevel.Full;
     Binary := BinaryKind.CM; FeaturesString := ""; LLVMOptions := "";
     NoVecDecomp := false; NoJumpTables := false;
     TranslateLegacyMemoryIntrinsics := false; DisableStructSplitting := false;
     UseBindlessBuffers := false; HasL1ReadOnlyCache := false;
     HasLocalMemFenceSupress := false; FCtrl := 0%N; WATable := None;
     DumpIsa := true; DumpIR := true; DumpAsm := false; DumpDebugInfo := false;
     TimePasses := false; ShowStats := false; StatsFile := "";
     Dumper := Some 7; ShaderOverrider_ := None |}.

Definition api_flag_args : opt.ArgList api.ID :=
  [ api_arg api.OPT_emit_debug [] "-emit-debug";
    api_arg api.OPT_large_GRF [] "-doubleGRF" ].

Definition api_value_args : opt.ArgList api.ID :=
  [ api_arg api.OPT_fp_contract ["fast"] "-fp-contract=fast";
    api_arg api.OPT_vc_optimize ["full"] "-optimize=full";
    api_arg api.OPT_opt_disable_ze [] "-ze-opt-disable";
    api_arg api.OPT_vc_stateless_private_size ["4096"] "-stateless-stack-mem-size=4096" ].

Definition api_bad_level_args : opt.ArgList api.ID :=
  [ api_arg api.OPT_emit_debug [] "-emit-debug";
    api_arg api.OPT_vc_optimize ["fastest"] "-optimize=fastest" ].

Definition internal_field_args : opt.ArgList internal.ID :=
  [ internal_arg internal.OPT_dump_isa_binary [] "-dump-isa-binary";
    internal_arg internal.OPT_target_features ["+a"] "-target-features=+a";
    internal_arg internal.OPT_binary_format ["cm"] "-binary-format=cm";
    internal_arg internal.OPT_target_features ["-b,+c"] "-target-features=-b,+c";
    internal_arg internal.OPT_stats_file ["s.txt"] "-stats-file=s.txt" ].

Definition internal_help_args : opt.ArgList internal.ID :=
  [ internal_arg internal.OPT_help [] "-help";
    internal_arg internal.OPT_help_internal [] "-help-internal" ].

(** Two arguments created through an alias.  The first has an unaliased
    option outside the vector compiler's grammar and was spelled with an
    alias inside it; the second has an unaliased option inside the grammar
    and was spelled with an alias outside it. *)
Definition spelled_inside : opt.Arg api.ID :=
  opt.mkArg (option_of api_eqb api.OPT_gtpin_rera IGCAPI) [] "-gtpin-rera"
            (Some (opt.mkArg (option_of api_eqb (api.OPT_other 1) VC) []
                             "-gtpin-rera" None)).

Definition spelled_outside : opt.Arg api.ID :=
  opt.mkArg (option_of api_eqb api.OPT_vc_optimize VC) ["full"] "-O=full"
            (Some (opt.mkArg (option_of api_eqb (api.OPT_other 2) IGCAPI) ["full"]
                             "-O=full" None)).

(** A level given inside the grammar, then again through the alias outside
    it. *)
Definition api_alias_args : opt.ArgList api.ID :=
  [ api_arg api.OPT_vc_optimize ["none"] "-optimize=none";
    spelled_inside;
    spelled_outside ].

End Doubles.

(** * Vocabulary of the statements *)

(** A feature-list entry that, once trimmed, begins with neither marker. *)
Definition lacks_marker (F : string) : bool :=
  negb (StringRef.startswith (StringRef.trim F) "+")
  && negb (StringRef.startswith (StringRef.trim F) "-").

(** A computation that, whenever it returns, has left the global option
    occurrences and the timing toggle as it found them. *)
Definition keeps_globals {A : Type} (c : Run A) : Prop :=
  forall w r w',
    c w = (Ret r, w') ->
    ClOptionOccurrences w' = ClOptionOccurrences w
    /\ TimePassesIsEnabled w' = TimePassesIsEnabled w.

(** A computation that never touches the world. *)
Definition pure_run {A : Type} (c : Run A) : Prop := forall w, snd (c w) = w.

(** The text did not parse: the reader hands back a null module, or an
    Expected in the error state. *)
Definition parse_failed {T : Type} (Exp : Expected (unique_ptr T)) : Prop :=
  Exp = Value None \/ exists e, Exp = Failure e.

(** [Token] has [Marker] inside it without being [Marker]. *)
Definition merely_contains (Marker Token : string) : Prop :=
  exists Pre Post,
    Token = (Pre ++ Marker ++ Post)%string /\ (Pre <> "" \/ Post <> "").

(** The statistics-file argument, when given, carries its value. *)
Definition has_value {ID : Type} (A : option (opt.Arg ID)) : Prop :=
  match A with
  | Some Arg => opt.getValues Arg <> []
  | None => True
  end.

Definition is_flat (Out : CompileOutput) : bool :=
  match Out with CmOutput _ => true | OclOutput _ => false end.

Definition is_bundle (Out : CompileOutput) : bool :=
  match Out with CmOutput _ => false | OclOutput _ => true end.

(** * Vocabulary of the further properties *)

(** A computation whose every returning run relates the world it started
    from to the world it ended in by [R]. *)
Definition respects (R : World -> World -> Prop) {A : Type} (c : Run A) : Prop :=
  forall w r w', c w = (Ret r, w') -> R w w'.

(** [w'] is [w] after more events, each of them satisfying [P]. *)
Definition extends_by (P : Event -> Prop) (w w' : World) : Prop :=
  exists Events, Trace w' = Trace w ++ Events /\ Forall P Events.

Definition same_occurrences (w w' : World) : Prop :=
  ClOptionOccurrences w' = ClOptionOccurrences w.

Definition same_statistics (w w' : World) : Prop :=
  StatisticsEnabled w' = StatisticsEnabled w.

Definition same_globals (w w' : World) : Prop :=
  ClOptionOccurrences w' = ClOptionOccurrences w
  /\ TimePassesIsEnabled w' = TimePassesIsEnabled w
  /\ StatisticsEnabled w' = StatisticsEnabled w.

(** An operation on the global command-line option state. *)
Definition cl_event (e : Event) : Prop :=
  match e with
  | cl_ResetAllOptionOccurrences | cl_ParseCommandLineOptions _ => True
  | _ => False
  end.

(** An event the body of [Compile] may perform: not an operation on the
    command-line state, not a help text, and a target-machine construction
    only for one of the two canonical triples. *)
Definition body_event (e : Event) : Prop :=
  match e with
  | cl_ResetAllOptionOccurrences | cl_ParseCommandLineOptions _ => False
  | printHelp _ _ _ => False
  | Target_createTargetMachine TT _ _ _ => TT = genx32_triple \/ TT = genx64_triple
  | _ => True
  end.

(** An event option resolution may perform: text on the diagnostic stream. *)
Definition option_event (e : Event) : Prop :=
  match e with
  | errs_write _ | printHelp _ _ _ => True
  | _ => False
  end.

(** What a marked feature-list entry stands for: its name with the marker
    taken off, and whether the marker was the enabling one. *)
Definition aux_feature (F : string) : string * bool :=
  let Feature := StringRef.trim F in
  (StringRef.drop_front 1 Feature, StringRef.startswith Feature "+").

(** The synthetic features of the active capability toggles, in order. *)
Definition capability_features (Opts : CompileOptions) : list (string * bool) :=
  map (fun Toggle => (snd Toggle, true))
      (filter fst
         [ (HasL1ReadOnlyCache Opts, "has_l1_read_only_cache");
           (HasLocalMemFenceSupress Opts, "supress_local_mem_fence");
           (NoVecDecomp Opts, "disable_vec_decomp");
           (NoJumpTables Opts, "disable_jump_tables");
           (TranslateLegacyMemoryIntrinsics Opts, "translate_legacy_message");
           (negb (BinaryKind.eqb (Binary Opts) BinaryKind.CM), "ocl_runtime") ]).

(** The dumps [dumpFinalOutput] performs. *)
Definition final_dumps (Opts : CompileOptions) (M : IRModule) (IsaBinary : string)
  : list Event :=
  match Dumper Opts with
  | Some D =>
      (if DumpIR Opts then [Dumper_dumpModule D M "final.ll"] else [])
      ++ (if DumpIsa Opts then [Dumper_dumpBinary D IsaBinary "final.isa"] else [])
  | None => []
  end.


(** The accepted spellings of the three enumerated options. *)
Definition fp_contract_mode (Val : string) : option FPOpFusion.FPOpFusionMode :=
  if String.eqb Val "on" then Some FPOpFusion.Standard
  else if String.eqb Val "fast" then Some FPOpFusion.Fast
  else if String.eqb Val "off" then Some FPOpFusion.Strict
  else None.

Definition optimizer_level (Val : string) : option OptimizerLevel.t :=
  if String.eqb Val "none" then Some OptimizerLevel.None
  else if String.eqb Val "full" then Some OptimizerLevel.Full
  else None.

Definition binary_kind (Val : string) : option BinaryKind.t :=
  if String.eqb Val "cm" then Some BinaryKind.CM
  else if String.eqb Val "ocl" then Some BinaryKind.OpenCL
  else if String.eqb Val "ze" then Some BinaryKind.ZE
  else None.

(** The first value of an argument, when it has one. *)
Definition first_value {ID : Type} (A : opt.Arg ID) : option string :=
  match opt.getValues A with
  | V :: _ => Some V
  | [] => None
  end.


(** The help texts the two help options print. *)
Definition api_help {Tables : OptionTables} : Event :=
  printHelp ("-options " ++ quoted "-vc-codegen [options]")
            "Vector compiler options" VCApiOption.

Definition internal_help {Tables : OptionTables} : Event :=
  printHelp ("-options " ++ quoted "-vc-codegen" ++ " -internal_options "
                         ++ quoted "[options]")
            "Vector compiler internal options" VCInternalOption.


(** Whether an argument is judged to carry a category flag: by the option
    of the alias as it was spelled when the argument was created through
    one, by its own option otherwise. *)
Definition carries_flag {ID : Type} (IncludeFlag : N) (A : opt.Arg ID) : bool :=
  opt.hasFlag (opt.getOption (match opt.getAlias A with
                              | Some AliasArg => AliasArg
                              | None => A
                              end)) IncludeFlag.

(** * Properties *)

(** ** Target Configurator: triple normalization *)

Section TripleNormalizationFacts.

Context {Triples : TripleParser}.

Lemma canonical_triples_differ : genx32_triple <> genx64_triple.
Proof. discriminate. Qed.

Lemma overrideTripleWithVC_canonical (TripleStr : string) :
  overrideTripleWithVC TripleStr = genx32_triple
  \/ overrideTripleWithVC TripleStr = genx64_triple.
Proof.
  unfold overrideTripleWithVC.
  destruct (StringRef.startswith TripleStr "genx32"); [now left|].
  destruct (isArch32Bit TripleStr); [now left | now right].
Qed.

Lemma overrideTripleWithVC_marker (TripleStr : string) :
  StringRef.startswith TripleStr "genx32" = true ->
  overrideTripleWithVC TripleStr = genx32_triple.
Proof. intros H. unfold overrideTripleWithVC. now rewrite H. Qed.

Lemma overrideTripleWithVC_genx32 : overrideTripleWithVC genx32_triple = genx32_triple.
Proof. apply overrideTripleWithVC_marker. reflexivity. Qed.

Lemma overrideTripleWithVC_genx64 :
  isArch32Bit genx64_triple = false ->
  overrideTripleWithVC genx64_triple = genx64_triple.
Proof.
  intros H. unfold overrideTripleWithVC. rewrite H.
  change (StringRef.startswith genx64_triple "genx32") with false. reflexivity.
Qed.

Lemma overrideTripleWithVC_unmarked (TripleStr : string) :
  StringRef.startswith TripleStr "genx32" = false ->
  overrideTripleWithVC TripleStr
  = if isArch32Bit TripleStr then genx32_triple else genx64_triple.
Proof. intros H. unfold overrideTripleWithVC. now rewrite H. Qed.

(** C3.  Triple normalization is total and idempotent: every triple string
    is sent to one of the two distinct canonical forms; each canonical form
    is sent to itself, the 32-bit one to the 32-bit one and the 64-bit one
    to the 64-bit one, so that normalizing twice is normalizing once; a
    string that begins with genx32 is sent to the 32-bit form whatever
    width its parsed architecture has; and any other string is sent to the
    form of its parsed width.  For the 64-bit canonical form to be kept,
    LLVM's triple parser must not read the architecture name genx64 as a
    32-bit one. *)
Theorem overrideTripleWithVC_total_idempotent :
  isArch32Bit genx64_triple = false ->
  genx32_triple <> genx64_triple
  /\ (forall TripleStr,
         overrideTripleWithVC TripleStr = genx32_triple
         \/ overrideTripleWithVC TripleStr = genx64_triple)
  /\ overrideTripleWithVC genx32_triple = genx32_triple
  /\ overrideTripleWithVC genx64_triple = genx64_triple
  /\ (forall TripleStr,
         overrideTripleWithVC (overrideTripleWithVC TripleStr)
         = overrideTripleWithVC TripleStr)
  /\ (forall TripleStr,
         StringRef.startswith TripleStr "genx32" = true ->
         overrideTripleWithVC TripleStr = genx32_triple)
  /\ (forall TripleStr,
         StringRef.startswith TripleStr "genx32" = false ->
         overrideTripleWithVC TripleStr
         = if isArch32Bit TripleStr then genx32_triple else genx64_triple).
Proof.
  intros H64. split; [exact canonical_triples_differ|].
  split; [exact overrideTripleWithVC_canonical|].
  split; [exact overrideTripleWithVC_genx32|].
  split; [exact (overrideTripleWithVC_genx64 H64)|].
  split; [|split].
  - intros TripleStr.
    destruct (overrideTripleWithVC_canonical TripleStr) as [E|E]; rewrite E.
    + exact overrideTripleWithVC_genx32.
    + exact (overrideTripleWithVC_genx64 H64).
  - exact overrideTripleWithVC_marker.
  - exact overrideTripleWithVC_unmarked.
Qed.

End TripleNormalizationFacts.

(** ** Backend Configuration Builder *)

Section BackendConfigurationFacts.

Context {D : Defaults}.

Lemma BinaryKind_eqb_eq (a b : BinaryKind.t) : BinaryKind.eqb a b = true <-> a = b.
Proof. destruct a, b; simpl; split; intros H; congruence. Qed.

(** C7.  The legacy-path debuggability flag of the backend options is the
    conjunction of "the output kind is not CM" and "debuggable kernels are
    requested": it is true exactly in that case and false in every other. *)
Theorem createBackendOptions_DebuggabilityForLegacyPath (Opts : CompileOptions) :
  (Backend.DebuggabilityForLegacyPath (createBackendOptions Opts) = true
   <-> EmitDebuggableKernels Opts = true /\ Binary Opts <> BinaryKind.CM)
  /\ (Backend.DebuggabilityForLegacyPath (createBackendOptions Opts) = false
      <-> EmitDebuggableKernels Opts = false \/ Binary Opts = BinaryKind.CM).
Proof.
  unfold createBackendOptions, BinaryKind_neq; simpl.
  destruct (Binary Opts), (EmitDebuggableKernels Opts); simpl;
    repeat split; intros; try congruence; intuition congruence.
Qed.

End BackendConfigurationFacts.

(** ** The driver's monad *)

Section RunFacts.

Context {A B : Type}.

Lemma bind_ret_inv (c : Run A) (k : A -> Run B) w r w' :
  bind c k w = (Ret r, w') ->
  exists a w1, c w = (Ret a, w1) /\ k a w1 = (Ret r, w').
Proof.
  unfold bind. destruct (c w) as [[a|m] w1]; intros H.
  - now exists a, w1.
  - discriminate.
Qed.

Lemma bind_fault (c : Run A) (k : A -> Run B) w m w' :
  c w = (Fault m, w') -> bind c k w = (Fault m, w').
Proof. intros H. unfold bind. now rewrite H. Qed.

Lemma bind_step (c : Run A) (k : A -> Run B) w a w1 :
  c w = (Ret a, w1) -> bind c k w = k a w1.
Proof. intros H. unfold bind. now rewrite H. Qed.

Lemma pure_bind (c : Run A) (k : A -> Run B) :
  pure_run c -> (forall a, pure_run (k a)) -> pure_run (bind c k).
Proof.
  intros Hc Hk w. unfold bind. specialize (Hc w).
  destruct (c w) as [[a|m] w1]; simpl in *; subst; [apply Hk | reflexivity].
Qed.

Lemma keeps_bind (c : Run A) (k : A -> Run B) :
  keeps_globals c -> (forall a, keeps_globals (k a)) -> keeps_globals (bind c k).
Proof.
  intros Hc Hk w r w' H.
  destruct (bind_ret_inv _ _ _ H) as (a & w1 & H1 & H2).
  destruct (Hc _ _ _ H1) as [E1 E2]. destruct (Hk _ _ _ _ H2) as [E3 E4].
  split; congruence.
Qed.

Lemma pure_keeps (c : Run A) : pure_run c -> keeps_globals c.
Proof.
  intros Hc w r w' H. specialize (Hc w). rewrite H in Hc. simpl in Hc. now subst.
Qed.

Lemma pure_ret (a : A) : pure_run (ret a).
Proof. now intros w. Qed.

Lemma pure_fault (m : string) : pure_run (@fault A m).
Proof. now intros w. Qed.

End RunFacts.

Lemma pure_IGC_ASSERT_MESSAGE Cond Message : pure_run (IGC_ASSERT_MESSAGE Cond Message).
Proof. destruct Cond; now intros w. Qed.

Lemma pure_deref {T : Type} (P : unique_ptr T) : pure_run (deref P).
Proof. destruct P; now intros w. Qed.

Lemma pure_Expected_get {T : Type} (Exp : Expected T) : pure_run (Expected_get Exp).
Proof. destruct Exp; now intros w. Qed.

Lemma keeps_emit (e : Event) : keeps_globals (emit e).
Proof. intros w r w' H. inversion H; subst. now split. Qed.

Lemma keeps_when (b : bool) (c : Run unit) : keeps_globals c -> keeps_globals (when b c).
Proof. destruct b; simpl; [trivial | intros _; apply pure_keeps, pure_ret]. Qed.

Lemma keeps_EnableStatistics : keeps_globals EnableStatistics.
Proof. intros w r w' H. inversion H; subst. now split. Qed.

Lemma keeps_get_ClOptionOccurrences : keeps_globals get_ClOptionOccurrences.
Proof. intros w r w' H. inversion H; subst. now split. Qed.

Create HintDb globals.
#[export] Hint Resolve pure_ret pure_fault pure_IGC_ASSERT_MESSAGE pure_deref
  pure_Expected_get : globals.
#[export] Hint Resolve keeps_emit keeps_when keeps_EnableStatistics
  keeps_get_ClOptionOccurrences : globals.
#[export] Hint Extern 2 (keeps_globals (ret _)) => apply pure_keeps, pure_ret : globals.
#[export] Hint Extern 2 (keeps_globals (fault _)) => apply pure_keeps, pure_fault : globals.
#[export] Hint Extern 2 (keeps_globals (IGC_ASSERT_MESSAGE _ _)) =>
  apply pure_keeps, pure_IGC_ASSERT_MESSAGE : globals.
#[export] Hint Extern 2 (keeps_globals (deref _)) => apply pure_keeps, pure_deref : globals.
#[export] Hint Extern 2 (keeps_globals (Expected_get _)) =>
  apply pure_keeps, pure_Expected_get : globals.

(** Splits a sequence into its steps, then closes each step from the hints. *)
Ltac keeps :=
  repeat first
    [ solve [auto with globals]
    | apply keeps_bind; [|intros]
    | match goal with
      | |- keeps_globals (if ?b then _ else _) => destruct b
      | |- keeps_globals (match ?x with _ => _ end) => destruct x
      | |- keeps_globals (let (_, _) := ?x in _) => destruct x
      end ].

Ltac pure :=
  repeat first
    [ solve [auto with globals]
    | apply pure_bind; [|intros]
    | match goal with
      | |- pure_run (if ?b then _ else _) => destruct b
      | |- pure_run (match ?x with _ => _ end) => destruct x
      | |- pure_run (let (_, _) := ?x in _) => destruct x
      end ].

(** ** Input Loader *)

Section InputLoaderFacts.

Context {Reader : IRReader}.

(** C1.  When the text does not parse, [getModuleFromLLVMText] does not
    return at all: after the (possible) diagnostic it goes on to verify
    the module it does not have and stops there.  No run on such a text
    returns the module-parse error. *)
Theorem getModuleFromLLVMText_parse_failure_faults (Input : string) (w : World) :
  parse_failed (fst (parseIR Input)) ->
  (exists Message w', getModuleFromLLVMText Input w = (Fault Message, w'))
  /\ (forall w', getModuleFromLLVMText Input w <> (Ret (Failure ModuleParseFailure), w')).
Proof.
  intros Hfail.
  assert (Hf : exists Message w', getModuleFromLLVMText Input w = (Fault Message, w')).
  { unfold getModuleFromLLVMText.
    destruct (parseIR Input) as [ExpModule Err]; simpl in Hfail.
    destruct Hfail as [->|[e ->]]; simpl; unfold bind; simpl; eauto. }
  split; [exact Hf|].
  destruct Hf as (m & w1 & ->). discriminate.
Qed.

(** The other half of the textual path: a text that parses into a module
    the verifier rejects yields the invalid-module error. *)
Lemma getModuleFromLLVMText_invalid (Input : string) (w : World) M Err :
  parseIR Input = (Value (Some M), Err) ->
  verifyModule M = true ->
  getModuleFromLLVMText Input w = (Ret (Failure InvalidModuleError), w).
Proof.
  intros Hp Hv. unfold getModuleFromLLVMText. rewrite Hp. simpl.
  unfold bind; simpl. now rewrite Hv.
Qed.

Lemma getModuleFromLLVMText_valid (Input : string) (w : World) M Err :
  parseIR Input = (Value (Some M), Err) ->
  verifyModule M = false ->
  getModuleFromLLVMText Input w = (Ret (Value (Some M)), w).
Proof.
  intros Hp Hv. unfold getModuleFromLLVMText. rewrite Hp. simpl.
  unfold bind; simpl. now rewrite Hv.
Qed.

Lemma keeps_getModuleFromLLVMText Input : keeps_globals (getModuleFromLLVMText Input).
Proof. unfold getModuleFromLLVMText. keeps. Qed.

Lemma keeps_getModuleFromLLVMBinary Input : keeps_globals (getModuleFromLLVMBinary Input).
Proof. unfold getModuleFromLLVMBinary. keeps. Qed.

Lemma keeps_getModule Input FType Ids Values :
  keeps_globals (getModule Input FType Ids Values).
Proof.
  destruct FType; simpl.
  - unfold getModuleFromSPIRV.
    destruct (translateSPIRVToIR Input Ids Values);
      [apply keeps_getModuleFromLLVMBinary | keeps].
  - apply keeps_getModuleFromLLVMText.
  - apply keeps_getModuleFromLLVMBinary.
Qed.

End InputLoaderFacts.

(** ** Target Configurator: feature list and target machine *)

Section TargetConfiguratorFacts.

Context {Triples : TripleParser} {Registry : TargetRegistry}.

Lemma pure_addAuxFeatures AuxFeatures :
  forall Features, pure_run (addAuxFeatures AuxFeatures Features).
Proof.
  induction AuxFeatures as [|F Rest IH]; intros Features; simpl.
  - apply pure_ret.
  - unfold StringRef.consume_front.
    destruct (StringRef.startswith (StringRef.trim F) "+"); simpl.
    + apply pure_bind; [apply pure_ret | intros; apply IH].
    + destruct (StringRef.startswith (StringRef.trim F) "-"); simpl;
        (apply pure_bind; [pure | intros; apply IH]).
Qed.

(** An entry with a marker is consumed; the loop goes on with the rest. *)
Lemma addAuxFeatures_marked F Rest Features w :
  lacks_marker F = false ->
  exists Name Enabled,
    addAuxFeatures (F :: Rest) Features w
    = addAuxFeatures Rest (AddFeature Name Enabled Features) w.
Proof.
  unfold lacks_marker. intros H. simpl. unfold StringRef.consume_front.
  destruct (StringRef.startswith (StringRef.trim F) "+"); simpl.
  - eexists _, true. reflexivity.
  - destruct (StringRef.startswith (StringRef.trim F) "-"); simpl in *;
      [|discriminate].
    eexists _, false. reflexivity.
Qed.

Lemma addAuxFeatures_unmarked_first F Rest Features w :
  lacks_marker F = true ->
  addAuxFeatures (F :: Rest) Features w = (Fault "unexpected feature format", w).
Proof.
  unfold lacks_marker. intros H. simpl. unfold StringRef.consume_front.
  destruct (StringRef.startswith (StringRef.trim F) "+"); [discriminate|].
  destruct (StringRef.startswith (StringRef.trim F) "-"); [discriminate|].
  reflexivity.
Qed.

Lemma addAuxFeatures_unmarked AuxFeatures :
  Exists (fun F => lacks_marker F = true) AuxFeatures ->
  forall Features w,
    addAuxFeatures AuxFeatures Features w = (Fault "unexpected feature format", w).
Proof.
  induction AuxFeatures as [|F Rest IH]; intros HE Features w.
  - inversion HE.
  - destruct (lacks_marker F) eqn:HF.
    + now apply addAuxFeatures_unmarked_first.
    + destruct (addAuxFeatures_marked F Rest Features w HF) as (Name & En & ->).
      apply IH. inversion HE; subst; [congruence | assumption].
Qed.

Lemma getSubtargetFeatureString_unmarked Opts w :
  Exists (fun F => lacks_marker F = true) (StringRef.split (FeaturesString Opts) ",") ->
  getSubtargetFeatureString Opts w = (Fault "unexpected feature format", w).
Proof.
  intros HE. unfold getSubtargetFeatureString.
  destruct (StringRef.empty (FeaturesString Opts)) eqn:Hempty.
  - apply String.eqb_eq in Hempty. rewrite Hempty in HE. inversion HE.
  - simpl. apply bind_fault. now apply addAuxFeatures_unmarked.
Qed.

Lemma pure_getSubtargetFeatureString Opts : pure_run (getSubtargetFeatureString Opts).
Proof.
  unfold getSubtargetFeatureString. apply pure_bind.
  - destruct (negb _); [apply pure_addAuxFeatures | apply pure_ret].
  - intros. apply pure_ret.
Qed.

(** C8.  When some entry of the comma-separated feature list, once trimmed,
    begins with neither + nor -, assembling the feature string stops at the
    failed assertion, and so does target-machine construction, which
    assembles the string before it asks the target for a machine: the call
    returns no machine, and the world (its trace of constructions included)
    is the one it started from. *)
Theorem createTargetMachine_rejects_unmarked_feature Opts TheTriple w :
  Exists (fun F => lacks_marker F = true) (StringRef.split (FeaturesString Opts) ",") ->
  getSubtargetFeatureString Opts w = (Fault "unexpected feature format", w)
  /\ (exists Message, createTargetMachine Opts TheTriple w = (Fault Message, w))
  /\ (forall TM w', createTargetMachine Opts TheTriple w <> (Ret (Value TM), w')).
Proof.
  intros HE.
  pose proof (getSubtargetFeatureString_unmarked Opts w HE) as HF.
  assert (HC : exists Message, createTargetMachine Opts TheTriple w = (Fault Message, w)).
  { unfold createTargetMachine.
    destruct (lookupTarget (getArchName TheTriple) TheTriple) as [T|]; simpl.
    - unfold bind at 1 2; simpl. eexists. apply bind_fault. exact HF.
    - eexists. reflexivity. }
  split; [exact HF|]. split; [exact HC|].
  destruct HC as (m & ->). discriminate.
Qed.

(** The only error [createTargetMachine] returns is the target-machine one. *)
Lemma createTargetMachine_error Opts TheTriple w e w' :
  createTargetMachine Opts TheTriple w = (Ret (Failure e), w') ->
  e = TargetMachineError.
Proof.
  unfold createTargetMachine. intros H.
  repeat (apply bind_ret_inv in H; destruct H as (? & ? & _ & H)).
  match type of H with
  | context [createTargetMachine_of ?a ?b ?c ?d ?e ?f] =>
      destruct (createTargetMachine_of a b c d e f)
  end; inversion H; reflexivity.
Qed.

Lemma keeps_getSubtargetFeatureString Opts :
  keeps_globals (getSubtargetFeatureString Opts).
Proof. apply pure_keeps, pure_getSubtargetFeatureString. Qed.

Lemma keeps_createTargetMachine Opts TheTriple :
  keeps_globals (createTargetMachine Opts TheTriple).
Proof.
  pose proof keeps_getSubtargetFeatureString.
  unfold createTargetMachine. keeps.
Qed.

End TargetConfiguratorFacts.

(** ** Codegen Dispatcher *)

Section CodegenFacts.

Context {Triples : TripleParser} {Reader : IRReader} {Registry : TargetRegistry}
        {Pipelines : PassPipelines} {D : Defaults}.

Lemma createBackendData_ok Data Size w :
  Size = 32%N \/ Size = 64%N ->
  exists BD, createBackendData Data Size w = (Ret BD, w).
Proof. intros [->| ->]; eexists; reflexivity. Qed.

Lemma pure_createBackendData Data Size : pure_run (createBackendData Data Size).
Proof. unfold createBackendData. pure. Qed.

Lemma keeps_createBackendData Data Size : keeps_globals (createBackendData Data Size).
Proof. apply pure_keeps, pure_createBackendData. Qed.

Lemma pure_populateCodeGenPassManager Opts ExtData TM PM :
  pure_run (populateCodeGenPassManager Opts ExtData TM PM).
Proof.
  pose proof pure_createBackendData.
  unfold populateCodeGenPassManager. pure.
Qed.

(** With a supported pointer width and an emission pipeline that accepts the
    file type, the pass manager comes back filled. *)
Lemma populateCodeGenPassManager_ok Opts ExtData TM PM w :
  getPointerSizeInBits TM = 32%N \/ getPointerSizeInBits TM = 64%N ->
  fst (addPassesToEmitFile TM NDEBUG) = false ->
  exists PM', populateCodeGenPassManager Opts ExtData TM PM w = (Ret PM', w).
Proof.
  intros HS HA. unfold populateCodeGenPassManager.
  destruct (createBackendData_ok ExtData w HS) as (BD & HBD).
  rewrite (bind_step _ _ _ HBD).
  destruct (addPassesToEmitFile TM NDEBUG) as [AddPasses Emission].
  simpl in HA. subst AddPasses. eexists. reflexivity.
Qed.

Lemma dumpModule_if_returns Cond Opts M Name w :
  exists w', dumpModule_if Cond Opts M Name w = (Ret tt, w')
             /\ ClOptionOccurrences w' = ClOptionOccurrences w
             /\ TimePassesIsEnabled w' = TimePassesIsEnabled w
             /\ StatisticsEnabled w' = StatisticsEnabled w.
Proof.
  unfold dumpModule_if.
  destruct (Dumper Opts), Cond; simpl; eexists; (split; [reflexivity|]); simpl; auto.
Qed.

Lemma dumpFinalOutput_returns Opts M IsaBinary w :
  exists w', dumpFinalOutput Opts M IsaBinary w = (Ret tt, w')
             /\ ClOptionOccurrences w' = ClOptionOccurrences w
             /\ TimePassesIsEnabled w' = TimePassesIsEnabled w
             /\ StatisticsEnabled w' = StatisticsEnabled w.
Proof.
  unfold dumpFinalOutput.
  destruct (dumpModule_if_returns (DumpIR Opts) Opts M "final.ll" w)
    as (w1 & H1 & E1 & E2 & E3).
  rewrite (bind_step _ _ _ H1).
  destruct (Dumper Opts), (DumpIsa Opts); simpl; eexists; (split; [reflexivity|]);
    simpl; auto.
Qed.

Lemma runCmCodeGen_returns Opts ExtData TM M w :
  getPointerSizeInBits TM = 32%N \/ getPointerSizeInBits TM = 64%N ->
  fst (addPassesToEmitFile TM NDEBUG) = false ->
  exists PM w',
    runCmCodeGen Opts ExtData TM M w
    = (Ret ({| cm.IsaBinary := Emitted (PM_run (ClOptionOccurrences w) PM M) |},
            ModuleAfter (PM_run (ClOptionOccurrences w) PM M)), w').
Proof.
  intros HS HA. unfold runCmCodeGen.
  destruct (populateCodeGenPassManager_ok Opts ExtData TM [] w HS HA) as (PM & HP).
  rewrite (bind_step _ _ _ HP). exists PM.
  unfold run_passes, get_ClOptionOccurrences. unfold bind at 1 2. simpl.
  destruct (dumpFinalOutput_returns Opts
              (ModuleAfter (PM_run (ClOptionOccurrences w) PM M))
              (Emitted (PM_run (ClOptionOccurrences w) PM M)) w) as (w' & H1 & _).
  rewrite (bind_step _ _ _ H1). exists w'. reflexivity.
Qed.

Lemma runOclCodeGen_returns Opts ExtData TM M w :
  getPointerSizeInBits TM = 32%N \/ getPointerSizeInBits TM = 64%N ->
  fst (addPassesToEmitFile TM NDEBUG) = false ->
  exists PM w',
    In GenXOCLInfoExtractorPass PM
    /\ runOclCodeGen Opts ExtData TM M w
       = (Ret (RuntimeInfo (PM_run (ClOptionOccurrences w) PM M),
               ModuleAfter (PM_run (ClOptionOccurrences w) PM M)), w').
Proof.
  intros HS HA. unfold runOclCodeGen.
  destruct (populateCodeGenPassManager_ok Opts ExtData TM [] w HS HA) as (PM & HP).
  rewrite (bind_step _ _ _ HP). exists (PM ++ [GenXOCLInfoExtractorPass]).
  unfold run_passes, get_ClOptionOccurrences. unfold bind at 1 2. simpl.
  match goal with
  | |- context [dumpFinalOutput ?o ?m ?b] =>
      destruct (dumpFinalOutput_returns o m b w) as (w' & H1 & _)
  end.
  rewrite (bind_step _ _ _ H1). exists w'. split; [|reflexivity].
  apply in_or_app. right. now left.
Qed.

(** C5.  The dispatcher picks its path from [Opts.Binary] alone: CM runs the
    flat-binary path, OpenCL and ZE run the runtime-info path.  Whenever the
    pipeline can be populated (pointer width 32 or 64, file type accepted),
    the call returns: for CM the flat payload holding the emitted text, for
    OpenCL and ZE the bundle of runtime information harvested by the
    extractor pass; the shape of the output is flat exactly for CM. *)
Theorem runCodeGen_dispatch Opts ExtData TM M w :
  getPointerSizeInBits TM = 32%N \/ getPointerSizeInBits TM = 64%N ->
  fst (addPassesToEmitFile TM NDEBUG) = false ->
  (Binary Opts = BinaryKind.CM ->
   runCodeGen Opts ExtData TM M
   = (r <- runCmCodeGen Opts ExtData TM M ;; ret (CmOutput (fst r), snd r)))
  /\ (Binary Opts = BinaryKind.OpenCL \/ Binary Opts = BinaryKind.ZE ->
      runCodeGen Opts ExtData TM M
      = (r <- runOclCodeGen Opts ExtData TM M ;; ret (OclOutput (fst r), snd r)))
  /\ exists Out M' w',
      runCodeGen Opts ExtData TM M w = (Ret (Out, M'), w')
      /\ (Binary Opts = BinaryKind.CM ->
          exists PM,
            Out = CmOutput {| cm.IsaBinary :=
                                Emitted (PM_run (ClOptionOccurrences w) PM M) |})
      /\ (Binary Opts = BinaryKind.OpenCL \/ Binary Opts = BinaryKind.ZE ->
          exists PM,
            In GenXOCLInfoExtractorPass PM
            /\ Out = OclOutput (RuntimeInfo (PM_run (ClOptionOccurrences w) PM M)))
      /\ (is_flat Out = true <-> Binary Opts = BinaryKind.CM)
      /\ (is_bundle Out = true
          <-> Binary Opts = BinaryKind.OpenCL \/ Binary Opts = BinaryKind.ZE).
Proof.
  intros HS HA. split; [|split].
  - intros E. unfold runCodeGen. now rewrite E.
  - intros [E|E]; unfold runCodeGen; now rewrite E.
  - unfold runCodeGen.
    destruct (Binary Opts) eqn:EB.
    + destruct (runCmCodeGen_returns Opts ExtData TM M w HS HA) as (PM & w' & H).
      rewrite (bind_step _ _ _ H). simpl.
      eexists _, _, w'. split; [reflexivity|].
      repeat split; intros; try discriminate; try (now exists PM);
        intuition discriminate.
    + destruct (runOclCodeGen_returns Opts ExtData TM M w HS HA) as (PM & w' & HI & H).
      rewrite (bind_step _ _ _ H). simpl.
      eexists _, _, w'. split; [reflexivity|].
      repeat split; intros; try discriminate; try (now exists PM); auto.
    + destruct (runOclCodeGen_returns Opts ExtData TM M w HS HA) as (PM & w' & HI & H).
      rewrite (bind_step _ _ _ H). simpl.
      eexists _, _, w'. split; [reflexivity|].
      repeat split; intros; try discriminate; try (now exists PM); auto.
Qed.

(** Whatever the services do, a returned output has the shape its kind
    calls for. *)
Lemma runCodeGen_shape Opts ExtData TM M w Out M' w' :
  runCodeGen Opts ExtData TM M w = (Ret (Out, M'), w') ->
  is_flat Out = BinaryKind.eqb (Binary Opts) BinaryKind.CM.
Proof.
  unfold runCodeGen. intros H.
  destruct (Binary Opts); apply bind_ret_inv in H;
    destruct H as (r & w1 & _ & H); inversion H; reflexivity.
Qed.

End CodegenFacts.

(** ** Driver top level: the scope of the global state *)

Section CompileFacts.

Context {Triples : TripleParser} {Reader : IRReader} {Registry : TargetRegistry}
        {Pipelines : PassPipelines} {D : Defaults} {CL : CommandLine}.

Lemma keeps_run_passes PM M : keeps_globals (run_passes PM M).
Proof. unfold run_passes. keeps. Qed.

Lemma keeps_run_function_passes PM M : keeps_globals (run_function_passes PM M).
Proof. unfold run_function_passes. keeps. Qed.

Lemma keeps_dumpModule_if Cond Opts M Name : keeps_globals (dumpModule_if Cond Opts M Name).
Proof. unfold dumpModule_if. keeps. Qed.

Lemma keeps_dumpFinalOutput Opts M IsaBinary : keeps_globals (dumpFinalOutput Opts M IsaBinary).
Proof. pose proof keeps_dumpModule_if. unfold dumpFinalOutput. keeps. Qed.

Lemma keeps_optimizeIR Opts ExtData TM M : keeps_globals (optimizeIR Opts ExtData TM M).
Proof.
  pose proof keeps_createBackendData. pose proof keeps_run_passes.
  pose proof keeps_run_function_passes.
  unfold optimizeIR. keeps.
Qed.

Lemma keeps_populateCodeGenPassManager Opts ExtData TM PM :
  keeps_globals (populateCodeGenPassManager Opts ExtData TM PM).
Proof. apply pure_keeps, pure_populateCodeGenPassManager. Qed.

Lemma keeps_runCodeGen Opts ExtData TM M : keeps_globals (runCodeGen Opts ExtData TM M).
Proof.
  pose proof keeps_populateCodeGenPassManager. pose proof keeps_run_passes.
  pose proof keeps_dumpFinalOutput.
  unfold runCodeGen, runCmCodeGen, runOclCodeGen. keeps.
Qed.

Lemma parseLLVMOptions_run Args w :
  parseLLVMOptions Args w
  = (Ret tt,
     mkWorld (TokenizeGNUCommandLine Args) (TimePassesIsEnabled w) (StatisticsEnabled w)
             (Trace w ++ [cl_ResetAllOptionOccurrences;
                          cl_ParseCommandLineOptions
                            ("vc-codegen" :: TokenizeGNUCommandLine Args)])).
Proof.
  unfold parseLLVMOptions, ResetAllOptionOccurrences, ParseCommandLineOptions, bind.
  simpl. now rewrite <- app_assoc.
Qed.

#[local] Hint Resolve keeps_getModule keeps_createTargetMachine keeps_run_passes
  keeps_dumpModule_if keeps_optimizeIR keeps_runCodeGen : globals.

(** Walks back along a sequence that returned, collecting what each step
    did to the two globals. *)
Ltac chase :=
  repeat match goal with
    | H : bind _ _ _ = (Ret _, _) |- _ =>
        apply bind_ret_inv in H; destruct H as (? & ? & ? & H)
    | H : ret _ _ = (Ret _, _) |- _ => inversion H; subst; clear H
    | H : when ?b _ _ = (Ret _, _) |- _ => destruct b; simpl in H
    | H : set_TimePassesIsEnabled _ _ = _ |- _ => inversion H; subst; clear H
    | H : get_TimePassesIsEnabled _ = _ |- _ => inversion H; subst; clear H
    | H : EnableStatistics _ = _ |- _ => inversion H; subst; clear H
    | H : emit _ _ = _ |- _ => inversion H; subst; clear H
    | H : (match ?x with _ => _ end) _ = (Ret _, _) |- _ => destruct x
    | H : ?c ?w = (Ret _, _) |- _ =>
        let K := fresh "K" in
        assert (K : keeps_globals c) by auto with globals;
        destruct (K _ _ _ H) as [? ?]; clear K H
    end.

(** The body of [Compile], when it returns, has restored the timing toggle
    and has not touched the option occurrences. *)
Lemma keeps_CompileBody Input Opts ExtData Ids Values :
  keeps_globals (CompileBody Input Opts ExtData Ids Values).
Proof.
  intros w r w' H. unfold CompileBody in H.
  chase; simpl in *; split; congruence.
Qed.

(** The body returns in one of three ways: with the output, with the
    loader's error, or with the target-machine error. *)
Lemma CompileBody_exits Input Opts ExtData Ids Values w r w' :
  CompileBody Input Opts ExtData Ids Values w = (Ret r, w') ->
  (exists Output, r = Value Output)
  \/ (exists e w1 w2,
         getModule Input (FType Opts) Ids Values w1 = (Ret (Failure e), w2)
         /\ r = Failure e)
  \/ r = Failure TargetMachineError.
Proof.
  unfold CompileBody. intros H.
  apply bind_ret_inv in H. destruct H as ([P|e] & w0 & Hload & H).
  2:{ inversion H; subst. right. left. now exists e, w, w'. }
  do 3 (apply bind_ret_inv in H; destruct H as (? & ? & _ & H)).
  apply bind_ret_inv in H. destruct H as ([TM|e] & ? & HTM & H).
  2:{ inversion H; subst. right. right. f_equal.
      exact (createTargetMachine_error _ _ _ HTM). }
  repeat (apply bind_ret_inv in H; destruct H as (? & ? & _ & H)).
  inversion H. left. now eexists.
Qed.

Lemma Compile_unfold Input Opts ExtData Ids Values w :
  exists w1,
    parseLLVMOptions (LLVMOptions Opts) w = (Ret tt, w1)
    /\ ClOptionOccurrences w1 = TokenizeGNUCommandLine (LLVMOptions Opts)
    /\ TimePassesIsEnabled w1 = TimePassesIsEnabled w
    /\ Trace w1
       = Trace w ++ [cl_ResetAllOptionOccurrences;
                     cl_ParseCommandLineOptions
                       ("vc-codegen" :: TokenizeGNUCommandLine (LLVMOptions Opts))]
    /\ Compile Input Opts ExtData Ids Values w
       = scope_exit ResetAllOptionOccurrences
                    (CompileBody Input Opts ExtData Ids Values) w1.
Proof.
  eexists. split; [apply parseLLVMOptions_run|]. simpl.
  repeat split. unfold Compile. now rewrite (bind_step _ _ _ (parseLLVMOptions_run _ w)).
Qed.

(** C9.  [Compile] begins by parsing [Opts.LLVMOptions] into the global
    option state: the body runs from a world whose registered occurrences
    are exactly the tokens of that string.  On every path that returns
    (the output, a loader error, a target-machine error) the guard has
    reset the occurrences, the reset being the last effect performed, and
    the timing toggle has the value it had at entry; those three are the
    only ways in which it returns. *)
Theorem Compile_scopes_global_state Input Opts ExtData Ids Values w :
  (exists w1,
      parseLLVMOptions (LLVMOptions Opts) w = (Ret tt, w1)
      /\ ClOptionOccurrences w1 = TokenizeGNUCommandLine (LLVMOptions Opts)
      /\ Trace w1
         = Trace w ++ [cl_ResetAllOptionOccurrences;
                       cl_ParseCommandLineOptions
                         ("vc-codegen" :: TokenizeGNUCommandLine (LLVMOptions Opts))]
      /\ Compile Input Opts ExtData Ids Values w
         = scope_exit ResetAllOptionOccurrences
                      (CompileBody Input Opts ExtData Ids Values) w1)
  /\ (forall r w',
         Compile Input Opts ExtData Ids Values w = (Ret r, w') ->
         ClOptionOccurrences w' = []
         /\ (exists T, Trace w' = T ++ [cl_ResetAllOptionOccurrences])
         /\ TimePassesIsEnabled w' = TimePassesIsEnabled w
         /\ ((exists Output, r = Value Output)
             \/ (exists e w1 w2,
                    getModule Input (FType Opts) Ids Values w1 = (Ret (Failure e), w2)
                    /\ r = Failure e)
             \/ r = Failure TargetMachineError)).
Proof.
  destruct (Compile_unfold Input Opts ExtData Ids Values w)
    as (w1 & Hp & Hcl & Htp & Htr & Hc).
  split; [now exists w1|].
  intros r w' H. rewrite Hc in H. unfold scope_exit in H.
  apply bind_ret_inv in H. destruct H as (r0 & w2 & Hbody & H).
  pose proof (keeps_CompileBody Input Opts ExtData Ids Values) as K.
  destruct (K _ _ _ Hbody) as [_ Etp].
  unfold ResetAllOptionOccurrences, bind, ret in H. inversion H; subst; simpl.
  split; [reflexivity|]. split; [now eexists|]. split; [congruence|].
  exact (CompileBody_exits _ _ _ _ _ _ Hbody).
Qed.

(** A loader error is returned as it is, with the occurrences reset. *)
Lemma Compile_load_failure Input Opts ExtData Ids Values w w1 e w2 :
  parseLLVMOptions (LLVMOptions Opts) w = (Ret tt, w1) ->
  getModule Input (FType Opts) Ids Values w1 = (Ret (Failure e), w2) ->
  exists w', Compile Input Opts ExtData Ids Values w = (Ret (Failure e), w')
             /\ ClOptionOccurrences w' = [].
Proof.
  intros Hp Hm. unfold Compile. rewrite (bind_step _ _ _ Hp).
  unfold scope_exit, CompileBody. rewrite (bind_step _ _ _ (bind_step _ _ _ Hm)).
  eexists. split; reflexivity.
Qed.

End CompileFacts.

(** ** Option Resolver *)

Lemma string_length_append (s1 s2 : string) :
  String.length (s1 ++ s2) = String.length s1 + String.length s2.
Proof. induction s1 as [|c s1 IH]; simpl; [reflexivity | now rewrite IH]. Qed.

Lemma string_length_zero (s : string) : String.length s = 0 -> s = "".
Proof. destruct s; [reflexivity | discriminate]. Qed.

Lemma merely_contains_neq (Marker Token : string) :
  merely_contains Marker Token -> Token <> Marker.
Proof.
  intros (Pre & Post & -> & Hne) E.
  apply (f_equal String.length) in E.
  rewrite !string_length_append in E.
  destruct Hne as [Hne|Hne]; apply Hne, string_length_zero; lia.
Qed.

Section OptionResolverFacts.

Context {Tables : OptionTables} {CL : CommandLine} {D : Defaults}.

Lemma HasOption_In (Argv : list string) (Opt : string) :
  HasOption Argv Opt = true <-> In Opt Argv.
Proof.
  unfold HasOption. rewrite existsb_exists. split.
  - intros (x & Hin & Heq). apply String.eqb_eq in Heq. now subst.
  - intros Hin. exists Opt. split; [assumption | apply String.eqb_refl].
Qed.

Lemma HasOption_false (Argv : list string) (Opt : string) :
  HasOption Argv Opt = false <-> ~ In Opt Argv.
Proof.
  rewrite <- HasOption_In. destruct (HasOption Argv Opt); split; intros; congruence.
Qed.

Lemma parseApiOptions_not_vc ApiOptions IsStrictMode :
  let Argv := TokenizeGNUCommandLine ApiOptions in
  ~ In (opt.getPrefixedName getApiOptTable api.OPT_vc_codegen) Argv ->
  ~ In (opt.getPrefixedName getApiOptTable api.OPT_igcmc) Argv ->
  parseApiOptions ApiOptions IsStrictMode = ret (Failure NotVCError).
Proof.
  intros Argv H1 H2. unfold parseApiOptions.
  apply HasOption_false in H1, H2. fold Argv. now rewrite H1, H2.
Qed.

Lemma parseApiOptions_current ApiOptions IsStrictMode :
  let Argv := TokenizeGNUCommandLine ApiOptions in
  In (opt.getPrefixedName getApiOptTable api.OPT_vc_codegen) Argv ->
  parseApiOptions ApiOptions IsStrictMode
  = parseOptions [api.OPT_UNKNOWN; api.OPT_INPUT] Argv
                 (N.lor VCApiOption IGCApiOption) getApiOptTable IsStrictMode.
Proof.
  intros Argv H. apply HasOption_In in H. unfold parseApiOptions.
  fold Argv. now rewrite H.
Qed.

Lemma parseApiOptions_deprecated ApiOptions IsStrictMode :
  let Argv := TokenizeGNUCommandLine ApiOptions in
  let IgcmcOptName := opt.getPrefixedName getApiOptTable api.OPT_igcmc in
  ~ In (opt.getPrefixedName getApiOptTable api.OPT_vc_codegen) Argv ->
  In IgcmcOptName Argv ->
  parseApiOptions ApiOptions IsStrictMode
  = (emit (errs_write (deprecation_notice IgcmcOptName)) ;;
     parseOptions [api.OPT_UNKNOWN; api.OPT_INPUT] Argv
                  (N.lor IgcmcApiOption IGCApiOption) getApiOptTable IsStrictMode).
Proof.
  intros Argv IgcmcOptName H1 H2.
  apply HasOption_false in H1. apply HasOption_In in H2.
  unfold parseApiOptions. fold Argv IgcmcOptName. now rewrite H1, H2.
Qed.

(** C2.  When no token of the API string equals the current marker and none
    equals the deprecated marker, [ParseOptions] returns the
    not-this-compiler error and leaves the world as it was, whatever the
    other tokens, the internal string and the strictness flag are, and
    whatever the option tables would have answered: neither table is
    consulted, so no unknown-option or missing-value error can come first. *)
Theorem ParseOptions_not_this_compiler ApiOptions InternalOptions IsStrictMode w :
  ~ In (opt.getPrefixedName getApiOptTable api.OPT_vc_codegen)
       (TokenizeGNUCommandLine ApiOptions) ->
  ~ In (opt.getPrefixedName getApiOptTable api.OPT_igcmc)
       (TokenizeGNUCommandLine ApiOptions) ->
  ParseOptions ApiOptions InternalOptions IsStrictMode w = (Ret (Failure NotVCError), w).
Proof.
  intros H1 H2. unfold ParseOptions, bind_expected.
  now rewrite (parseApiOptions_not_vc ApiOptions IsStrictMode H1 H2).
Qed.

(** C10.  The grammar is chosen by membership of the complete marker
    spelling among the tokens: the current grammar exactly when some token
    equals the current marker, otherwise the deprecated grammar exactly when
    some token equals the deprecated marker, otherwise none.  A token list
    whose tokens merely contain a marker never passes the test for it. *)
Theorem parseApiOptions_exact_marker_match ApiOptions IsStrictMode :
  let Argv := TokenizeGNUCommandLine ApiOptions in
  let VCCodeGenOptName := opt.getPrefixedName getApiOptTable api.OPT_vc_codegen in
  let IgcmcOptName := opt.getPrefixedName getApiOptTable api.OPT_igcmc in
  (In VCCodeGenOptName Argv ->
   parseApiOptions ApiOptions IsStrictMode
   = parseOptions [api.OPT_UNKNOWN; api.OPT_INPUT] Argv
                  (N.lor VCApiOption IGCApiOption) getApiOptTable IsStrictMode)
  /\ (~ In VCCodeGenOptName Argv -> In IgcmcOptName Argv ->
      parseApiOptions ApiOptions IsStrictMode
      = (emit (errs_write (deprecation_notice IgcmcOptName)) ;;
         parseOptions [api.OPT_UNKNOWN; api.OPT_INPUT] Argv
                      (N.lor IgcmcApiOption IGCApiOption) getApiOptTable IsStrictMode))
  /\ (~ In VCCodeGenOptName Argv -> ~ In IgcmcOptName Argv ->
      parseApiOptions ApiOptions IsStrictMode = ret (Failure NotVCError))
  /\ (forall Marker,
         Forall (merely_contains Marker) Argv -> HasOption Argv Marker = false).
Proof.
  intros Argv VCCodeGenOptName IgcmcOptName.
  assert (Hmc : forall Marker,
             Forall (merely_contains Marker) Argv -> ~ In Marker Argv).
  { intros Marker HF Hin. rewrite Forall_forall in HF.
    exact (merely_contains_neq (HF _ Hin) eq_refl). }
  repeat split.
  - apply parseApiOptions_current.
  - apply parseApiOptions_deprecated.
  - intros H1 H2. now apply parseApiOptions_not_vc.
  - intros Marker HF. apply HasOption_false. now apply Hmc.
Qed.

(** [parseOptions] when no argument value is missing: the only error left
    is the strict-mode one. *)
Lemma parseOptions_no_missing {ID : Type} (UnknownIDs : list ID) Argv FlagsToInclude
      (Options : opt.OptTable ID) IsStrictMode w :
  opt.MissingArgCount (opt.ParseArgs Options Argv FlagsToInclude) = 0 ->
  parseOptions UnknownIDs Argv FlagsToInclude Options IsStrictMode w
  = (Ret match (if IsStrictMode
                then opt.getLastArg UnknownIDs
                       (opt.InputArgs (opt.ParseArgs Options Argv FlagsToInclude))
                else None) with
         | Some A =>
             Failure (OptionError (opt.getAsString A)
                        (negb (N.land FlagsToInclude VCInternalOption =? 0)%N))
         | None => Value (opt.InputArgs (opt.ParseArgs Options Argv FlagsToInclude))
         end, w).
Proof.
  intros H0. unfold parseOptions. rewrite H0. simpl.
  destruct IsStrictMode; [|reflexivity].
  destruct (opt.getLastArg _ _); reflexivity.
Qed.

(** An error out of [parseOptions] in lenient mode is a missing-value one. *)
Lemma parseOptions_lenient_error {ID : Type} (UnknownIDs : list ID) Argv FlagsToInclude
      (Options : opt.OptTable ID) w e w' :
  parseOptions UnknownIDs Argv FlagsToInclude Options false w = (Ret (Failure e), w') ->
  opt.MissingArgCount (opt.ParseArgs Options Argv FlagsToInclude) <> 0.
Proof.
  intros H H0. rewrite (parseOptions_no_missing _ _ _ _ _ w H0) in H. discriminate.
Qed.

(** C4.  Internal options are parsed leniently whatever the caller's
    strictness flag: when no argument value is missing the parse succeeds
    with every argument kept, unknown ones included, an error can only be a
    missing-value one, and [ParseOptions] goes on to fill the options.  For
    the API options, under either grammar and with no value missing, an
    argument outside the allowed categories (one the table parsed as
    unknown or as an input) makes the parse fail with an option error
    carrying that argument's text when the flag is on, and is let through
    when the flag is off. *)
Theorem strictness_applies_to_api_options_only :
  (forall InternalOptions w,
      let Parsed := opt.ParseArgs getInternalOptTable
                      (TokenizeGNUCommandLine InternalOptions)
                      (N.lor VCInternalOption IGCInternalOption) in
      (opt.MissingArgCount Parsed = 0 ->
       parseInternalOptions InternalOptions w = (Ret (Value (opt.InputArgs Parsed)), w))
      /\ (forall e w',
             parseInternalOptions InternalOptions w = (Ret (Failure e), w') ->
             opt.MissingArgCount Parsed <> 0))
  /\ (forall ApiOptions InternalOptions IsStrictMode w ApiArgs w1,
         let Parsed := opt.ParseArgs getInternalOptTable
                         (TokenizeGNUCommandLine InternalOptions)
                         (N.lor VCInternalOption IGCInternalOption) in
         parseApiOptions ApiOptions IsStrictMode w = (Ret (Value ApiArgs), w1) ->
         opt.MissingArgCount Parsed = 0 ->
         ParseOptions ApiOptions InternalOptions IsStrictMode w
         = fillOptions (filterApiOptions ApiArgs)
                       (filterUsedOptions (opt.InputArgs Parsed) VCInternalOption) w1)
  /\ (forall ApiOptions IsStrictMode w FlagsToInclude A,
         let Argv := TokenizeGNUCommandLine ApiOptions in
         let VCCodeGenOptName := opt.getPrefixedName getApiOptTable api.OPT_vc_codegen in
         let IgcmcOptName := opt.getPrefixedName getApiOptTable api.OPT_igcmc in
         let Parsed := opt.ParseArgs getApiOptTable Argv FlagsToInclude in
         (In VCCodeGenOptName Argv /\ FlagsToInclude = N.lor VCApiOption IGCApiOption
          \/ ~ In VCCodeGenOptName Argv /\ In IgcmcOptName Argv
             /\ FlagsToInclude = N.lor IgcmcApiOption IGCApiOption) ->
         opt.MissingArgCount Parsed = 0 ->
         opt.getLastArg [api.OPT_UNKNOWN; api.OPT_INPUT] (opt.InputArgs Parsed) = Some A ->
         exists IsInternal w',
           parseApiOptions ApiOptions IsStrictMode w
           = (Ret (if IsStrictMode
                   then Failure (OptionError (opt.getAsString A) IsInternal)
                   else Value (opt.InputArgs Parsed)), w')).
Proof.
  split; [|split].
  - intros InternalOptions w Parsed. split.
    + intros H0. unfold parseInternalOptions.
      now rewrite (parseOptions_no_missing _ _ _ _ _ w H0).
    + intros e w' H. unfold parseInternalOptions in H.
      exact (parseOptions_lenient_error _ _ _ _ _ H).
  - intros ApiOptions InternalOptions IsStrictMode w ApiArgs w1 Parsed HA H0.
    unfold ParseOptions, bind_expected.
    rewrite (bind_step _ _ _ HA).
    unfold parseInternalOptions.
    now rewrite (bind_step _ _ _ (parseOptions_no_missing _ _ _ _ _ w1 H0)).
  - intros ApiOptions IsStrictMode w FlagsToInclude A Argv VCName IgcmcName Parsed
           HG H0 HL.
    pose proof (parseApiOptions_current ApiOptions IsStrictMode) as Hcur.
    pose proof (parseApiOptions_deprecated ApiOptions IsStrictMode) as Hdep.
    destruct HG as [[Hin ->]|(Hnin & Hin & ->)].
    + rewrite (Hcur Hin). fold Argv.
      rewrite (parseOptions_no_missing _ _ _ _ _ w H0). fold Argv Parsed.
      rewrite HL.
      exists (negb (N.land (N.lor VCApiOption IGCApiOption) VCInternalOption =? 0)%N).
      destruct IsStrictMode; eexists; reflexivity.
    + rewrite (Hdep Hnin Hin). fold Argv. unfold bind, emit.
      match goal with |- context [parseOptions _ _ _ _ _ ?w1] =>
        rewrite (parseOptions_no_missing _ _ _ _ _ w1 H0) end.
      fold Argv Parsed. rewrite HL.
      exists (negb (N.land (N.lor IgcmcApiOption IGCApiOption) VCInternalOption =? 0)%N).
      destruct IsStrictMode; eexists; reflexivity.
Qed.

Lemma getLastArgValue_returns {ID : Type} (Id : ID) (Args : opt.ArgList ID) w :
  has_value (opt.getLastArg [Id] Args) ->
  exists V, opt.getLastArgValue Id Args w = (Ret V, w).
Proof.
  unfold opt.getLastArgValue, has_value, opt.getValue.
  destruct (opt.getLastArg [Id] Args) as [A|]; [|now eexists].
  destruct (opt.getValues A); [congruence | now eexists].
Qed.

(** C6.  When the last binary-format argument of the internal list carries
    a value other than cm, ocl and ze (compared exactly, case included),
    [fillInternalOptions] returns the option error that carries that
    argument's text and is marked internal; [fillOptions] returns the same
    error once the API options have been filled. *)
Theorem fillInternalOptions_bad_binary_format InternalOptions Opts w A Val Rest :
  has_value (opt.getLastArg [internal.OPT_stats_file] InternalOptions) ->
  opt.getLastArg [internal.OPT_binary_format] InternalOptions = Some A ->
  opt.getValues A = Val :: Rest ->
  Val <> "cm" -> Val <> "ocl" -> Val <> "ze" ->
  fillInternalOptions InternalOptions Opts w
  = (Ret (Failure (OptionError (opt.getAsString A) true)), w)
  /\ (forall ApiOptions w0 Opts1,
         fillApiOptions ApiOptions DefaultCompileOptions w0 = (Ret (Value Opts1), w) ->
         fillOptions ApiOptions InternalOptions w0
         = (Ret (Failure (OptionError (opt.getAsString A) true)), w)).
Proof.
  intros HS HL HV Hcm Hocl Hze.
  assert (Hfill : forall Opts0,
             fillInternalOptions InternalOptions Opts0 w
             = (Ret (Failure (OptionError (opt.getAsString A) true)), w)).
  { intros Opts0. unfold fillInternalOptions.
    destruct (getLastArgValue_returns internal.OPT_stats_file InternalOptions w HS)
      as (File & HF).
    rewrite (bind_step _ _ _ HF). rewrite HL.
    unfold bind_expected, opt.getValue. rewrite HV.
    apply String.eqb_neq in Hcm, Hocl, Hze.
    unfold bind at 1 2. simpl. rewrite Hcm, Hocl, Hze. reflexivity. }
  split; [apply Hfill|].
  intros ApiOptions w0 Opts1 HA. unfold fillOptions, bind_expected.
  rewrite (bind_step _ _ _ HA). rewrite (bind_step _ _ _ (Hfill Opts1)). reflexivity.
Qed.

End OptionResolverFacts.

(** * Further properties *)

(** ** Input Loader: what comes back *)

Section InputLoaderResults.

Context {Reader : IRReader}.

Lemma getModuleFromLLVMBinary_value Input w P w' :
  getModuleFromLLVMBinary Input w = (Ret (Value P), w') ->
  w' = w /\ exists M, P = Some M /\ verifyModule M = false.
Proof.
  unfold getModuleFromLLVMBinary.
  destruct (parseBitcodeFile Input) as [Message|[M|]]; simpl; unfold bind; simpl;
    try discriminate.
  destruct (verifyModule M) eqn:HV; intros H; inversion H; subst.
  split; [reflexivity | now exists M].
Qed.

Lemma getModuleFromLLVMBinary_failure Input w e w' :
  getModuleFromLLVMBinary Input w = (Ret (Failure e), w') ->
  w' = w
  /\ (e = InvalidModuleError
      \/ exists Message, parseBitcodeFile Input = inl Message /\ e = BadBitcodeError Message).
Proof.
  unfold getModuleFromLLVMBinary.
  destruct (parseBitcodeFile Input) as [Message|[M|]]; simpl; unfold bind; simpl;
    try discriminate.
  - intros H; inversion H; subst. split; [reflexivity|]. right. now exists Message.
  - destruct (verifyModule M); intros H; inversion H; subst.
    split; [reflexivity | now left].
Qed.

Lemma getModuleFromLLVMText_returns Input w r w' :
  getModuleFromLLVMText Input w = (Ret r, w') ->
  w' = w
  /\ exists M Err, parseIR Input = (Value (Some M), Err)
                   /\ r = if verifyModule M then Failure InvalidModuleError
                          else Value (Some M).
Proof.
  unfold getModuleFromLLVMText.
  destruct (parseIR Input) as [[[M|]|e] Err]; simpl; unfold bind; simpl;
    try discriminate.
  destruct (verifyModule M) eqn:HV; intros H; inversion H; subst;
    (split; [reflexivity|]); exists M, Err; rewrite HV; now split.
Qed.

(** X1.  Whatever the format, a module handle the loader returns is not null
    and names a module the verifier accepted, and loading it left the world
    untouched. *)
Theorem getModule_returns_verified Input FType Ids Values w P w' :
  getModule Input FType Ids Values w = (Ret (Value P), w') ->
  w' = w /\ exists M, P = Some M /\ verifyModule M = false.
Proof.
  destruct FType; simpl.
  - unfold getModuleFromSPIRV.
    destruct (translateSPIRVToIR Input Ids Values) as [IR|e];
      [apply getModuleFromLLVMBinary_value | discriminate].
  - intros H. destruct (getModuleFromLLVMText_returns _ _ H) as (-> & M & Err & _ & Hr).
    split; [reflexivity|]. exists M.
    destruct (verifyModule M); [discriminate | inversion Hr; now split].
  - apply getModuleFromLLVMBinary_value.
Qed.

(** X2.  The errors the loader returns, by format: the textual path returns
    only the invalid-module error; the binary path that or the bad-bitcode
    error with the decoder's own message; the SPIR-V path those two for the
    translated bytes, or the translator's error as it is.  An error return
    leaves the world untouched. *)
Theorem getModule_error_kinds Input FType Ids Values w e w' :
  getModule Input FType Ids Values w = (Ret (Failure e), w') ->
  w' = w
  /\ (e = InvalidModuleError
      \/ (FType = FileType.LLVM_BINARY
          /\ exists Message,
              parseBitcodeFile Input = inl Message /\ e = BadBitcodeError Message)
      \/ (FType = FileType.SPIRV
          /\ (translateSPIRVToIR Input Ids Values = Failure e
              \/ exists IR Message,
                  translateSPIRVToIR Input Ids Values = Value IR
                  /\ parseBitcodeFile IR = inl Message
                  /\ e = BadBitcodeError Message))).
Proof.
  destruct FType; simpl.
  - unfold getModuleFromSPIRV.
    destruct (translateSPIRVToIR Input Ids Values) as [IR|e0] eqn:HT.
    + intros H. destruct (getModuleFromLLVMBinary_failure _ _ H) as (-> & [->|(m & Hm & ->)]).
      * split; [reflexivity | now left].
      * split; [reflexivity|]. right. right. split; [reflexivity|]. right.
        now exists IR, m.
    + intros H. inversion H; subst. split; [reflexivity|]. right. right.
      split; [reflexivity | now left].
  - intros H. destruct (getModuleFromLLVMText_returns _ _ H) as (-> & M & Err & _ & Hr).
    split; [reflexivity|]. left.
    destruct (verifyModule M); inversion Hr. reflexivity.
  - intros H. destruct (getModuleFromLLVMBinary_failure _ _ H) as (-> & [->|(m & Hm & ->)]).
    + split; [reflexivity | now left].
    + split; [reflexivity|]. right. left. split; [reflexivity | now exists m].
Qed.

End InputLoaderResults.

(** ** Target Configurator: the feature string and the machine *)

Lemma split_from_separator Sep Piece A B :
  StringRef.split_from Sep Piece (A ++ String Sep B)
  = StringRef.split_from Sep Piece A ++ StringRef.split_from Sep "" B.
Proof.
  revert Piece. induction A as [|c A IH]; intros Piece; simpl.
  - rewrite Ascii.eqb_refl. reflexivity.
  - destruct (Ascii.eqb c Sep).
    + rewrite IH. now rewrite app_assoc.
    + apply IH.
Qed.

(** X3.  Joining the values of several -target-features options with commas
    and splitting the joined list at commas gives the entries of the first
    value, then those of the second, and so on: empty values and empty
    entries vanish, nothing is merged across a boundary. *)
Theorem split_join_target_features (Values : list string) :
  StringRef.split (join Values ",") ","
  = flat_map (fun V => StringRef.split V ",") Values.
Proof.
  unfold StringRef.split, join.
  induction Values as [|V Rest IH]; [reflexivity|].
  destruct Rest as [|V' Rest].
  - simpl. now rewrite app_nil_r.
  - change (String.concat "," (V :: V' :: Rest))
      with (V ++ String "," (String.concat "," (V' :: Rest)))%string.
    rewrite split_from_separator, IH. reflexivity.
Qed.

Section FeatureStringFacts.

Context {Triples : TripleParser} {Registry : TargetRegistry}.

Lemma addAuxFeatures_all_marked AuxFeatures :
  Forall (fun F => lacks_marker F = false) AuxFeatures ->
  forall Features w,
    addAuxFeatures AuxFeatures Features w
    = (Ret (Features ++ map aux_feature AuxFeatures), w).
Proof.
  induction 1 as [|F Rest HF _ IH]; intros Features w; simpl.
  - now rewrite app_nil_r.
  - unfold lacks_marker in HF. unfold StringRef.consume_front, aux_feature.
    destruct (StringRef.startswith (StringRef.trim F) "+") eqn:Hplus; simpl.
    + unfold bind at 1; simpl. rewrite IH. unfold AddFeature.
      now rewrite <- app_assoc.
    + destruct (StringRef.startswith (StringRef.trim F) "-"); [|discriminate].
      unfold bind at 1 2; simpl. rewrite IH. unfold AddFeature.
      now rewrite <- app_assoc.
Qed.

Lemma marked_or_unmarked (AuxFeatures : list string) :
  Forall (fun F => lacks_marker F = false) AuxFeatures
  \/ Exists (fun F => lacks_marker F = true) AuxFeatures.
Proof.
  induction AuxFeatures as [|F Rest [IH|IH]].
  - left. constructor.
  - destruct (lacks_marker F) eqn:HF; [right; now left | left; now constructor].
  - right. now right.
Qed.

Lemma capability_features_appended Opts (Features : list (string * bool)) :
  addIf (BinaryKind.eqb (Binary Opts) BinaryKind.OpenCL
         || BinaryKind.eqb (Binary Opts) BinaryKind.ZE) "ocl_runtime"
    (addIf (TranslateLegacyMemoryIntrinsics Opts) "translate_legacy_message"
       (addIf (NoJumpTables Opts) "disable_jump_tables"
          (addIf (NoVecDecomp Opts) "disable_vec_decomp"
             (addIf (HasLocalMemFenceSupress Opts) "supress_local_mem_fence"
                (addIf (HasL1ReadOnlyCache Opts) "has_l1_read_only_cache" Features)))))
  = Features ++ capability_features Opts.
Proof.
  unfold capability_features, addIf, AddFeature.
  destruct (HasL1ReadOnlyCache Opts), (HasLocalMemFenceSupress Opts), (NoVecDecomp Opts),
    (NoJumpTables Opts), (TranslateLegacyMemoryIntrinsics Opts), (Binary Opts);
    simpl; repeat rewrite <- app_assoc; simpl; try rewrite app_nil_r; reflexivity.
Qed.

Lemma getSubtargetFeatureString_all_marked Opts w :
  Forall (fun F => lacks_marker F = false) (StringRef.split (FeaturesString Opts) ",") ->
  getSubtargetFeatureString Opts w
  = (Ret (SubtargetFeatures_getString
            (map aux_feature (StringRef.split (FeaturesString Opts) ",")
             ++ capability_features Opts)), w).
Proof.
  intros HF. unfold getSubtargetFeatureString.
  assert (HA : (if negb (StringRef.empty (FeaturesString Opts))
                then addAuxFeatures (StringRef.split (FeaturesString Opts) ",") []
                else ret []) w
               = (Ret (map aux_feature (StringRef.split (FeaturesString Opts) ",")), w)).
  { destruct (StringRef.empty (FeaturesString Opts)) eqn:HE; simpl.
    - apply String.eqb_eq in HE. rewrite HE. reflexivity.
    - now rewrite (addAuxFeatures_all_marked HF). }
  rewrite (bind_step _ _ _ HA).
  rewrite capability_features_appended. reflexivity.
Qed.

(** X4.  The feature string is assembled exactly when every entry of the
    auxiliary list carries a marker.  It then renders, in this order, the
    entries (each by its name and the sense of its marker) followed by the
    synthetic features of the active toggles, the runtime marker being among
    them for every output kind but CM; and the world is untouched. *)
Theorem getSubtargetFeatureString_marked Opts w :
  let Entries := StringRef.split (FeaturesString Opts) "," in
  (Forall (fun F => lacks_marker F = false) Entries ->
   getSubtargetFeatureString Opts w
   = (Ret (SubtargetFeatures_getString
             (map aux_feature Entries ++ capability_features Opts)), w))
  /\ (forall FeaturesStr w',
         getSubtargetFeatureString Opts w = (Ret FeaturesStr, w') ->
         Forall (fun F => lacks_marker F = false) Entries).
Proof.
  intros Entries. split.
  - apply getSubtargetFeatureString_all_marked.
  - intros FeaturesStr w' H.
    destruct (marked_or_unmarked Entries) as [HF|HE]; [exact HF|].
    rewrite (getSubtargetFeatureString_unmarked Opts w HE) in H. discriminate.
Qed.

(** X5.  Target-machine construction, step by step.  Without a registered
    target it stops at the assertion.  With one, and a well-marked feature
    list, it asks the target once, for the given triple, the cpu, the
    assembled feature string and the optimization level "none" exactly when
    the options ask for no optimization; a null machine is the
    target-machine error. *)
Theorem createTargetMachine_outcomes Opts TheTriple w :
  (lookupTarget (getArchName TheTriple) TheTriple = None ->
   createTargetMachine Opts TheTriple w = (Fault "vc target was not registered", w))
  /\ (forall TheTarget,
         lookupTarget (getArchName TheTriple) TheTriple = Some TheTarget ->
         Forall (fun F => lacks_marker F = false)
                (StringRef.split (FeaturesString Opts) ",") ->
         exists FeaturesStr Level,
           getSubtargetFeatureString Opts w = (Ret FeaturesStr, w)
           /\ (Level = CodeGenOpt.None <-> OptLevel Opts = OptimizerLevel.None)
           /\ createTargetMachine Opts TheTriple w
              = (Ret match createTargetMachine_of TheTarget TheTriple (CPUStr Opts)
                             FeaturesStr (getTargetOptions Opts) Level with
                     | Some TM => Value TM
                     | None => Failure TargetMachineError
                     end,
                 mkWorld (ClOptionOccurrences w) (TimePassesIsEnabled w)
                         (StatisticsEnabled w)
                         (Trace w ++ [Target_createTargetMachine TheTriple (CPUStr Opts)
                                        FeaturesStr Level]))).
Proof.
  split.
  - intros HN. unfold createTargetMachine. rewrite HN. reflexivity.
  - intros TheTarget HT HF.
    pose proof (getSubtargetFeatureString_all_marked Opts w HF) as HS.
    eexists _, (getCodeGenOptLevel Opts). split; [exact HS|]. split.
    + unfold getCodeGenOptLevel. destruct (OptLevel Opts); split; congruence.
    + unfold createTargetMachine. rewrite HT. simpl.
      unfold bind at 1 2. simpl. rewrite (bind_step _ _ _ HS).
      unfold bind, emit. simpl.
      destruct (createTargetMachine_of _ _ _ _ _ _); reflexivity.
Qed.

End FeatureStringFacts.

(** ** Backend Configuration Builder: the derived rules *)

Section BackendRules.

Context {D : Defaults}.

(** The three latches are only ever switched on: each is on when it is
    requested or when the default-constructed options have it on, so a
    request never switches off what the defaults switch on.  A stack-size
    override sets both size fields to the same value; without one both keep
    their defaults. *)
Theorem createBackendOptions_latches (Opts : CompileOptions) :
  let BO := createBackendOptions Opts in
  Backend.LocalizeLRsForAccUsage BO
  = ForceLiveRangesLocalizationForAccUsage Opts
    || Backend.LocalizeLRsForAccUsage DefaultBackendOptions
  /\ Backend.DisableNonOverlappingRegionOpt BO
     = ForceDisableNonOverlappingRegionOpt Opts
       || Backend.DisableNonOverlappingRegionOpt DefaultBackendOptions
  /\ Backend.SaveStackCallLinkage BO
     = SaveStackCallLinkage Opts || Backend.SaveStackCallLinkage DefaultBackendOptions
  /\ (forall Size, StackMemSize Opts = Some Size ->
                   Backend.StackSurfaceMaxSize BO = Size
                   /\ Backend.StatelessPrivateMemSize BO = Size)
  /\ (StackMemSize Opts = None ->
      Backend.StackSurfaceMaxSize BO = Backend.StackSurfaceMaxSize DefaultBackendOptions
      /\ Backend.StatelessPrivateMemSize BO
         = Backend.StatelessPrivateMemSize DefaultBackendOptions).
Proof.
  unfold createBackendOptions; simpl.
  destruct (ForceLiveRangesLocalizationForAccUsage Opts),
    (ForceDisableNonOverlappingRegionOpt Opts), (SaveStackCallLinkage Opts);
    simpl; repeat split; intros;
    match goal with H : StackMemSize Opts = _ |- _ => now rewrite H end.
Qed.

(** X6.  The two tri-state overrides.  Extended debug of the finalizer
    follows an explicit Enable or Disable; left alone, it is on exactly when
    the optimization level is "none" and extended debug was requested.
    Live-range coalescing is disabled only by an explicit Enable. *)
Theorem createBackendOptions_overrides (Opts : CompileOptions) :
  let BO := createBackendOptions Opts in
  (Backend.DebuggabilityExtendedDebug BO = true
   <-> NoOptFinalizerMode Opts = OverridableFlag.Enable
       \/ (NoOptFinalizerMode Opts = OverridableFlag.Default
           /\ OptLevel Opts = OptimizerLevel.None
           /\ EmitExtendedDebug Opts = true))
  /\ (Backend.DisableLiveRangesCoalescing BO = true
      <-> DisableLRCoalescingMode Opts = OverridableFlag.Enable).
Proof.
  unfold createBackendOptions; simpl.
  destruct (NoOptFinalizerMode Opts), (DisableLRCoalescingMode Opts), (OptLevel Opts),
    (EmitExtendedDebug Opts); simpl; repeat split; intros;
    try discriminate; try reflexivity; intuition (try discriminate; auto).
Qed.

End BackendRules.

Lemma createBackendData_bad_width (Data : ExternalData) (Size : N) (w : World) :
  Size <> 32%N -> Size <> 64%N ->
  createBackendData Data Size w = (Fault "only 32 and 64 bit pointers are expected", w).
Proof.
  intros H32 H64. unfold createBackendData.
  apply N.eqb_neq in H32, H64. now rewrite H32, H64.
Qed.

(** X7.  The support-module table is built for pointer widths 32 and 64
    only, any other width stopping at the assertion.  The formatted-output
    module is the 64-bit one for width 64 and the 32-bit one for width 32;
    the other three modules do not depend on the width. *)
Theorem createBackendData_by_width (Data : ExternalData) (Size : N) (w : World) :
  (Size = 32%N \/ Size = 64%N ->
   exists BD,
     createBackendData Data Size w = (Ret BD, w)
     /\ Backend.BiFModule BD BiFKind.VCPrintf
        = (if (Size =? 64)%N then VCPrintf64BIFModule Data else VCPrintf32BIFModule Data)
     /\ Backend.BiFModule BD BiFKind.OCLGeneric = OCLGenericBIFModule Data
     /\ Backend.BiFModule BD BiFKind.VCEmulation = VCEmulationBIFModule Data
     /\ Backend.BiFModule BD BiFKind.VCSPIRVBuiltins = VCSPIRVBuiltinsBIFModule Data)
  /\ (Size <> 32%N -> Size <> 64%N ->
      createBackendData Data Size w
      = (Fault "only 32 and 64 bit pointers are expected", w)).
Proof.
  split.
  - intros [->| ->]; eexists; repeat split.
  - apply createBackendData_bad_width.
Qed.

Lemma createBackendData_returns Data Size w BD w' :
  createBackendData Data Size w = (Ret BD, w') ->
  w' = w /\ (Size = 32%N \/ Size = 64%N).
Proof.
  unfold createBackendData.
  destruct (Size =? 32)%N eqn:H32; [|destruct (Size =? 64)%N eqn:H64]; simpl;
    unfold bind; simpl; intros H; inversion H; subst.
  - apply N.eqb_eq in H32. auto.
  - apply N.eqb_eq in H64. auto.
Qed.

(** ** Optimization Stage and Codegen Dispatcher: when they return *)

Section PipelineOutcomes.

Context {Triples : TripleParser} {Reader : IRReader} {Registry : TargetRegistry}
        {Pipelines : PassPipelines} {D : Defaults}.

(** X8.  The optimization stage returns exactly when the target machine's
    pointer width is 32 or 64, and never touches the world.  It is not
    skipped at any optimization level: the module it returns is what a run
    of the per-module pass manager left, and that manager starts with the
    target-information pass and the backend configuration derived from the
    options. *)
Theorem optimizeIR_outcomes Opts ExtData TM M w :
  (getPointerSizeInBits TM = 32%N \/ getPointerSizeInBits TM = 64%N ->
   exists BD Rest M1,
     createBackendData ExtData (getPointerSizeInBits TM) w = (Ret BD, w)
     /\ optimizeIR Opts ExtData TM M w
        = (Ret (ModuleAfter
                  (PM_run (ClOptionOccurrences w)
                          (TargetTransformInfoWrapperPass TM
                           :: GenXBackendConfig (createBackendOptions Opts) BD :: Rest)
                          M1)), w))
  /\ (getPointerSizeInBits TM <> 32%N -> getPointerSizeInBits TM <> 64%N ->
      optimizeIR Opts ExtData TM M w
      = (Fault "only 32 and 64 bit pointers are expected", w))
  /\ (forall M' w', optimizeIR Opts ExtData TM M w = (Ret M', w') ->
                    w' = w
                    /\ (getPointerSizeInBits TM = 32%N \/ getPointerSizeInBits TM = 64%N)).
Proof.
  split; [|split].
  - intros HS.
    destruct (createBackendData_ok ExtData w HS) as (BD & HBD).
    exists BD. eexists _, _. split; [exact HBD|].
    unfold optimizeIR. rewrite (bind_step _ _ _ HBD). reflexivity.
  - intros H32 H64. unfold optimizeIR. apply bind_fault.
    now apply createBackendData_bad_width.
  - intros M' w' H. unfold optimizeIR in H.
    apply bind_ret_inv in H. destruct H as (BD & w1 & HBD & H).
    destruct (createBackendData_returns _ _ _ HBD) as (-> & HS).
    split; [|exact HS].
    unfold run_function_passes, run_passes, get_ClOptionOccurrences, bind, ret in H.
    now inversion H.
Qed.

End PipelineOutcomes.

Section CodegenOutcomes.

Context {Triples : TripleParser} {Reader : IRReader} {Registry : TargetRegistry}
        {Pipelines : PassPipelines} {D : Defaults}.

Lemma populateCodeGenPassManager_returns Opts ExtData TM PM w PM' w' :
  populateCodeGenPassManager Opts ExtData TM PM w = (Ret PM', w') ->
  w' = w
  /\ (getPointerSizeInBits TM = 32%N \/ getPointerSizeInBits TM = 64%N)
  /\ fst (addPassesToEmitFile TM NDEBUG) = false.
Proof.
  unfold populateCodeGenPassManager. intros H.
  apply bind_ret_inv in H. destruct H as (BD & w1 & HBD & H).
  destruct (createBackendData_returns _ _ _ HBD) as (-> & HS).
  destruct (addPassesToEmitFile TM NDEBUG) as [[|] Emission]; simpl in *;
    unfold bind in H; simpl in H; inversion H; auto.
Qed.

Lemma dumpFinalOutput_trace Opts M IsaBinary w :
  exists w',
    dumpFinalOutput Opts M IsaBinary w = (Ret tt, w')
    /\ same_globals w w'
    /\ Trace w' = Trace w ++ final_dumps Opts M IsaBinary.
Proof.
  unfold dumpFinalOutput, dumpModule_if, final_dumps, same_globals.
  destruct (Dumper Opts), (DumpIR Opts), (DumpIsa Opts); simpl;
    unfold bind, emit, ret; simpl; eexists; (split; [reflexivity|]); simpl;
    rewrite <- ?app_assoc, ?app_nil_r; auto.
Qed.

Lemma final_dumps_captured Opts M Text :
  final_dumps Opts M
    (captured (if DumpIsa Opts then raw_svector_ostream else raw_null_ostream) Text)
  = final_dumps Opts M Text.
Proof. unfold final_dumps. destruct (Dumper Opts), (DumpIR Opts), (DumpIsa Opts); reflexivity. Qed.

(** What a returning run of the dispatcher tells. *)
Lemma runCodeGen_returns Opts ExtData TM M w Out M' w' :
  runCodeGen Opts ExtData TM M w = (Ret (Out, M'), w') ->
  (getPointerSizeInBits TM = 32%N \/ getPointerSizeInBits TM = 64%N)
  /\ fst (addPassesToEmitFile TM NDEBUG) = false
  /\ same_globals w w'
  /\ exists PM,
      M' = ModuleAfter (PM_run (ClOptionOccurrences w) PM M)
      /\ Trace w' = Trace w
                    ++ final_dumps Opts M' (Emitted (PM_run (ClOptionOccurrences w) PM M))
      /\ (forall Bin, Out = CmOutput Bin ->
                      cm.IsaBinary Bin = Emitted (PM_run (ClOptionOccurrences w) PM M)).
Proof.
  unfold runCodeGen. intros H.
  destruct (Binary Opts); apply bind_ret_inv in H; destruct H as ([O1 M1] & w1 & H & Hr);
    inversion Hr; subst; clear Hr; simpl.
  - unfold runCmCodeGen in H.
    apply bind_ret_inv in H. destruct H as (PM & w2 & HP & H).
    destruct (populateCodeGenPassManager_returns _ _ _ _ _ HP) as (-> & HS & HA).
    unfold run_passes, get_ClOptionOccurrences in H. unfold bind at 1 2 in H. simpl in H.
    match type of H with
    | context [dumpFinalOutput ?o ?m ?b] =>
        destruct (dumpFinalOutput_trace o m b w) as (w3 & HD & HG & HT)
    end.
    rewrite (bind_step _ _ _ HD) in H. inversion H; subst.
    repeat split; try assumption; try apply HG.
    exists PM. repeat split; [exact HT|]. intros Bin HB. now inversion HB.
  - unfold runOclCodeGen in H.
    apply bind_ret_inv in H. destruct H as (PM & w2 & HP & H).
    destruct (populateCodeGenPassManager_returns _ _ _ _ _ HP) as (-> & HS & HA).
    unfold run_passes, get_ClOptionOccurrences in H. unfold bind at 1 2 in H. simpl in H.
    match type of H with
    | context [dumpFinalOutput ?o ?m ?b] =>
        destruct (dumpFinalOutput_trace o m b w) as (w3 & HD & HG & HT)
    end.
    rewrite (bind_step _ _ _ HD) in H. inversion H; subst.
    rewrite final_dumps_captured in HT.
    repeat split; try assumption; try apply HG.
    eexists. repeat split; [exact HT|]. intros Bin HB. discriminate.
  - unfold runOclCodeGen in H.
    apply bind_ret_inv in H. destruct H as (PM & w2 & HP & H).
    destruct (populateCodeGenPassManager_returns _ _ _ _ _ HP) as (-> & HS & HA).
    unfold run_passes, get_ClOptionOccurrences in H. unfold bind at 1 2 in H. simpl in H.
    match type of H with
    | context [dumpFinalOutput ?o ?m ?b] =>
        destruct (dumpFinalOutput_trace o m b w) as (w3 & HD & HG & HT)
    end.
    rewrite (bind_step _ _ _ HD) in H. inversion H; subst.
    rewrite final_dumps_captured in HT.
    repeat split; try assumption; try apply HG.
    eexists. repeat split; [exact HT|]. intros Bin HB. discriminate.
Qed.

(** X9.  The dispatcher returns only when the pipeline could be populated:
    the pointer width is 32 or 64 and the target machine accepted the
    assembly file type.  (With the dispatch theorem: exactly then.) *)
Theorem runCodeGen_returns_only_if Opts ExtData TM M w Out M' w' :
  runCodeGen Opts ExtData TM M w = (Ret (Out, M'), w') ->
  (getPointerSizeInBits TM = 32%N \/ getPointerSizeInBits TM = 64%N)
  /\ fst (addPassesToEmitFile TM NDEBUG) = false.
Proof.
  intros H. destruct (runCodeGen_returns _ _ _ _ _ H) as (HS & HA & _). now split.
Qed.

(** X10.  The only traces code generation leaves are the final dumps: the
    module after code generation as final.ll when IR dumps are on, the
    emitted text as final.isa when ISA dumps are on, both only with a dumper
    installed. The dumped binary is the emitted text on both paths, and on
    the CM path it is the payload that is returned.  The global option
    occurrences and both toggles are left alone. *)
Theorem runCodeGen_final_dumps Opts ExtData TM M w Out M' w' :
  runCodeGen Opts ExtData TM M w = (Ret (Out, M'), w') ->
  same_globals w w'
  /\ exists Text,
      Trace w' = Trace w ++ final_dumps Opts M' Text
      /\ (forall Bin, Out = CmOutput Bin -> cm.IsaBinary Bin = Text)
      /\ exists PM, Text = Emitted (PM_run (ClOptionOccurrences w) PM M)
                    /\ M' = ModuleAfter (PM_run (ClOptionOccurrences w) PM M).
Proof.
  intros H.
  destruct (runCodeGen_returns _ _ _ _ _ H) as (_ & _ & HG & PM & HM & HT & HB).
  split; [exact HG|]. eexists. split; [exact HT|]. split; [exact HB|].
  exists PM. now split.
Qed.

End CodegenOutcomes.

(** ** Option Resolver: the stages that leave the world alone *)

Lemma pure_getValue {ID : Type} (A : opt.Arg ID) : pure_run (opt.getValue A).
Proof. unfold opt.getValue. destruct (opt.getValues A); now intros w. Qed.

Lemma pure_getLastArgValue {ID : Type} (Id : ID) (Args : opt.ArgList ID) :
  pure_run (opt.getLastArgValue Id Args).
Proof.
  unfold opt.getLastArgValue. destruct (opt.getLastArg [Id] Args);
    [apply pure_getValue | apply pure_ret].
Qed.

Section PureStages.

Context {Tables : OptionTables} {CL : CommandLine} {D : Defaults}.

Lemma pure_Argv_at Argv Index : pure_run (Argv_at Argv Index).
Proof. unfold Argv_at. destruct (nth_error Argv Index); now intros w. Qed.

Lemma pure_parseOptions {ID : Type} (UnknownIDs : list ID) Argv FlagsToInclude
      (Options : opt.OptTable ID) IsStrictMode :
  pure_run (parseOptions UnknownIDs Argv FlagsToInclude Options IsStrictMode).
Proof. pose proof pure_Argv_at. unfold parseOptions. pure. Qed.

Lemma pure_parseInternalOptions InternalOptions :
  pure_run (parseInternalOptions InternalOptions).
Proof. unfold parseInternalOptions. apply pure_parseOptions. Qed.

Lemma pure_fillApiOptions ApiOptions Opts : pure_run (fillApiOptions ApiOptions Opts).
Proof.
  pose proof (@pure_getValue api.ID).
  unfold fillApiOptions, bind_expected, IGC_ASSERT. pure.
Qed.

Lemma pure_composeLLVMArgs ApiArgs InternalArgs :
  pure_run (composeLLVMArgs ApiArgs InternalArgs).
Proof. pose proof (@pure_getValue api.ID). unfold composeLLVMArgs. pure. Qed.

End PureStages.

(** ** What a run may do to the world *)

Lemma extends_by_refl (P : Event -> Prop) (w : World) : extends_by P w w.
Proof. exists []. split; [now rewrite app_nil_r | constructor]. Qed.

Lemma extends_by_trans (P : Event -> Prop) (a b c : World) :
  extends_by P a b -> extends_by P b c -> extends_by P a c.
Proof.
  intros (E1 & H1 & F1) (E2 & H2 & F2). exists (E1 ++ E2). split.
  - now rewrite H2, H1, app_assoc.
  - apply Forall_app. now split.
Qed.

Lemma extends_by_emit (P : Event -> Prop) (e : Event) (w : World) :
  P e -> extends_by P w (snd (emit e w)).
Proof. intros HP. exists [e]. split; [reflexivity | now repeat constructor]. Qed.

Create HintDb respects.

Section Respects.

Variable R : World -> World -> Prop.
Variable allowed : Event -> Prop.
Hypothesis R_refl : forall w, R w w.
Hypothesis R_trans : forall a b c, R a b -> R b c -> R a c.
Hypothesis R_emit : forall e w, allowed e -> R w (snd (emit e w)).

Lemma respects_bind {A B : Type} (c : Run A) (k : A -> Run B) :
  respects R c -> (forall a, respects R (k a)) -> respects R (bind c k).
Proof.
  intros Hc Hk w r w' H.
  destruct (bind_ret_inv _ _ _ H) as (a & w1 & H1 & H2).
  exact (R_trans (Hc _ _ _ H1) (Hk _ _ _ _ H2)).
Qed.

Lemma respects_pure {A : Type} (c : Run A) : pure_run c -> respects R c.
Proof.
  intros Hc w r w' H. specialize (Hc w). rewrite H in Hc. simpl in Hc. subst.
  apply R_refl.
Qed.

Lemma respects_emit (e : Event) : allowed e -> respects R (emit e).
Proof.
  intros HA w r w' H. pose proof (R_emit w HA) as HR. now rewrite H in HR.
Qed.

Lemma respects_when (b : bool) (c : Run unit) : respects R c -> respects R (when b c).
Proof. destruct b; simpl; [trivial | intros _; apply respects_pure, pure_ret]. Qed.

Lemma respects_get_ClOptionOccurrences : respects R get_ClOptionOccurrences.
Proof. apply respects_pure. now intros w. Qed.

Lemma respects_get_TimePassesIsEnabled : respects R get_TimePassesIsEnabled.
Proof. apply respects_pure. now intros w. Qed.

#[local] Hint Resolve respects_pure respects_emit respects_when
  respects_get_ClOptionOccurrences respects_get_TimePassesIsEnabled : respects.
#[local] Hint Resolve pure_ret pure_fault pure_IGC_ASSERT_MESSAGE pure_deref
  pure_Expected_get : respects.

(** Splits a sequence into its steps and closes each from the hints. *)
Ltac resp :=
  repeat first
    [ solve [eauto with respects]
    | apply respects_bind; [|intros]
    | apply respects_when
    | match goal with
      | |- respects _ (if ?b then _ else _) => destruct b
      | |- respects _ (match ?x with _ => _ end) => destruct x
      | |- respects _ (let (_, _) := ?x in _) => destruct x
      end ].

Context {Triples : TripleParser} {Reader : IRReader} {Registry : TargetRegistry}
        {Pipelines : PassPipelines} {D : Defaults} {CL : CommandLine}
        {Tables : OptionTables}.

Lemma respects_getModule Input FType Ids Values :
  respects R (getModule Input FType Ids Values).
Proof.
  intros w r w' H.
  assert (E : w' = w); [|subst; apply R_refl].
  destruct FType; simpl in H.
  - unfold getModuleFromSPIRV in H.
    destruct (translateSPIRVToIR Input Ids Values).
    + destruct r; [now apply getModuleFromLLVMBinary_value in H
                  | now apply getModuleFromLLVMBinary_failure in H].
    + now inversion H.
  - now apply getModuleFromLLVMText_returns in H.
  - destruct r; [now apply getModuleFromLLVMBinary_value in H
                | now apply getModuleFromLLVMBinary_failure in H].
Qed.

Lemma respects_run_passes PM M : respects R (run_passes PM M).
Proof. unfold run_passes. resp. Qed.

Lemma respects_optimizeIR Opts ExtData TM M : respects R (optimizeIR Opts ExtData TM M).
Proof.
  pose proof pure_createBackendData. pose proof respects_run_passes.
  unfold optimizeIR, run_function_passes. resp.
Qed.

Hypothesis allowed_dumpModule : forall Dp M Name, allowed (Dumper_dumpModule Dp M Name).
Hypothesis allowed_dumpBinary : forall Dp B Name, allowed (Dumper_dumpBinary Dp B Name).

Lemma respects_dumpModule_if Cond Opts M Name :
  respects R (dumpModule_if Cond Opts M Name).
Proof. unfold dumpModule_if. resp. Qed.

Lemma respects_runCodeGen Opts ExtData TM M : respects R (runCodeGen Opts ExtData TM M).
Proof.
  pose proof pure_populateCodeGenPassManager. pose proof respects_run_passes.
  pose proof respects_dumpModule_if.
  unfold runCodeGen, runCmCodeGen, runOclCodeGen, dumpFinalOutput. resp.
Qed.

Lemma respects_createTargetMachine Opts TheTriple :
  (forall CPU Features Level,
      allowed (Target_createTargetMachine TheTriple CPU Features Level)) ->
  respects R (createTargetMachine Opts TheTriple).
Proof.
  intros HA. pose proof pure_getSubtargetFeatureString.
  unfold createTargetMachine. resp.
Qed.

Hypothesis allowed_canonical_machine :
  forall TT CPU Features Level,
    TT = genx32_triple \/ TT = genx64_triple ->
    allowed (Target_createTargetMachine TT CPU Features Level).
Hypothesis allowed_reports :
  allowed TimerGroup_printAll /\ allowed llvm_PrintStatistics
  /\ (forall File, allowed (llvm_PrintStatisticsJSON File))
  /\ (forall Text, allowed (errs_write Text)).
Hypothesis R_set_TimePassesIsEnabled :
  forall b w, R w (snd (set_TimePassesIsEnabled b w)).
Hypothesis R_EnableStatistics : forall w, R w (snd (EnableStatistics w)).

Lemma respects_set_TimePassesIsEnabled b : respects R (set_TimePassesIsEnabled b).
Proof.
  intros w r w' H. pose proof (R_set_TimePassesIsEnabled b w) as HR.
  now rewrite H in HR.
Qed.

Lemma respects_EnableStatistics : respects R EnableStatistics.
Proof.
  intros w r w' H. pose proof (R_EnableStatistics w) as HR. now rewrite H in HR.
Qed.

Lemma respects_CompileBody Input Opts ExtData Ids Values :
  respects R (CompileBody Input Opts ExtData Ids Values).
Proof.
  pose proof respects_getModule. pose proof respects_run_passes.
  pose proof respects_dumpModule_if. pose proof respects_optimizeIR.
  pose proof respects_runCodeGen. pose proof respects_set_TimePassesIsEnabled.
  pose proof respects_EnableStatistics.
  destruct allowed_reports as (? & ? & ? & ?).
  assert (forall TripleStr, respects R (createTargetMachine Opts (overrideTripleWithVC TripleStr))).
  { intros TripleStr. apply respects_createTargetMachine. intros.
    apply allowed_canonical_machine, overrideTripleWithVC_canonical. }
  unfold CompileBody. resp.
Qed.

Hypothesis allowed_errs_write : forall Text, allowed (errs_write Text).
Hypothesis allowed_printHelp :
  forall Usage Title FlagsToInclude, allowed (printHelp Usage Title FlagsToInclude).

Lemma respects_parseApiOptions ApiOptions IsStrictMode :
  respects R (parseApiOptions ApiOptions IsStrictMode).
Proof.
  pose proof (@pure_parseOptions Tables api.ID).
  unfold parseApiOptions. resp.
Qed.

Lemma respects_fillInternalOptions InternalOptions Opts :
  respects R (fillInternalOptions InternalOptions Opts).
Proof.
  pose proof (@pure_getLastArgValue internal.ID). pose proof (@pure_getValue internal.ID).
  unfold fillInternalOptions, bind_expected. resp.
Qed.

Lemma respects_ParseOptions ApiOptions InternalOptions IsStrictMode :
  respects R (ParseOptions ApiOptions InternalOptions IsStrictMode).
Proof.
  pose proof respects_parseApiOptions. pose proof respects_fillInternalOptions.
  pose proof pure_parseInternalOptions. pose proof pure_fillApiOptions.
  pose proof pure_composeLLVMArgs.
  unfold ParseOptions, fillOptions, bind_expected. resp.
Qed.

End Respects.

(** ** Driver top level: what a compilation does and leaves behind *)

Section CompileOutcomes.

Context {Triples : TripleParser} {Reader : IRReader} {Registry : TargetRegistry}
        {Pipelines : PassPipelines} {D : Defaults} {CL : CommandLine}.

Lemma CompileBody_events Input Opts ExtData Ids Values :
  respects (extends_by body_event) (CompileBody Input Opts ExtData Ids Values).
Proof.
  apply respects_CompileBody with (allowed := body_event).
  - apply extends_by_refl.
  - apply extends_by_trans.
  - apply extends_by_emit.
  - now intros.
  - now intros.
  - now intros.
  - now repeat split.
  - intros b w. exists []. split; [simpl; now rewrite app_nil_r | constructor].
  - intros w. exists [llvm_EnableStatistics]. split; [reflexivity | now repeat constructor].
Qed.

(** X11.  On every returning path the events of one compilation are: the
    reset and the parse of the option string at entry, then the events of
    the body, then the reset at exit.  The body performs no operation on the
    command-line state, prints no help text, and asks for a target machine
    only with one of the two canonical triples. *)
Theorem Compile_trace_shape Input Opts ExtData Ids Values w r w' :
  Compile Input Opts ExtData Ids Values w = (Ret r, w') ->
  exists Events,
    Trace w'
    = Trace w
      ++ [cl_ResetAllOptionOccurrences;
          cl_ParseCommandLineOptions
            ("vc-codegen" :: TokenizeGNUCommandLine (LLVMOptions Opts))]
      ++ Events ++ [cl_ResetAllOptionOccurrences]
    /\ Forall body_event Events
    /\ Forall (fun e => ~ cl_event e) Events.
Proof.
  intros H.
  destruct (Compile_unfold Input Opts ExtData Ids Values w)
    as (w1 & _ & _ & _ & Htr & Hc).
  rewrite Hc in H. unfold scope_exit in H.
  apply bind_ret_inv in H. destruct H as (r0 & w2 & Hbody & H).
  pose proof (CompileBody_events Input Opts ExtData Ids Values) as K.
  destruct (K _ _ _ Hbody) as (Events & HE & HF).
  unfold ResetAllOptionOccurrences, bind, ret in H. inversion H; subst; simpl.
  exists Events. split; [|split].
  - rewrite HE, Htr. now rewrite <- !app_assoc.
  - exact HF.
  - eapply Forall_impl; [|exact HF]. intros [] HB HC; simpl in *; contradiction.
Qed.

(** X12.  A compilation that returned its output went through the
    dispatcher: the output is the flat payload exactly when the output kind
    is CM. *)
Theorem Compile_output_shape Input Opts ExtData Ids Values w Output w' :
  Compile Input Opts ExtData Ids Values w = (Ret (Value Output), w') ->
  is_flat Output = BinaryKind.eqb (Binary Opts) BinaryKind.CM
  /\ is_bundle Output = negb (BinaryKind.eqb (Binary Opts) BinaryKind.CM).
Proof.
  intros H.
  destruct (Compile_unfold Input Opts ExtData Ids Values w) as (w1 & _ & _ & _ & _ & Hc).
  rewrite Hc in H. clear Hc. unfold scope_exit, CompileBody in H.
  assert (HS : is_flat Output = BinaryKind.eqb (Binary Opts) BinaryKind.CM).
  { repeat match goal with
      | H : bind _ _ _ = (Ret _, _) |- _ =>
          let Hs := fresh "Hs" in
          apply bind_ret_inv in H; destruct H as (? & ? & Hs & H)
      | H : (match ?x with _ => _ end) _ = (Ret _, _) |- _ => destruct x
      | H : ret _ _ = (Ret _, _) |- _ => inversion H; subst; clear H
      end.
    match goal with
    | H : runCodeGen _ _ _ _ _ = (Ret ?p, _) |- _ =>
        destruct p as [Out M']; exact (runCodeGen_shape _ _ _ _ _ H)
    end. }
  split; [exact HS|]. destruct Output; simpl in *; now rewrite <- HS.
Qed.

(** X13.  A loader error ends the compilation at once: the error is returned
    as it is and nothing but the entry parse and the exit reset has happened
    (no dump, no pass, no target machine), both toggles being as before. *)
Theorem Compile_stops_at_load_error Input Opts ExtData Ids Values w e w2 :
  let Tokens := TokenizeGNUCommandLine (LLVMOptions Opts) in
  let Entry := [cl_ResetAllOptionOccurrences;
                cl_ParseCommandLineOptions ("vc-codegen" :: Tokens)] in
  getModule Input (FType Opts) Ids Values
            (mkWorld Tokens (TimePassesIsEnabled w) (StatisticsEnabled w)
                     (Trace w ++ Entry))
  = (Ret (Failure e), w2) ->
  Compile Input Opts ExtData Ids Values w
  = (Ret (Failure e),
     mkWorld [] (TimePassesIsEnabled w) (StatisticsEnabled w)
             (Trace w ++ Entry ++ [cl_ResetAllOptionOccurrences])).
Proof.
  intros Tokens Entry Hm.
  assert (E : w2 = mkWorld Tokens (TimePassesIsEnabled w) (StatisticsEnabled w)
                           (Trace w ++ Entry)).
  { symmetry.
    exact (respects_getModule (@eq World) (@eq_refl World) _ _ _ _ _ Hm). }
  subst w2. unfold Compile. rewrite (bind_step _ _ _ (parseLLVMOptions_run _ w)).
  unfold scope_exit, CompileBody. fold Tokens Entry.
  rewrite (bind_step _ _ _ (bind_step _ _ _ Hm)).
  unfold bind, ResetAllOptionOccurrences, ret. simpl. now rewrite <- app_assoc.
Qed.

Lemma same_statistics_refl w : same_statistics w w.
Proof. reflexivity. Qed.

Lemma same_statistics_trans a b c :
  same_statistics a b -> same_statistics b c -> same_statistics a c.
Proof. unfold same_statistics. congruence. Qed.

(** Walks back along a sequence that returned, collecting what each step
    did to the statistics toggle. *)
Ltac walk :=
  repeat match goal with
    | H : bind _ _ _ = (Ret _, _) |- _ =>
        apply bind_ret_inv in H; destruct H as (? & ? & ? & H)
    | H : ret _ _ = (Ret _, _) |- _ => inversion H; subst; clear H
    | H : when ?b _ _ = (Ret _, _) |- _ => destruct b eqn:?; simpl in H
    | H : set_TimePassesIsEnabled _ _ = _ |- _ => inversion H; subst; clear H
    | H : get_TimePassesIsEnabled _ = _ |- _ => inversion H; subst; clear H
    | H : EnableStatistics _ = _ |- _ => inversion H; subst; clear H
    | H : ResetAllOptionOccurrences _ = _ |- _ => inversion H; subst; clear H
    | H : emit _ _ = _ |- _ => inversion H; subst; clear H
    | H : (match ?x with _ => _ end) _ = (Ret _, _) |- _ => destruct x
    | H : ?c ?w = (Ret _, _) |- _ =>
        let K := fresh "K" in
        assert (K : respects same_statistics c)
          by (first [ apply respects_getModule
                    | apply respects_createTargetMachine with (allowed := fun _ => True)
                    | apply respects_dumpModule_if with (allowed := fun _ => True)
                    | apply respects_run_passes
                    | apply respects_optimizeIR
                    | apply respects_runCodeGen with (allowed := fun _ => True)
                    | apply respects_pure, pure_deref ];
              first [ exact same_statistics_refl | exact same_statistics_trans
                    | intros; exact I | intros; reflexivity ]);
        apply K in H; unfold same_statistics in H
    end.

(** X14.  Statistics recording is a one-way switch.  A compilation that
    returns its output leaves it on when it was on before, or when the
    options ask for statistics to be shown or name a statistics file; a
    compilation that returns an error leaves it as it was. *)
Theorem Compile_statistics_toggle Input Opts ExtData Ids Values w r w' :
  Compile Input Opts ExtData Ids Values w = (Ret r, w') ->
  StatisticsEnabled w'
  = match r with
    | Value _ =>
        StatisticsEnabled w || ShowStats Opts || negb (StringRef.empty (StatsFile Opts))
    | Failure _ => StatisticsEnabled w
    end.
Proof.
  intros H.
  destruct (Compile_unfold Input Opts ExtData Ids Values w)
    as (w1 & Hp & _ & _ & _ & Hc).
  rewrite Hc in H. clear Hc.
  assert (Hs1 : StatisticsEnabled w1 = StatisticsEnabled w).
  { rewrite parseLLVMOptions_run in Hp. now inversion Hp. }
  unfold scope_exit, CompileBody in H.
  walk; simpl in *;
    repeat match goal with
      | E : (_ || _)%bool = _ |- _ => rewrite E
      end;
    rewrite ?orb_true_r, ?orb_false_r; congruence.
Qed.

End CompileOutcomes.

(** ** Option Resolver: parsing *)

Lemma land_lor_absorb (a b : N) : N.land (N.lor a b) a = a.
Proof.
  apply N.bits_inj. intros n. rewrite N.land_spec, N.lor_spec.
  destruct (N.testbit a n), (N.testbit b n); reflexivity.
Qed.

Section ParsingFacts.

Context {Tables : OptionTables} {CL : CommandLine} {D : Defaults}.

Lemma parseOptions_missing {ID : Type} (UnknownIDs : list ID) Argv FlagsToInclude
      (Options : opt.OptTable ID) IsStrictMode w Token :
  opt.MissingArgCount (opt.ParseArgs Options Argv FlagsToInclude) <> 0 ->
  nth_error Argv (opt.MissingArgIndex (opt.ParseArgs Options Argv FlagsToInclude))
  = Some Token ->
  parseOptions UnknownIDs Argv FlagsToInclude Options IsStrictMode w
  = (Ret (Failure (OptionError Token
                     (negb (N.land FlagsToInclude VCInternalOption =? 0)%N))), w).
Proof.
  intros HC HT. unfold parseOptions, Argv_at.
  apply Nat.eqb_neq in HC. rewrite HC, HT. reflexivity.
Qed.

(** X15.  A missing argument value is reported before anything else and in
    either mode: the error carries the token at the index the table reports,
    even when the list also holds unknown arguments and the mode is strict.
    From the internal namespace the error is marked internal (the internal
    category flag being a flag, that is, not zero). *)
Theorem missing_value_reported_first :
  (forall (ID : Type) (UnknownIDs : list ID) Argv FlagsToInclude
          (Options : opt.OptTable ID) IsStrictMode w Token,
      opt.MissingArgCount (opt.ParseArgs Options Argv FlagsToInclude) <> 0 ->
      nth_error Argv (opt.MissingArgIndex (opt.ParseArgs Options Argv FlagsToInclude))
      = Some Token ->
      exists IsInternal,
        parseOptions UnknownIDs Argv FlagsToInclude Options IsStrictMode w
        = (Ret (Failure (OptionError Token IsInternal)), w))
  /\ (forall InternalOptions w Token,
         let Argv := TokenizeGNUCommandLine InternalOptions in
         let Parsed := opt.ParseArgs getInternalOptTable Argv
                         (N.lor VCInternalOption IGCInternalOption) in
         VCInternalOption <> 0%N ->
         opt.MissingArgCount Parsed <> 0 ->
         nth_error Argv (opt.MissingArgIndex Parsed) = Some Token ->
         parseInternalOptions InternalOptions w
         = (Ret (Failure (OptionError Token true)), w)).
Proof.
  split.
  - intros. eexists. now apply parseOptions_missing.
  - intros InternalOptions w Token Argv Parsed HV HC HT.
    unfold parseInternalOptions. fold Argv.
    rewrite (parseOptions_missing _ _ _ _ _ w HC HT).
    rewrite land_lor_absorb. apply N.eqb_neq in HV. now rewrite HV.
Qed.

(** X16.  The deprecation notice goes to the diagnostic stream exactly when
    the deprecated grammar is selected: the deprecated marker is a token and
    the current one is not.  With the current marker present nothing is
    printed, the deprecated marker being there or not; parsing itself never
    touches the world. *)
Theorem parseApiOptions_deprecation_notice ApiOptions IsStrictMode w :
  let Argv := TokenizeGNUCommandLine ApiOptions in
  let VCCodeGenOptName := opt.getPrefixedName getApiOptTable api.OPT_vc_codegen in
  let IgcmcOptName := opt.getPrefixedName getApiOptTable api.OPT_igcmc in
  let w' := snd (parseApiOptions ApiOptions IsStrictMode w) in
  (In VCCodeGenOptName Argv -> w' = w)
  /\ (~ In VCCodeGenOptName Argv -> In IgcmcOptName Argv ->
      w' = mkWorld (ClOptionOccurrences w) (TimePassesIsEnabled w) (StatisticsEnabled w)
                   (Trace w ++ [errs_write (deprecation_notice IgcmcOptName)]))
  /\ (~ In VCCodeGenOptName Argv -> ~ In IgcmcOptName Argv -> w' = w).
Proof.
  intros Argv VCCodeGenOptName IgcmcOptName w'. subst w'. repeat split.
  - intros H. rewrite (parseApiOptions_current ApiOptions IsStrictMode H).
    apply pure_parseOptions.
  - intros H1 H2. rewrite (parseApiOptions_deprecated ApiOptions IsStrictMode H1 H2).
    unfold bind, emit.
    match goal with |- snd (?c ?w1) = _ =>
      change (snd (c w1) = w1); apply pure_parseOptions end.
  - intros H1 H2. now rewrite (parseApiOptions_not_vc ApiOptions IsStrictMode H1 H2).
Qed.

(** X17.  The order in which errors surface.  An error of the API parse is
    returned without the internal string being parsed; an error of the
    internal parse is returned without any option value being looked at; an
    error among the API option values is returned without the internal
    option values being looked at. *)
Theorem ParseOptions_error_order ApiOptions InternalOptions IsStrictMode w e :
  (forall w1,
      parseApiOptions ApiOptions IsStrictMode w = (Ret (Failure e), w1) ->
      ParseOptions ApiOptions InternalOptions IsStrictMode w = (Ret (Failure e), w1))
  /\ (forall ApiArgs w1 w2,
         parseApiOptions ApiOptions IsStrictMode w = (Ret (Value ApiArgs), w1) ->
         parseInternalOptions InternalOptions w1 = (Ret (Failure e), w2) ->
         ParseOptions ApiOptions InternalOptions IsStrictMode w = (Ret (Failure e), w2))
  /\ (forall ApiArgs w1 InternalArgs w2 w3,
         parseApiOptions ApiOptions IsStrictMode w = (Ret (Value ApiArgs), w1) ->
         parseInternalOptions InternalOptions w1 = (Ret (Value InternalArgs), w2) ->
         fillApiOptions (filterApiOptions ApiArgs) DefaultCompileOptions w2
         = (Ret (Failure e), w3) ->
         ParseOptions ApiOptions InternalOptions IsStrictMode w = (Ret (Failure e), w3)).
Proof.
  unfold ParseOptions, fillOptions, bind_expected. repeat split.
  - intros w1 H. now rewrite (bind_step _ _ _ H).
  - intros ApiArgs w1 w2 H1 H2.
    rewrite (bind_step _ _ _ H1). now rewrite (bind_step _ _ _ H2).
  - intros ApiArgs w1 InternalArgs w2 w3 H1 H2 H3.
    rewrite (bind_step _ _ _ H1), (bind_step _ _ _ H2).
    now rewrite (bind_step _ _ _ H3).
Qed.

End ParsingFacts.

(** ** Option Resolver: filling the options *)

Lemma bind_expected_value_inv {A B : Type} (c : Run (Expected A))
      (k : A -> Run (Expected B)) w b w' :
  bind_expected c k w = (Ret (Value b), w') ->
  exists a w1, c w = (Ret (Value a), w1) /\ k a w1 = (Ret (Value b), w').
Proof.
  unfold bind_expected. intros H. apply bind_ret_inv in H.
  destruct H as ([a|e] & w1 & H1 & H2); [now exists a, w1 | discriminate].
Qed.

Lemma bind_expected_failure_inv {A B : Type} (c : Run (Expected A))
      (k : A -> Run (Expected B)) w e w' :
  bind_expected c k w = (Ret (Failure e), w') ->
  c w = (Ret (Failure e), w')
  \/ exists a w1, c w = (Ret (Value a), w1) /\ k a w1 = (Ret (Failure e), w').
Proof.
  unfold bind_expected. intros H. apply bind_ret_inv in H.
  destruct H as ([a|e0] & w1 & H1 & H2).
  - right. now exists a, w1.
  - inversion H2; subst. now left.
Qed.

Lemma set_if_other {X : Type} (f : CompileOptions -> X) Cond Set_ Opts :
  (forall v O, f (Set_ v O) = f O) -> f (set_if Cond Set_ Opts) = f Opts.
Proof. intros H. unfold set_if. destruct Cond; [apply H | reflexivity]. Qed.

Lemma set_if_same (f : CompileOptions -> bool) Cond Set_ Opts :
  (forall v O, f (Set_ v O) = v) -> f (set_if Cond Set_ Opts) = Cond || f Opts.
Proof. intros H. unfold set_if. destruct Cond; [apply H | reflexivity]. Qed.

(** Pushes a field projection through the conditional assignments. *)
Ltac through_flags :=
  repeat first [ rewrite set_if_same by (intros; reflexivity)
               | rewrite set_if_other by (intros; reflexivity) ].

Lemma getValue_returns {ID : Type} (A : opt.Arg ID) w V w' :
  opt.getValue A w = (Ret V, w') -> w' = w /\ first_value A = Some V.
Proof.
  unfold opt.getValue, first_value. destruct (opt.getValues A); intros H; inversion H.
  now split.
Qed.

Lemma getLastArgValue_inv {ID : Type} (Id : ID) (Args : opt.ArgList ID) w V w' :
  opt.getLastArgValue Id Args w = (Ret V, w') ->
  w' = w
  /\ match opt.getLastArg [Id] Args with
     | Some A => first_value A = Some V
     | None => V = ""
     end.
Proof.
  unfold opt.getLastArgValue. destruct (opt.getLastArg [Id] Args).
  - apply getValue_returns.
  - intros H. inversion H. now split.
Qed.

Lemma IGC_ASSERT_MESSAGE_returns Cond Message w u w' :
  IGC_ASSERT_MESSAGE Cond Message w = (Ret u, w') -> w' = w /\ Cond = true.
Proof. unfold IGC_ASSERT_MESSAGE. destruct Cond; intros H; inversion H. now split. Qed.

Lemma when_emit_returns Cond (e : Event) w u w' :
  when Cond (emit e) w = (Ret u, w') ->
  same_globals w w' /\ Trace w' = Trace w ++ (if Cond then [e] else []).
Proof.
  unfold same_globals. destruct Cond; simpl; intros H; inversion H; subst; simpl.
  - auto.
  - now rewrite app_nil_r.
Qed.

(** Reads a field of the options a fill stage has built. *)
Ltac fields := repeat (progress (simpl; through_flags)).

Section FillFacts.

Context {Tables : OptionTables} {CL : CommandLine} {D : Defaults}.

(** Takes apart a run of a fill function that returned. *)
Ltac unfill :=
  repeat match goal with
    | H : bind_expected _ _ _ = (Ret (Value _), _) |- _ =>
        apply bind_expected_value_inv in H; destruct H as (? & ? & ? & H)
    | H : bind_expected _ _ _ = (Ret (Failure _), _) |- _ =>
        apply bind_expected_failure_inv in H; destruct H as [H|(? & ? & ? & H)]
    | H : bind _ _ _ = (Ret _, _) |- _ =>
        apply bind_ret_inv in H; destruct H as (? & ? & ? & H)
    | H : opt.getValue _ _ = (Ret _, _) |- _ =>
        apply getValue_returns in H; destruct H as [? ?]; subst
    | H : opt.getLastArgValue _ _ _ = (Ret _, _) |- _ =>
        apply getLastArgValue_inv in H; destruct H as [? ?]; subst
    | H : IGC_ASSERT_MESSAGE _ _ _ = (Ret _, _) |- _ =>
        apply IGC_ASSERT_MESSAGE_returns in H; destruct H as [? ?]; subst
    | H : when _ (emit _) _ = (Ret _, _) |- _ =>
        apply when_emit_returns in H; destruct H as [? ?]
    | H : ret _ _ = (Ret _, _) |- _ => inversion H; subst; clear H
    | H : (match ?x with _ => _ end) _ = (Ret _, _) |- _ => destruct x eqn:?
    end.

(** X18.  On success, each API flag has switched its toggle on and nothing
    has switched a toggle off: a toggle is on afterwards exactly when its
    flag is among the arguments or it was on before.  The debug flag
    switches two toggles.  The world is untouched. *)
Theorem fillApiOptions_flags ApiOptions Opts w Opts' w' :
  fillApiOptions ApiOptions Opts w = (Ret (Value Opts'), w') ->
  let has Id := opt.hasArg Id ApiOptions in
  w' = w
  /\ NoVecDecomp Opts' = has api.OPT_no_vector_decomposition || NoVecDecomp Opts
  /\ EmitExtendedDebug Opts' = has api.OPT_emit_debug || EmitExtendedDebug Opts
  /\ EmitDebuggableKernels Opts' = has api.OPT_emit_debug || EmitDebuggableKernels Opts
  /\ DisableStructSplitting Opts'
     = has api.OPT_vc_fno_struct_splitting || DisableStructSplitting Opts
  /\ NoJumpTables Opts' = has api.OPT_vc_fno_jump_tables || NoJumpTables Opts
  /\ TranslateLegacyMemoryIntrinsics Opts'
     = has api.OPT_vc_ftranslate_legacy_memory_intrinsics
       || TranslateLegacyMemoryIntrinsics Opts
  /\ DisableFinalizerMsg Opts'
     = has api.OPT_vc_disable_finalizer_msg || DisableFinalizerMsg Opts
  /\ IsLargeGRFMode Opts' = has api.OPT_large_GRF || IsLargeGRFMode Opts
  /\ UsePlain2DImages Opts' = has api.OPT_vc_use_plain_2d_images || UsePlain2DImages Opts
  /\ EnablePreemption Opts' = has api.OPT_vc_enable_preemption || EnablePreemption Opts.
Proof.
  intros H has. unfold fillApiOptions in H. unfill;
    (split; [reflexivity|]); simpl; through_flags; repeat split; reflexivity.
Qed.

(** X19.  On success, each valued API option has been read from its last
    occurrence.  The fusion mode is the one its value spells (on, fast,
    off); the optimization level is the one spelled (none, full) when the
    last of the two level options is the valued one, and "none" when it is
    the bare disabling option; the stack size is the integer its value
    denotes.  An option that does not occur leaves its field as it was. *)
Theorem fillApiOptions_values ApiOptions Opts w Opts' w' :
  fillApiOptions ApiOptions Opts w = (Ret (Value Opts'), w') ->
  match opt.getLastArg [api.OPT_fp_contract] ApiOptions with
  | Some A => exists V, first_value A = Some V
                        /\ fp_contract_mode V = Some (AllowFPOpFusion Opts')
  | None => AllowFPOpFusion Opts' = AllowFPOpFusion Opts
  end
  /\ match opt.getLastArg [api.OPT_vc_optimize; api.OPT_opt_disable_ze] ApiOptions with
     | Some A =>
         if opt.matches (opt.getOption A) api.OPT_vc_optimize
         then exists V, first_value A = Some V
                        /\ optimizer_level V = Some (OptLevel Opts')
         else OptLevel Opts' = OptimizerLevel.None
     | None => OptLevel Opts' = OptLevel Opts
     end
  /\ match opt.getLastArg [api.OPT_vc_stateless_private_size] ApiOptions with
     | Some A => exists V Size, first_value A = Some V
                                /\ getAsInteger V = Some Size
                                /\ StackMemSize Opts' = Some Size
     | None => StackMemSize Opts' = StackMemSize Opts
     end.
Proof.
  intros H. unfold fillApiOptions in H. unfill;
    repeat match goal with
      | E : opt.matches _ _ = _ |- _ => rewrite E
      end;
    simpl; through_flags; repeat split; eauto.
Qed.

(** X20.  Every error of the API fill stage is an option error of the API
    namespace (not marked internal) carrying the text of the last occurrence
    of one of the three valued options, whose value is not accepted: a
    fusion mode other than on, fast, off; a level other than none, full; a
    stack size that is not an integer.  The world is untouched. *)
Theorem fillApiOptions_errors ApiOptions Opts w e w' :
  fillApiOptions ApiOptions Opts w = (Ret (Failure e), w') ->
  w' = w
  /\ exists A V,
      e = OptionError (opt.getAsString A) false
      /\ first_value A = Some V
      /\ ((opt.getLastArg [api.OPT_fp_contract] ApiOptions = Some A
           /\ fp_contract_mode V = None)
          \/ (opt.getLastArg [api.OPT_vc_optimize; api.OPT_opt_disable_ze] ApiOptions
              = Some A
              /\ opt.matches (opt.getOption A) api.OPT_vc_optimize = true
              /\ optimizer_level V = None)
          \/ (opt.getLastArg [api.OPT_vc_stateless_private_size] ApiOptions = Some A
              /\ getAsInteger V = None)).
Proof.
  intros H. unfold fillApiOptions in H. unfill; try discriminate;
    (split; [reflexivity|]); eexists _, _; (split; [reflexivity|]);
    (split; [eassumption|]); auto.
Qed.

(** X21.  On success of the internal fill stage: each internal flag has
    switched its toggle on and none off; the statistics file is the value of
    the last statistics-file option, and empty without one, whatever it was
    before; the feature list is the values of all target-features options
    joined by commas, whatever it was before; the output kind is the one
    spelled (cm, ocl, ze) by the last binary-format option, and unchanged
    without one. *)
Theorem fillInternalOptions_fields InternalOptions Opts w Opts' w' :
  fillInternalOptions InternalOptions Opts w = (Ret (Value Opts'), w') ->
  let has Id := opt.hasArg Id InternalOptions in
  DumpIsa Opts' = has internal.OPT_dump_isa_binary || DumpIsa Opts
  /\ DumpIR Opts' = has internal.OPT_dump_llvm_ir || DumpIR Opts
  /\ DumpAsm Opts' = has internal.OPT_dump_asm || DumpAsm Opts
  /\ TimePasses Opts' = has internal.OPT_ftime_report || TimePasses Opts
  /\ ShowStats Opts' = has internal.OPT_print_stats || ShowStats Opts
  /\ UseBindlessBuffers Opts'
     = has internal.OPT_intel_use_bindless_buffers_ze || UseBindlessBuffers Opts
  /\ match opt.getLastArg [internal.OPT_stats_file] InternalOptions with
     | Some A => first_value A = Some (StatsFile Opts')
     | None => StatsFile Opts' = ""
     end
  /\ FeaturesString Opts'
     = join (opt.getAllArgValues internal.OPT_target_features InternalOptions) ","
  /\ match opt.getLastArg [internal.OPT_binary_format] InternalOptions with
     | Some A => exists V, first_value A = Some V /\ binary_kind V = Some (Binary Opts')
     | None => Binary Opts' = Binary Opts
     end.
Proof.
  intros H has. unfold fillInternalOptions in H. unfill;
    fields; repeat split; eauto.
Qed.

(** X22.  The two help options print and do not abort: when the
    statistics-file option, if given, has its value and the binary-format
    option, if given, spells an accepted kind, the internal fill stage
    returns options, having printed the help of the public grammar when
    asked to and then the help of the internal grammar when asked to, and
    nothing else. *)
Theorem fillInternalOptions_help InternalOptions Opts w :
  has_value (opt.getLastArg [internal.OPT_stats_file] InternalOptions) ->
  match opt.getLastArg [internal.OPT_binary_format] InternalOptions with
  | Some A => exists V Kind, first_value A = Some V /\ binary_kind V = Some Kind
  | None => True
  end ->
  exists Opts' w',
    fillInternalOptions InternalOptions Opts w = (Ret (Value Opts'), w')
    /\ same_globals w w'
    /\ Trace w'
       = Trace w
         ++ (if opt.hasArg internal.OPT_help InternalOptions then [api_help] else [])
         ++ (if opt.hasArg internal.OPT_help_internal InternalOptions
             then [internal_help] else []).
Proof.
  intros HS HB. unfold fillInternalOptions.
  destruct (getLastArgValue_returns internal.OPT_stats_file InternalOptions w HS)
    as (File & HF).
  rewrite (bind_step _ _ _ HF). unfold bind_expected.
  destruct (opt.getLastArg [internal.OPT_binary_format] InternalOptions) as [A|].
  - destruct HB as (V & Kind & HV & HK).
    unfold first_value in HV. unfold opt.getValue.
    destruct (opt.getValues A) as [|V0 Rest]; [discriminate|]. inversion HV; subst V0.
    unfold binary_kind in HK. unfold bind at 1 2. simpl. rewrite HK.
    unfold same_globals.
    destruct (opt.hasArg internal.OPT_help InternalOptions),
      (opt.hasArg internal.OPT_help_internal InternalOptions);
      simpl; unfold bind, emit, ret; simpl; eexists _, _;
      (split; [reflexivity|]); simpl; rewrite ?app_nil_r, <- ?app_assoc; auto.
  - unfold bind at 1. simpl. unfold same_globals.
    destruct (opt.hasArg internal.OPT_help InternalOptions),
      (opt.hasArg internal.OPT_help_internal InternalOptions);
      simpl; unfold bind, emit, ret; simpl; eexists _, _;
      (split; [reflexivity|]); simpl; rewrite ?app_nil_r, <- ?app_assoc; auto.
Qed.

(** X23.  The two fill stages write disjoint fields: the API stage leaves
    every field the internal stage writes as it was, and the internal stage
    leaves every field the API stage writes as it was.  Neither writes the
    low-level option string. *)
Theorem fill_stages_write_disjoint_fields :
  (forall ApiOptions Opts w Opts' w',
      fillApiOptions ApiOptions Opts w = (Ret (Value Opts'), w') ->
      DumpIsa Opts' = DumpIsa Opts /\ DumpIR Opts' = DumpIR Opts
      /\ DumpAsm Opts' = DumpAsm Opts /\ TimePasses Opts' = TimePasses Opts
      /\ ShowStats Opts' = ShowStats Opts /\ StatsFile Opts' = StatsFile Opts
      /\ UseBindlessBuffers Opts' = UseBindlessBuffers Opts
      /\ Binary Opts' = Binary Opts /\ FeaturesString Opts' = FeaturesString Opts
      /\ LLVMOptions Opts' = LLVMOptions Opts)
  /\ (forall InternalOptions Opts w Opts' w',
         fillInternalOptions InternalOptions Opts w = (Ret (Value Opts'), w') ->
         NoVecDecomp Opts' = NoVecDecomp Opts
         /\ EmitExtendedDebug Opts' = EmitExtendedDebug Opts
         /\ EmitDebuggableKernels Opts' = EmitDebuggableKernels Opts
         /\ DisableStructSplitting Opts' = DisableStructSplitting Opts
         /\ NoJumpTables Opts' = NoJumpTables Opts
         /\ TranslateLegacyMemoryIntrinsics Opts' = TranslateLegacyMemoryIntrinsics Opts
         /\ DisableFinalizerMsg Opts' = DisableFinalizerMsg Opts
         /\ IsLargeGRFMode Opts' = IsLargeGRFMode Opts
         /\ UsePlain2DImages Opts' = UsePlain2DImages Opts
         /\ EnablePreemption Opts' = EnablePreemption Opts
         /\ AllowFPOpFusion Opts' = AllowFPOpFusion Opts
         /\ OptLevel Opts' = OptLevel Opts
         /\ StackMemSize Opts' = StackMemSize Opts
         /\ LLVMOptions Opts' = LLVMOptions Opts).
Proof.
  split.
  - intros ApiOptions Opts w Opts' w' H. unfold fillApiOptions in H. unfill;
      simpl; through_flags; repeat split; reflexivity.
  - intros InternalOptions Opts w Opts' w' H. unfold fillInternalOptions in H. unfill;
      fields; repeat split; reflexivity.
Qed.

End FillFacts.

(** ** Option Resolver: filtering, and the effects of resolution *)

Lemma fold_left_last_some {T : Type} (l : list T) :
  forall init,
    l <> [] -> exists a, fold_left (fun _ x => Some x) l init = Some a /\ In a l.
Proof.
  induction l as [|x l IH]; intros init Hne; [congruence|].
  simpl. destruct l as [|y l'].
  - exists x. simpl. auto.
  - destruct (IH (Some x)) as (a & Ha & Hin); [discriminate|].
    exists a. split; [exact Ha | now right].
Qed.

(** The last element a predicate accepts, and what follows it. *)
Lemma fold_left_last_split {T : Type} (p : T -> bool) (l : list T) :
  forall init a,
    fold_left (fun _ x => Some x) (filter p l) init = Some a ->
    (init = Some a /\ forall b, In b l -> p b = false)
    \/ exists Before After,
         l = Before ++ a :: After
         /\ p a = true
         /\ forall b, In b After -> p b = false.
Proof.
  induction l as [|x l IH]; intros init a H.
  - left. split; [exact H | intros b []].
  - simpl in H. destruct (p x) eqn:Hx.
    + simpl in H. apply IH in H.
      destruct H as [[E Hall] | (Before & After & -> & Ha & Hall)].
      * injection E as ->. right. exists [], l. now repeat split.
      * right. exists (x :: Before), After. now repeat split.
    + apply IH in H.
      destruct H as [[E Hall] | (Before & After & -> & Ha & Hall)].
      * left. split; [exact E|]. intros b [<-|Hb]; [exact Hx | now apply Hall].
      * right. exists (x :: Before), After. now repeat split.
Qed.

Lemma hasArg_exists {ID : Type} (Id : ID) (Args : opt.ArgList ID) :
  opt.hasArg Id Args = true
  <-> exists A, In A Args /\ opt.matches (opt.getOption A) Id = true.
Proof.
  unfold opt.hasArg, opt.getLastArg.
  assert (HM : forall A, In A (opt.filtered [Id] Args)
                         <-> In A Args /\ opt.matches (opt.getOption A) Id = true).
  { intros A. unfold opt.filtered. rewrite filter_In. simpl. now rewrite orb_false_r. }
  destruct (opt.filtered [Id] Args) as [|x l] eqn:HF.
  - simpl. split; [discriminate|]. intros (A & HA). apply HM in HA. destruct HA.
  - destruct (fold_left_last_some (l := x :: l) None) as (a & -> & Hin); [discriminate|].
    split; [|reflexivity]. intros _. exists a. now apply HM.
Qed.

Section FilterFacts.

Context {Tables : OptionTables} {CL : CommandLine} {D : Defaults}.

Lemma filterUsedOptions_In {ID : Type} (Args : opt.ArgList ID) IncludeFlag A :
  In A (filterUsedOptions Args IncludeFlag)
  <-> In A Args /\ carries_flag IncludeFlag A = true.
Proof. unfold filterUsedOptions, carries_flag. apply filter_In. Qed.

Lemma filtered_filterUsedOptions {ID : Type} (Ids : list ID) (Args : opt.ArgList ID)
      IncludeFlag :
  opt.filtered Ids (filterUsedOptions Args IncludeFlag)
  = filter (fun A => carries_flag IncludeFlag A
                     && existsb (opt.matches (opt.getOption A)) Ids) Args.
Proof.
  unfold opt.filtered, filterUsedOptions, carries_flag.
  induction Args as [|A Rest IH]; [reflexivity|]. simpl.
  destruct (opt.hasFlag _ IncludeFlag); simpl; [|exact IH].
  destruct (existsb (opt.matches (opt.getOption A)) Ids); now rewrite IH.
Qed.

(** X24.  The derived list keeps exactly the arguments judged to carry the
    flag.  An argument created through an alias is judged by the option of
    the alias as it was spelled, whatever the flags of its own, unaliased
    option; any other argument is judged by its own option.  Hence an
    option is seen on the derived list exactly when the input has an
    occurrence of it so judged, and the last occurrence seen is the last
    such occurrence of the input: a later occurrence that is not judged to
    carry the flag does not shadow it.  Filtering again changes nothing. *)
Theorem filterUsedOptions_visibility {ID : Type} (Args : opt.ArgList ID)
        (IncludeFlag : N) :
  (forall A AliasArg,
      opt.getAlias A = Some AliasArg ->
      (In A (filterUsedOptions Args IncludeFlag)
       <-> In A Args /\ opt.hasFlag (opt.getOption AliasArg) IncludeFlag = true))
  /\ (forall A,
         opt.getAlias A = None ->
         (In A (filterUsedOptions Args IncludeFlag)
          <-> In A Args /\ opt.hasFlag (opt.getOption A) IncludeFlag = true))
  /\ (forall Id,
         opt.hasArg Id (filterUsedOptions Args IncludeFlag) = true
         <-> exists A, In A Args
                       /\ opt.matches (opt.getOption A) Id = true
                       /\ carries_flag IncludeFlag A = true)
  /\ (forall Ids A,
         opt.getLastArg Ids (filterUsedOptions Args IncludeFlag) = Some A ->
         exists Before After,
           Args = Before ++ A :: After
           /\ existsb (opt.matches (opt.getOption A)) Ids = true
           /\ carries_flag IncludeFlag A = true
           /\ forall B, In B After ->
                        existsb (opt.matches (opt.getOption B)) Ids = true ->
                        carries_flag IncludeFlag B = false)
  /\ filterUsedOptions (filterUsedOptions Args IncludeFlag) IncludeFlag
     = filterUsedOptions Args IncludeFlag.
Proof.
  split; [|split; [|split; [|split]]].
  - intros A AliasArg HA. rewrite filterUsedOptions_In.
    unfold carries_flag. now rewrite HA.
  - intros A HA. rewrite filterUsedOptions_In.
    unfold carries_flag. now rewrite HA.
  - intros Id. rewrite hasArg_exists. split.
    + intros (A & HA & HM). apply filterUsedOptions_In in HA. destruct HA. now exists A.
    + intros (A & HA & HM & HC). exists A. split; [|exact HM].
      apply filterUsedOptions_In. now split.
  - intros Ids A H. unfold opt.getLastArg in H.
    rewrite filtered_filterUsedOptions in H.
    apply fold_left_last_split in H.
    destruct H as [[H _] | (Before & After & HArgs & HA & HAfter)]; [discriminate|].
    apply andb_true_iff in HA. destruct HA as [HC HM].
    exists Before, After. repeat split; try assumption.
    intros B HB HMB. specialize (HAfter B HB). rewrite HMB, andb_true_r in HAfter.
    exact HAfter.
  - unfold filterUsedOptions.
    induction Args as [|A Rest IH]; [reflexivity|]. simpl.
    match goal with |- context [if ?c then _ else _] => destruct c eqn:HC end.
    + simpl. rewrite HC. now f_equal.
    + exact IH.
Qed.

(** X25.  Option resolution, when it returns, has left the global option
    occurrences and both toggles alone; all it has done is write to the
    diagnostic stream (the deprecation notice, the help texts). *)
Theorem ParseOptions_effects ApiOptions InternalOptions IsStrictMode w r w' :
  ParseOptions ApiOptions InternalOptions IsStrictMode w = (Ret r, w') ->
  same_globals w w' /\ extends_by option_event w w'.
Proof.
  revert w r w'.
  apply respects_ParseOptions
    with (R := fun w w' => same_globals w w' /\ extends_by option_event w w')
         (allowed := option_event).
  - intros w. split; [now repeat split | apply extends_by_refl].
  - intros a b c [(A1 & A2 & A3) E1] [(B1 & B2 & B3) E2]. split.
    + repeat split; congruence.
    + exact (extends_by_trans E1 E2).
  - intros e w He. split; [now repeat split | now apply extends_by_emit].
  - now intros.
  - now intros.
Qed.

End FilterFacts.

(** * The driver on concrete inputs *)

Section Runs.

#[local] Existing Instance Doubles.triples.
#[local] Existing Instance Doubles.reader.
#[local] Existing Instance Doubles.registry.
#[local] Existing Instance Doubles.pipelines.
#[local] Existing Instance Doubles.defaults.
#[local] Existing Instance Doubles.command_line.
#[local] Existing Instance Doubles.tables.

(** Both canonical forms are kept; a 32-bit and a 64-bit triple are each
    normalized once and for all; the marker wins over the parsed width. *)
Lemma overrideTripleWithVC_total_idempotent_witness :
  isArch32Bit genx64_triple = false
  /\ overrideTripleWithVC genx32_triple = genx32_triple
  /\ overrideTripleWithVC genx64_triple = genx64_triple
  /\ overrideTripleWithVC "spir64-unknown-unknown" = genx64_triple
  /\ overrideTripleWithVC (overrideTripleWithVC "spir64-unknown-unknown")
     = overrideTripleWithVC "spir64-unknown-unknown"
  /\ overrideTripleWithVC (overrideTripleWithVC "spir-unknown-unknown")
     = overrideTripleWithVC "spir-unknown-unknown"
  /\ isArch32Bit "genx32-pc-linux" = false
  /\ overrideTripleWithVC "genx32-pc-linux" = genx32_triple.
Proof.
  split; [reflexivity|].
  destruct (overrideTripleWithVC_total_idempotent (Triples := Doubles.triples) eq_refl)
    as (_ & _ & H32 & H64 & Hidem & Hmarker & Hwidth).
  split; [exact H32|]. split; [exact H64|].
  split; [exact (Hwidth "spir64-unknown-unknown" eq_refl)|].
  split; [apply Hidem|]. split; [apply Hidem|].
  split; [reflexivity | apply Hmarker; reflexivity].
Defined.

Example overrideTripleWithVC_runs :
  overrideTripleWithVC "spir-unknown-unknown" = "genx32-unknown-unknown"
  /\ overrideTripleWithVC "spir64-unknown-unknown" = "genx64-unknown-unknown"
  /\ overrideTripleWithVC "genx32" = "genx32-unknown-unknown"
  /\ overrideTripleWithVC "" = "genx64-unknown-unknown".
Proof. repeat split. Qed.

Lemma createBackendOptions_DebuggabilityForLegacyPath_witness :
  Backend.DebuggabilityForLegacyPath
    (createBackendOptions (set_EmitDebuggableKernels true Doubles.default_options))
  = true.
Proof.
  apply (createBackendOptions_DebuggabilityForLegacyPath (D := Doubles.defaults)).
  split; [reflexivity | discriminate].
Defined.

Example createBackendOptions_runs :
  Backend.DebuggabilityForLegacyPath
    (createBackendOptions
       (set_Binary BinaryKind.CM (set_EmitDebuggableKernels true Doubles.default_options)))
  = false
  /\ Backend.DebuggabilityForLegacyPath (createBackendOptions Doubles.default_options)
     = false
  /\ Backend.DebuggabilityForLegacyPath
       (createBackendOptions
          (set_Binary BinaryKind.ZE (set_EmitDebuggableKernels true Doubles.default_options)))
     = true.
Proof. repeat split. Qed.

(** A text that does not parse stops the loader; a text that parses into a
    broken module gets the invalid-module error. *)
Lemma getModuleFromLLVMText_parse_failure_faults_witness :
  parse_failed (fst (parseIR "define garbage"))
  /\ exists Message w',
      getModuleFromLLVMText "define garbage" Doubles.initial_world = (Fault Message, w').
Proof.
  assert (H : parse_failed (fst (parseIR "define garbage"))) by (left; reflexivity).
  split; [exact H|].
  exact (proj1 (getModuleFromLLVMText_parse_failure_faults
                  (Reader := Doubles.reader) "define garbage" Doubles.initial_world H)).
Defined.

Example getModuleFromLLVMText_runs :
  getModuleFromLLVMText "define garbage" Doubles.initial_world
  = (Fault "dereference of a null unique_ptr", Doubles.initial_world)
  /\ getModuleFromLLVMText "broken" Doubles.initial_world
     = (Ret (Failure InvalidModuleError), Doubles.initial_world)
  /\ getModuleFromLLVMText "sample" Doubles.initial_world
     = (Ret (Value (Some Doubles.sample_module)), Doubles.initial_world).
Proof. repeat split. Qed.

Lemma createTargetMachine_rejects_unmarked_feature_witness :
  exists Message,
    createTargetMachine (set_FeaturesString "+a, b" Doubles.default_options)
                        genx64_triple Doubles.initial_world
    = (Fault Message, Doubles.initial_world).
Proof.
  apply (createTargetMachine_rejects_unmarked_feature
           (Registry := Doubles.registry)
           (set_FeaturesString "+a, b" Doubles.default_options) genx64_triple
           Doubles.initial_world).
  apply Exists_cons_tl, Exists_cons_hd. reflexivity.
Defined.

Example getSubtargetFeatureString_runs :
  getSubtargetFeatureString (set_FeaturesString "+a, -b,,+c" Doubles.default_options)
                            Doubles.initial_world
  = (Ret "+a,-b,+c,+ocl_runtime", Doubles.initial_world)
  /\ getSubtargetFeatureString (set_FeaturesString "+a, ,+c" Doubles.default_options)
                               Doubles.initial_world
     = (Fault "unexpected feature format", Doubles.initial_world)
  /\ getSubtargetFeatureString (set_FeaturesString "a" Doubles.default_options)
                               Doubles.initial_world
     = (Fault "unexpected feature format", Doubles.initial_world).
Proof. repeat split. Qed.

Lemma runCodeGen_dispatch_witness :
  exists Out M' w',
    runCodeGen (set_Binary BinaryKind.CM Doubles.default_options) Doubles.external_data
               (mkTargetMachine genx64_triple "XeHP" "" (mkTargetOptions FPOpFusion.Standard)
                                CodeGenOpt.Default)
               Doubles.sample_module Doubles.initial_world
    = (Ret (Out, M'), w')
    /\ is_flat Out = true.
Proof.
  destruct (runCodeGen_dispatch
              (Registry := Doubles.registry) (Pipelines := Doubles.pipelines)
              (D := Doubles.defaults)
              (set_Binary BinaryKind.CM Doubles.default_options) Doubles.external_data
              (mkTargetMachine genx64_triple "XeHP" ""
                               (mkTargetOptions FPOpFusion.Standard) CodeGenOpt.Default)
              Doubles.sample_module Doubles.initial_world
              (or_intror eq_refl) eq_refl)
    as (_ & _ & Out & M' & w' & Hrun & _ & _ & Hflat & _).
  exists Out, M', w'. split; [exact Hrun | apply Hflat; reflexivity].
Defined.

Example runCodeGen_runs :
  let TM := mkTargetMachine genx64_triple "XeHP" "" (mkTargetOptions FPOpFusion.Standard)
                            CodeGenOpt.Default in
  fst (runCodeGen (set_Binary BinaryKind.CM Doubles.default_options) Doubles.external_data
                  TM Doubles.sample_module Doubles.initial_world)
  = Ret (CmOutput {| cm.IsaBinary := ".kernel main" |}, Doubles.sample_module)
  /\ fst (runCodeGen (set_Binary BinaryKind.ZE Doubles.default_options)
                     Doubles.external_data TM Doubles.sample_module Doubles.initial_world)
     = Ret (OclOutput ["main"], Doubles.sample_module)
  /\ fst (runCodeGen Doubles.default_options Doubles.external_data TM
                     Doubles.sample_module Doubles.initial_world)
     = Ret (OclOutput ["main"], Doubles.sample_module).
Proof. repeat split. Qed.

(** Closes a goal "this marker is not among these tokens". *)
Ltac not_among := vm_compute; intuition discriminate.

(** No marker, an unknown flag and a flag whose value is missing: still the
    not-this-compiler error, in strict mode too. *)
Lemma ParseOptions_not_this_compiler_witness :
  ParseOptions "-emit-debug -bogus -Xfinalizer" "-binary-format=zx" true
               Doubles.initial_world
  = (Ret (Failure NotVCError), Doubles.initial_world).
Proof.
  apply (ParseOptions_not_this_compiler
           (Tables := Doubles.tables) (CL := Doubles.command_line)
           (D := Doubles.defaults)); not_among.
Defined.

(** Tokens that merely contain the current marker do not select the
    current grammar; with no deprecated marker either, nothing is parsed. *)
Lemma parseApiOptions_exact_marker_match_witness :
  HasOption (TokenizeGNUCommandLine "x-vc-codegen -vc-codegen=1") "-vc-codegen" = false
  /\ parseApiOptions "x-vc-codegen -vc-codegen=1" true = ret (Failure NotVCError).
Proof.
  destruct (parseApiOptions_exact_marker_match
              (Tables := Doubles.tables) (CL := Doubles.command_line)
              "x-vc-codegen -vc-codegen=1" true)
    as (_ & _ & Hnone & Hcontains).
  split.
  - apply Hcontains. repeat constructor.
    + exists "x", "". split; [reflexivity | left; discriminate].
    + exists "", "=1". split; [reflexivity | right; discriminate].
  - apply Hnone; not_among.
Defined.

Example ParseOptions_grammars :
  fst (ParseOptions "-cl-std=CL2.0 -vc-codegen" "" true Doubles.initial_world)
  = Ret (Value Doubles.default_options)
  /\ ParseOptions "-igcmc" "" true Doubles.initial_world
     = (Ret (Value Doubles.default_options),
        mkWorld ["-scalar-leftover"] false false
                [errs_write (deprecation_notice "-igcmc")])
  /\ fst (ParseOptions "-VC-CODEGEN" "" false Doubles.initial_world)
     = Ret (Failure NotVCError).
Proof. repeat split. Qed.

(** The scenario "-vc-codegen -emit-debug", strict. *)
Example ParseOptions_emit_debug :
  exists Opts,
    ParseOptions "-vc-codegen -emit-debug" "" true Doubles.initial_world
    = (Ret (Value Opts), Doubles.initial_world)
    /\ EmitExtendedDebug Opts = true
    /\ EmitDebuggableKernels Opts = true
    /\ OptLevel Opts = OptLevel Doubles.default_options.
Proof. eexists. repeat split. Qed.

Lemma strictness_applies_to_api_options_only_witness :
  (exists Args,
      parseInternalOptions "-bogus -dump-isa-binary stray" Doubles.initial_world
      = (Ret (Value Args), Doubles.initial_world)
      /\ length Args = 3)
  /\ (exists IsInternal w',
         parseApiOptions "-vc-codegen -bogus" true Doubles.initial_world
         = (Ret (Failure (OptionError "-bogus" IsInternal)), w'))
  /\ (exists Args w',
         parseApiOptions "-vc-codegen -bogus" false Doubles.initial_world
         = (Ret (Value Args), w')).
Proof.
  destruct (strictness_applies_to_api_options_only
              (Tables := Doubles.tables) (CL := Doubles.command_line)
              (D := Doubles.defaults))
    as (Hint & _ & Hapi).
  split; [|split].
  - eexists. split.
    + apply (proj1 (Hint "-bogus -dump-isa-binary stray" Doubles.initial_world)).
      reflexivity.
    + reflexivity.
  - destruct (Hapi "-vc-codegen -bogus" true Doubles.initial_world
                   (N.lor VCApiOption IGCApiOption)
                   (opt.mkArg (Doubles.option_of Doubles.api_eqb api.OPT_UNKNOWN 0)
                              ["-bogus"] "-bogus" None))
      as (IsInternal & w' & H).
    + left. split; [|reflexivity]. vm_compute. now left.
    + reflexivity.
    + reflexivity.
    + exists IsInternal, w'. exact H.
  - destruct (Hapi "-vc-codegen -bogus" false Doubles.initial_world
                   (N.lor VCApiOption IGCApiOption)
                   (opt.mkArg (Doubles.option_of Doubles.api_eqb api.OPT_UNKNOWN 0)
                              ["-bogus"] "-bogus" None))
      as (IsInternal & w' & H).
    + left. split; [|reflexivity]. vm_compute. now left.
    + reflexivity.
    + reflexivity.
    + eexists _, w'. exact H.
Defined.

Example ParseOptions_strictness :
  fst (ParseOptions "-vc-codegen -bogus" "" true Doubles.initial_world)
  = Ret (Failure (OptionError "-bogus" false))
  /\ fst (ParseOptions "-vc-codegen stray" "" true Doubles.initial_world)
     = Ret (Failure (OptionError "stray" false))
  /\ fst (ParseOptions "-vc-codegen -bogus" "-bogus stray" false Doubles.initial_world)
     = Ret (Value Doubles.default_options)
  /\ fst (ParseOptions "-vc-codegen" "-bogus stray" true Doubles.initial_world)
     = Ret (Value Doubles.default_options)
  /\ fst (ParseOptions "-vc-codegen -bogus -Xfinalizer" "" false Doubles.initial_world)
     = Ret (Failure (OptionError "-Xfinalizer" false))
  /\ fst (ParseOptions "-vc-codegen" "-llvm-options" true Doubles.initial_world)
     = Ret (Failure (OptionError "-llvm-options" true)).
Proof. repeat split. Qed.

Lemma fillInternalOptions_bad_binary_format_witness :
  fillInternalOptions [Doubles.bad_binary_format] Doubles.default_options Doubles.initial_world
  = (Ret (Failure (OptionError "-binary-format=zx" true)), Doubles.initial_world).
Proof.
  apply (proj1 (fillInternalOptions_bad_binary_format
                  (Tables := Doubles.tables) (D := Doubles.defaults)
                  [Doubles.bad_binary_format] Doubles.default_options Doubles.initial_world
                  (A := Doubles.bad_binary_format) (Val := "zx") (Rest := [])
                  I eq_refl eq_refl
                  ltac:(discriminate) ltac:(discriminate) ltac:(discriminate))).
Defined.

(** The scenario "-binary-format=zx", and the exactness of the match. *)
Example ParseOptions_binary_format :
  fst (ParseOptions "-vc-codegen" "-binary-format=zx" true Doubles.initial_world)
  = Ret (Failure (OptionError "-binary-format=zx" true))
  /\ fst (ParseOptions "-vc-codegen" "-binary-format=ze -binary-format=ZE" false
                       Doubles.initial_world)
     = Ret (Failure (OptionError "-binary-format=ZE" true))
  /\ fst (ParseOptions "-vc-codegen" "-binary-format=zx -binary-format=cm" false
                       Doubles.initial_world)
     = Ret (Value (set_Binary BinaryKind.CM Doubles.default_options)).
Proof. repeat split. Qed.

(** A successful compilation with timing forced on: the occurrences are
    reset and the timing toggle is back to its value at entry. *)
Lemma Compile_scopes_global_state_witness :
  exists w',
    Compile "SPIRV:sample" (set_TimePasses true Doubles.default_options)
            Doubles.external_data [] [] Doubles.initial_world
    = (Ret (Value (OclOutput ["main"])), w')
    /\ ClOptionOccurrences w' = []
    /\ TimePassesIsEnabled w' = false.
Proof.
  set (run := Compile "SPIRV:sample" (set_TimePasses true Doubles.default_options)
                      Doubles.external_data [] [] Doubles.initial_world).
  assert (E : run = (Ret (Value (OclOutput ["main"])), snd run))
    by (vm_compute; reflexivity).
  exists (snd run). split; [exact E|].
  destruct (Compile_scopes_global_state
              (Triples := Doubles.triples) (Reader := Doubles.reader)
              (Registry := Doubles.registry) (Pipelines := Doubles.pipelines)
              (D := Doubles.defaults) (CL := Doubles.command_line)
              "SPIRV:sample" (set_TimePasses true Doubles.default_options)
              Doubles.external_data [] [] Doubles.initial_world)
    as (_ & Hexit).
  destruct (Hexit _ _ E) as (Hcl & _ & Htp & _).
  split; [exact Hcl | exact Htp].
Defined.

Example Compile_runs :
  Compile "SPIRV:sample"
          (set_LLVMOptions "-vc-a -vc-b" (set_TimePasses true Doubles.default_options))
          Doubles.external_data [] [] Doubles.initial_world
  = (Ret (Value (OclOutput ["main"])),
     mkWorld [] false false
       [cl_ResetAllOptionOccurrences;
        cl_ParseCommandLineOptions ["vc-codegen"; "-vc-a"; "-vc-b"];
        Target_createTargetMachine genx64_triple "XeHP" "+ocl_runtime" CodeGenOpt.Default;
        TimerGroup_printAll;
        cl_ResetAllOptionOccurrences])
  /\ Compile "SPIRV:corrupt" Doubles.default_options Doubles.external_data [] []
             Doubles.initial_world
     = (Ret (Failure (BadBitcodeError "not SPIR-V")),
        mkWorld [] false false
          [cl_ResetAllOptionOccurrences; cl_ParseCommandLineOptions ["vc-codegen"];
           cl_ResetAllOptionOccurrences])
  /\ fst (Compile "SPIRV:sample" {| FType := FileType.SPIRV; CPUStr := "none";
             StackMemSize := None; ForceLiveRangesLocalizationForAccUsage := false;
             ForceDisableNonOverlappingRegionOpt := false; IsLargeGRFMode := false;
             DisableFinalizerMsg := false;
             NoOptFinalizerMode := OverridableFlag.Default;
             DisableLRCoalescingMode := OverridableFlag.Default;
             EmitDebuggableKernels := false; EmitExtendedDebug := false;
             ForceDebugInfoValidation := false; SaveStackCallLinkage := false;
             UsePlain2DImages := false; EnablePreemption := false;
             AllowFPOpFusion := FPOpFusion.Standard; OptLevel := OptimizerLevel.Full;
             Binary := BinaryKind.OpenCL; FeaturesString := ""; LLVMOptions := "";
             NoVecDecomp := false; NoJumpTables := false;
             TranslateLegacyMemoryIntrinsics := false; DisableStructSplitting := false;
             UseBindlessBuffers := false; HasL1ReadOnlyCache := false;
             HasLocalMemFenceSupress := false; FCtrl := 0%N; WATable := None;
             DumpIsa := false; DumpIR := false; DumpAsm := false; DumpDebugInfo := false;
             TimePasses := true; ShowStats := false; StatsFile := "";
             Dumper := None; ShaderOverrider_ := None |}
           Doubles.external_data [] [] Doubles.initial_world)
     = Ret (Failure TargetMachineError).
Proof. repeat split. Qed.

(** Statistics recording, switched on for a request, is still on when
    [Compile] returns: only the timing toggle is saved and restored. *)
Example Compile_leaves_statistics_enabled :
  StatisticsEnabled Doubles.initial_world = false
  /\ StatisticsEnabled
       (snd (Compile "SPIRV:sample" (set_ShowStats true Doubles.default_options)
                     Doubles.external_data [] [] Doubles.initial_world))
     = true.
Proof. split; reflexivity. Qed.

(** ** Further runs *)

(** Closes the branches of a case analysis of a run that the run does not
    take. *)
Ltac not_taken E := exfalso; vm_compute in E; discriminate E.

(** SPIR-V bytes that translate into the bitcode of the sample module. *)
Lemma getModule_returns_verified_witness :
  exists M,
    getModule "SPIRV:sample" FileType.SPIRV [] [] Doubles.initial_world
    = (Ret (Value (Some M)), Doubles.initial_world)
    /\ verifyModule M = false.
Proof.
  destruct (getModule_returns_verified
              (Reader := Doubles.reader)
              "SPIRV:sample" FileType.SPIRV [] [] Doubles.initial_world
              (P := Some Doubles.sample_module) (w' := Doubles.initial_world) eq_refl)
    as (_ & M & HP & HV).
  exists M. split; [now rewrite <- HP | exact HV].
Defined.

(** Bytes the translator refuses: its error comes back as it is. *)
Lemma getModule_error_kinds_witness :
  getModule "SPIRV:corrupt" FileType.SPIRV [] [] Doubles.initial_world
  = (Ret (Failure (BadBitcodeError "not SPIR-V")), Doubles.initial_world)
  /\ translateSPIRVToIR "SPIRV:corrupt" [] [] = Failure (BadBitcodeError "not SPIR-V").
Proof.
  split; [reflexivity|].
  destruct (getModule_error_kinds
              (Reader := Doubles.reader)
              "SPIRV:corrupt" FileType.SPIRV [] [] Doubles.initial_world
              (e := BadBitcodeError "not SPIR-V") (w' := Doubles.initial_world) eq_refl)
    as (_ & [H | [(H & _) | (_ & [H | (IR & Message & H & _)])]]).
  - discriminate H.
  - discriminate H.
  - exact H.
  - discriminate H.
Defined.

Lemma getSubtargetFeatureString_marked_witness :
  Forall (fun F => lacks_marker F = false)
         (StringRef.split "+a, -b,,+c" ",")
  /\ getSubtargetFeatureString
       (set_NoJumpTables true (set_FeaturesString "+a, -b,,+c" Doubles.default_options))
       Doubles.initial_world
     = (Ret "+a,-b,+c,+disable_jump_tables,+ocl_runtime", Doubles.initial_world).
Proof.
  assert (H : Forall (fun F => lacks_marker F = false)
                     (StringRef.split "+a, -b,,+c" ","))
    by (repeat constructor).
  split; [exact H|].
  exact (proj1 (getSubtargetFeatureString_marked
                  (Registry := Doubles.registry)
                  (set_NoJumpTables true
                     (set_FeaturesString "+a, -b,,+c" Doubles.default_options))
                  Doubles.initial_world) H).
Defined.

(** No target for a triple that was not normalized; the optimization level
    "none" carried to the target. *)
Lemma createTargetMachine_outcomes_witness :
  createTargetMachine Doubles.default_options "spir64-unknown-unknown"
                      Doubles.initial_world
  = (Fault "vc target was not registered", Doubles.initial_world)
  /\ exists FeaturesStr,
      fst (createTargetMachine (set_OptLevel OptimizerLevel.None Doubles.default_options)
                               genx64_triple Doubles.initial_world)
      = Ret (Value (mkTargetMachine genx64_triple "XeHP" FeaturesStr
                                    (mkTargetOptions FPOpFusion.Standard)
                                    CodeGenOpt.None)).
Proof.
  split.
  - apply (proj1 (createTargetMachine_outcomes
                    (Registry := Doubles.registry)
                    Doubles.default_options "spir64-unknown-unknown"
                    Doubles.initial_world)).
    reflexivity.
  - destruct (proj2 (createTargetMachine_outcomes
                       (Registry := Doubles.registry)
                       (set_OptLevel OptimizerLevel.None Doubles.default_options)
                       genx64_triple Doubles.initial_world)
                    tt eq_refl (Forall_nil _))
      as (FeaturesStr & Level & _ & HL & Hrun).
    exists FeaturesStr. rewrite Hrun, (proj2 HL eq_refl). reflexivity.
Defined.

Lemma createBackendOptions_overrides_witness :
  Backend.DebuggabilityExtendedDebug
    (createBackendOptions
       (set_OptLevel OptimizerLevel.None
          (set_EmitExtendedDebug true Doubles.default_options)))
  = true.
Proof.
  apply (proj2 (proj1 (createBackendOptions_overrides
                         (D := Doubles.defaults)
                         (set_OptLevel OptimizerLevel.None
                            (set_EmitExtendedDebug true Doubles.default_options))))).
  right. repeat split.
Defined.

Lemma createBackendData_by_width_witness :
  exists BD,
    createBackendData Doubles.external_data 32 Doubles.initial_world
    = (Ret BD, Doubles.initial_world)
    /\ Backend.BiFModule BD BiFKind.VCPrintf = "printf32".
Proof.
  destruct (proj1 (createBackendData_by_width Doubles.external_data 32
                                              Doubles.initial_world)
                  (or_introl eq_refl))
    as (BD & Hrun & Hprintf & _).
  exists BD. split; [exact Hrun | exact Hprintf].
Defined.

Lemma optimizeIR_outcomes_witness :
  exists M',
    optimizeIR Doubles.default_options Doubles.external_data Doubles.target_machine
               Doubles.sample_module Doubles.initial_world
    = (Ret M', Doubles.initial_world).
Proof.
  destruct (proj1 (optimizeIR_outcomes
                     (Registry := Doubles.registry) (Pipelines := Doubles.pipelines)
                     (D := Doubles.defaults)
                     Doubles.default_options Doubles.external_data
                     Doubles.target_machine Doubles.sample_module Doubles.initial_world)
                  (or_intror eq_refl))
    as (BD & Rest & M1 & _ & Hrun).
  eexists. exact Hrun.
Defined.

Lemma runCodeGen_returns_only_if_witness :
  runCodeGen Doubles.default_options Doubles.external_data Doubles.target_machine
             Doubles.sample_module Doubles.initial_world
  = (Ret (OclOutput ["main"], Doubles.sample_module), Doubles.initial_world)
  /\ (getPointerSizeInBits Doubles.target_machine = 32%N
      \/ getPointerSizeInBits Doubles.target_machine = 64%N)
  /\ fst (addPassesToEmitFile Doubles.target_machine NDEBUG) = false.
Proof.
  split; [reflexivity|].
  exact (runCodeGen_returns_only_if
           (Registry := Doubles.registry) (Pipelines := Doubles.pipelines)
           (D := Doubles.defaults)
           Doubles.default_options Doubles.external_data Doubles.target_machine
           Doubles.sample_module Doubles.initial_world
           (Out := OclOutput ["main"]) (M' := Doubles.sample_module)
           (w' := Doubles.initial_world) eq_refl).
Defined.

(** The CM path with a dumper and both final dumps requested. *)
Lemma runCodeGen_final_dumps_witness :
  exists w',
    runCodeGen Doubles.dumping_options Doubles.external_data Doubles.target_machine
               Doubles.sample_module Doubles.initial_world
    = (Ret (CmOutput {| cm.IsaBinary := ".kernel main" |}, Doubles.sample_module), w')
    /\ Trace w' = [Dumper_dumpModule 7 Doubles.sample_module "final.ll";
                   Dumper_dumpBinary 7 ".kernel main" "final.isa"].
Proof.
  set (run := runCodeGen Doubles.dumping_options Doubles.external_data
                         Doubles.target_machine Doubles.sample_module
                         Doubles.initial_world).
  assert (E : run = (Ret (CmOutput {| cm.IsaBinary := ".kernel main" |},
                          Doubles.sample_module), snd run))
    by (vm_compute; reflexivity).
  exists (snd run). split; [exact E|].
  destruct (runCodeGen_final_dumps
              (Registry := Doubles.registry) (Pipelines := Doubles.pipelines)
              (D := Doubles.defaults)
              Doubles.dumping_options Doubles.external_data Doubles.target_machine
              Doubles.sample_module Doubles.initial_world E)
    as (_ & Text & HT & HB & _).
  rewrite HT. pose proof (HB _ eq_refl) as HText. simpl in HText. subst Text.
  reflexivity.
Defined.

Lemma Compile_trace_shape_witness :
  exists w' Events,
    Compile "SPIRV:sample" Doubles.default_options Doubles.external_data [] []
            Doubles.initial_world
    = (Ret (Value (OclOutput ["main"])), w')
    /\ Trace w'
       = [cl_ResetAllOptionOccurrences; cl_ParseCommandLineOptions ["vc-codegen"]]
         ++ Events ++ [cl_ResetAllOptionOccurrences]
    /\ Forall body_event Events.
Proof.
  set (run := Compile "SPIRV:sample" Doubles.default_options Doubles.external_data
                      [] [] Doubles.initial_world).
  assert (E : run = (Ret (Value (OclOutput ["main"])), snd run))
    by (vm_compute; reflexivity).
  destruct (Compile_trace_shape
              (Triples := Doubles.triples) (Reader := Doubles.reader)
              (Registry := Doubles.registry) (Pipelines := Doubles.pipelines)
              (D := Doubles.defaults) (CL := Doubles.command_line)
              "SPIRV:sample" Doubles.default_options Doubles.external_data [] []
              Doubles.initial_world E)
    as (Events & HT & HB & _).
  exists (snd run), Events. split; [exact E|]. split; [exact HT | exact HB].
Defined.

Lemma Compile_output_shape_witness :
  exists Output w',
    Compile "SPIRV:sample" (set_Binary BinaryKind.CM Doubles.default_options)
            Doubles.external_data [] [] Doubles.initial_world
    = (Ret (Value Output), w')
    /\ is_flat Output = true.
Proof.
  set (run := Compile "SPIRV:sample" (set_Binary BinaryKind.CM Doubles.default_options)
                      Doubles.external_data [] [] Doubles.initial_world).
  assert (E : run = (Ret (Value (CmOutput {| cm.IsaBinary := ".kernel main" |})),
                     snd run))
    by (vm_compute; reflexivity).
  eexists _, (snd run). split; [exact E|].
  exact (proj1 (Compile_output_shape
                  (Triples := Doubles.triples) (Reader := Doubles.reader)
                  (Registry := Doubles.registry) (Pipelines := Doubles.pipelines)
                  (D := Doubles.defaults) (CL := Doubles.command_line)
                  "SPIRV:sample" (set_Binary BinaryKind.CM Doubles.default_options)
                  Doubles.external_data [] [] Doubles.initial_world E)).
Defined.

Lemma Compile_stops_at_load_error_witness :
  Compile "SPIRV:corrupt" Doubles.default_options Doubles.external_data [] []
          Doubles.initial_world
  = (Ret (Failure (BadBitcodeError "not SPIR-V")),
     mkWorld [] false false
             [cl_ResetAllOptionOccurrences; cl_ParseCommandLineOptions ["vc-codegen"];
              cl_ResetAllOptionOccurrences]).
Proof.
  exact (Compile_stops_at_load_error
           (Triples := Doubles.triples) (Reader := Doubles.reader)
           (Registry := Doubles.registry) (Pipelines := Doubles.pipelines)
           (D := Doubles.defaults) (CL := Doubles.command_line)
           "SPIRV:corrupt" Doubles.default_options Doubles.external_data [] []
           Doubles.initial_world
           (e := BadBitcodeError "not SPIR-V")
           (w2 := mkWorld [] false false
                          [cl_ResetAllOptionOccurrences;
                           cl_ParseCommandLineOptions ["vc-codegen"]])
           eq_refl).
Defined.

Lemma Compile_statistics_toggle_witness :
  exists w',
    Compile "SPIRV:sample" (set_ShowStats true Doubles.default_options)
            Doubles.external_data [] [] Doubles.initial_world
    = (Ret (Value (OclOutput ["main"])), w')
    /\ StatisticsEnabled w' = true.
Proof.
  set (run := Compile "SPIRV:sample" (set_ShowStats true Doubles.default_options)
                      Doubles.external_data [] [] Doubles.initial_world).
  assert (E : run = (Ret (Value (OclOutput ["main"])), snd run))
    by (vm_compute; reflexivity).
  exists (snd run). split; [exact E|].
  exact (Compile_statistics_toggle
           (Triples := Doubles.triples) (Reader := Doubles.reader)
           (Registry := Doubles.registry) (Pipelines := Doubles.pipelines)
           (D := Doubles.defaults) (CL := Doubles.command_line)
           "SPIRV:sample" (set_ShowStats true Doubles.default_options)
           Doubles.external_data [] [] Doubles.initial_world E).
Defined.

(** An unknown argument before the one whose value is missing: the missing
    value is what is reported. *)
Lemma missing_value_reported_first_witness :
  parseInternalOptions "-bogus -llvm-options" Doubles.initial_world
  = (Ret (Failure (OptionError "-llvm-options" true)), Doubles.initial_world).
Proof.
  apply (proj2 (missing_value_reported_first
                  (Tables := Doubles.tables) (CL := Doubles.command_line))
               "-bogus -llvm-options" Doubles.initial_world "-llvm-options").
  - discriminate.
  - vm_compute. discriminate.
  - reflexivity.
Defined.

Lemma parseApiOptions_deprecation_notice_witness :
  snd (parseApiOptions "-igcmc -emit-debug" true Doubles.initial_world)
  = mkWorld ["-scalar-leftover"] false false
            [errs_write (deprecation_notice "-igcmc")]
  /\ snd (parseApiOptions "-igcmc -vc-codegen" true Doubles.initial_world)
     = Doubles.initial_world.
Proof.
  destruct (parseApiOptions_deprecation_notice
              (Tables := Doubles.tables) (CL := Doubles.command_line)
              "-igcmc -emit-debug" true Doubles.initial_world)
    as (_ & Hold & _).
  destruct (parseApiOptions_deprecation_notice
              (Tables := Doubles.tables) (CL := Doubles.command_line)
              "-igcmc -vc-codegen" true Doubles.initial_world)
    as (Hnew & _).
  split.
  - apply Hold; [not_among | left; reflexivity].
  - apply Hnew. right. left. reflexivity.
Defined.

(** An unknown API flag and a bad internal value: the API error is the one
    returned. *)
Lemma ParseOptions_error_order_witness :
  ParseOptions "-vc-codegen -bogus" "-binary-format=zx" true Doubles.initial_world
  = (Ret (Failure (OptionError "-bogus" false)), Doubles.initial_world).
Proof.
  exact (proj1 (ParseOptions_error_order
                  (Tables := Doubles.tables) (CL := Doubles.command_line)
                  (D := Doubles.defaults)
                  "-vc-codegen -bogus" "-binary-format=zx" true Doubles.initial_world
                  (OptionError "-bogus" false))
               Doubles.initial_world eq_refl).
Defined.

Lemma fillApiOptions_flags_witness :
  exists Opts',
    fillApiOptions Doubles.api_flag_args Doubles.default_options Doubles.initial_world
    = (Ret (Value Opts'), Doubles.initial_world)
    /\ EmitExtendedDebug Opts' = true
    /\ EmitDebuggableKernels Opts' = true
    /\ IsLargeGRFMode Opts' = true
    /\ NoJumpTables Opts' = false.
Proof.
  destruct (fillApiOptions Doubles.api_flag_args Doubles.default_options
                           Doubles.initial_world)
    as [[[Opts'|e]|Message] w'] eqn:E; [|not_taken E..].
  destruct (fillApiOptions_flags
              (Tables := Doubles.tables) _ _ _ E)
    as (-> & _ & Hext & Hdbg & _ & Hjt & _ & _ & Hgrf & _).
  exists Opts'. repeat split; assumption.
Defined.

Lemma fillApiOptions_values_witness :
  exists Opts' w',
    fillApiOptions Doubles.api_value_args Doubles.default_options Doubles.initial_world
    = (Ret (Value Opts'), w')
    /\ AllowFPOpFusion Opts' = FPOpFusion.Fast
    /\ OptLevel Opts' = OptimizerLevel.None
    /\ StackMemSize Opts' = Some 4096%N.
Proof.
  destruct (fillApiOptions Doubles.api_value_args Doubles.default_options
                           Doubles.initial_world)
    as [[[Opts'|e]|Message] w'] eqn:E; [|not_taken E..].
  destruct (fillApiOptions_values
              (Tables := Doubles.tables) _ _ _ E)
    as (Hfp & Hlevel & Hsize).
  exists Opts', w'. split; [reflexivity|].
  hnf in Hfp. destruct Hfp as (V & HV & Hfp).
  vm_compute in HV. injection HV as <-. vm_compute in Hfp.
  hnf in Hlevel.
  hnf in Hsize. destruct Hsize as (V & Size & HV & HI & Hsize).
  vm_compute in HV. injection HV as <-. vm_compute in HI. injection HI as <-.
  injection Hfp as Hfp.
  repeat split; [symmetry; exact Hfp | exact Hlevel | exact Hsize].
Defined.

Lemma fillApiOptions_errors_witness :
  fillApiOptions Doubles.api_bad_level_args Doubles.default_options
                 Doubles.initial_world
  = (Ret (Failure (OptionError "-optimize=fastest" false)), Doubles.initial_world)
  /\ exists A V,
      OptionError "-optimize=fastest" false = OptionError (opt.getAsString A) false
      /\ first_value A = Some V
      /\ ((opt.getLastArg [api.OPT_fp_contract] Doubles.api_bad_level_args = Some A
           /\ fp_contract_mode V = None)
          \/ (opt.getLastArg [api.OPT_vc_optimize; api.OPT_opt_disable_ze]
                             Doubles.api_bad_level_args
              = Some A
              /\ opt.matches (opt.getOption A) api.OPT_vc_optimize = true
              /\ optimizer_level V = None)
          \/ (opt.getLastArg [api.OPT_vc_stateless_private_size]
                             Doubles.api_bad_level_args = Some A
              /\ getAsInteger V = None)).
Proof.
  split; [reflexivity|].
  exact (proj2 (fillApiOptions_errors
                  (Tables := Doubles.tables)
                  Doubles.api_bad_level_args Doubles.default_options
                  Doubles.initial_world
                  (e := OptionError "-optimize=fastest" false)
                  (w' := Doubles.initial_world) eq_refl)).
Defined.

Lemma fillInternalOptions_fields_witness :
  exists Opts' w',
    fillInternalOptions Doubles.internal_field_args Doubles.default_options
                        Doubles.initial_world
    = (Ret (Value Opts'), w')
    /\ DumpIsa Opts' = true
    /\ DumpIR Opts' = false
    /\ StatsFile Opts' = "s.txt"
    /\ FeaturesString Opts' = "+a,-b,+c"
    /\ Binary Opts' = BinaryKind.CM.
Proof.
  destruct (fillInternalOptions Doubles.internal_field_args Doubles.default_options
                                Doubles.initial_world)
    as [[[Opts'|e]|Message] w'] eqn:E; [|not_taken E..].
  destruct (fillInternalOptions_fields
              (Tables := Doubles.tables) _ _ _ E)
    as (Hisa & Hir & _ & _ & _ & _ & Hstats & Hfeatures & Hbinary).
  exists Opts', w'. split; [reflexivity|].
  hnf in Hstats. vm_compute in Hstats.
  hnf in Hbinary. destruct Hbinary as (V & HV & Hbinary).
  vm_compute in HV. injection HV as <-. vm_compute in Hbinary.
  injection Hstats as Hstats. injection Hbinary as Hbinary.
  repeat split;
    [exact Hisa | exact Hir | symmetry; exact Hstats | exact Hfeatures
    | symmetry; exact Hbinary].
Defined.

Lemma fillInternalOptions_help_witness :
  exists Opts' w',
    fillInternalOptions Doubles.internal_help_args Doubles.default_options
                        Doubles.initial_world
    = (Ret (Value Opts'), w')
    /\ Trace w' = [api_help; internal_help].
Proof.
  destruct (fillInternalOptions_help
              (Tables := Doubles.tables)
              Doubles.internal_help_args Doubles.default_options
              Doubles.initial_world I I)
    as (Opts' & w' & Hrun & _ & HT).
  exists Opts', w'. split; [exact Hrun | exact HT].
Defined.

(** The API stage on options whose output kind is CM: the kind is kept. *)
Lemma fill_stages_write_disjoint_fields_witness :
  exists Opts' w',
    fillApiOptions Doubles.api_value_args
                   (set_Binary BinaryKind.CM Doubles.default_options)
                   Doubles.initial_world
    = (Ret (Value Opts'), w')
    /\ Binary Opts' = BinaryKind.CM
    /\ LLVMOptions Opts' = "".
Proof.
  destruct (fillApiOptions Doubles.api_value_args
                           (set_Binary BinaryKind.CM Doubles.default_options)
                           Doubles.initial_world)
    as [[[Opts'|e]|Message] w'] eqn:E; [|not_taken E..].
  destruct (proj1 (fill_stages_write_disjoint_fields
                     (Tables := Doubles.tables))
                  _ _ _ _ _ E)
    as (_ & _ & _ & _ & _ & _ & _ & Hbinary & _ & Hllvm).
  exists Opts', w'. split; [reflexivity|]. split; [exact Hbinary | exact Hllvm].
Defined.

(** The argument spelled inside the grammar is seen although its own
    option is outside it; the one spelled outside is dropped although its
    own option is inside, so the level seen is the earlier one. *)
Lemma filterUsedOptions_visibility_witness :
  opt.hasArg api.OPT_gtpin_rera (filterUsedOptions Doubles.api_alias_args Doubles.VC)
  = true
  /\ ~ In Doubles.spelled_outside
          (filterUsedOptions Doubles.api_alias_args Doubles.VC)
  /\ opt.getLastArg [api.OPT_vc_optimize]
                    (filterUsedOptions Doubles.api_alias_args Doubles.VC)
     = Some (Doubles.api_arg api.OPT_vc_optimize ["none"] "-optimize=none")
  /\ exists Before After,
      Doubles.api_alias_args
      = Before ++ Doubles.api_arg api.OPT_vc_optimize ["none"] "-optimize=none" :: After
      /\ forall B, In B After ->
                   existsb (opt.matches (opt.getOption B)) [api.OPT_vc_optimize] = true ->
                   carries_flag Doubles.VC B = false.
Proof.
  destruct (filterUsedOptions_visibility Doubles.api_alias_args Doubles.VC)
    as (Halias & _ & Hseen & Hlast & _).
  split; [|split; [|split]].
  - apply Hseen. exists Doubles.spelled_inside.
    split; [right; left; reflexivity | split; reflexivity].
  - intros H. apply (Halias Doubles.spelled_outside _ eq_refl) in H.
    destruct H as [_ H]. discriminate H.
  - reflexivity.
  - destruct (Hlast [api.OPT_vc_optimize]
                    (Doubles.api_arg api.OPT_vc_optimize ["none"] "-optimize=none")
                    eq_refl)
      as (Before & After & HArgs & _ & _ & HAfter).
    exists Before, After. split; [exact HArgs | exact HAfter].
Defined.

Lemma ParseOptions_effects_witness :
  exists Opts w',
    ParseOptions "-igcmc -emit-debug" "-dump-isa-binary" true Doubles.initial_world
    = (Ret (Value Opts), w')
    /\ same_globals Doubles.initial_world w'
    /\ extends_by option_event Doubles.initial_world w'.
Proof.
  destruct (ParseOptions "-igcmc -emit-debug" "-dump-isa-binary" true
                         Doubles.initial_world)
    as [[[Opts|e]|Message] w'] eqn:E; [|not_taken E..].
  exists Opts, w'. split; [reflexivity|].
  exact (ParseOptions_effects
           (Tables := Doubles.tables) (CL := Doubles.command_line)
           (D := Doubles.defaults) _ _ _ _ E).
Defined.


End Runs.
